(** * Industrial marketplace backend: inquiry lifecycle and request security

    A shallow embedding of the inquiry model ([models/Inquiry.js]), the
    inquiry routes ([routes/inquiries.js]), the security middleware
    ([middleware/security.js]) and the route mounting of [server.js],
    followed by the properties of the specification that concern them.

    Conventions.
    - A JavaScript [Number] is an IEEE 754 binary64 value ([spec_float] with
      precision 53 and maximal exponent 1024), so that [Math.round] and
      [Math.floor] behave as they do in the running program.
    - A JavaScript string is a [string]; one [ascii] stands for one code unit,
      so the strings of the model are those over the code units below 256.
      On them a character is one code unit, the code points that
      [isLength] counts and the code units that [minlength] and [maxlength]
      count are the same number, and [toLowerCase] stays within them.
    - An ObjectId is written as its [toString()] writes it: 24 hexadecimal
      digits in lower case.
    - A [Date] is a number of milliseconds ([Z]); [new Date()] reads a clock
      value that the caller of the model passes in as [now].
    - An asynchronous method that mutates [this] and may throw is a function
      in the state and error monad [Method] over the document. *)

From Stdlib Require Import ZArith String Ascii List Bool Lia.
From Stdlib Require Import Floats.SpecFloat.
From stdpp Require Import base option gmap strings list.

Local Open Scope string_scope.
Local Open Scope Z_scope.

(* ===================================================================== *)
(** ** JavaScript numbers *)
(* ===================================================================== *)

Module JsNum.

Definition Number : Type := spec_float.

Definition prec : Z := 53.
Definition emax : Z := 1024.

(** The Number nearest to the integer [k] (exact up to 2^53). *)
Definition of_Z (k : Z) : Number := binary_normalize prec emax k 0 false.

Definition mul : Number -> Number -> Number := SFmul prec emax.
Definition div : Number -> Number -> Number := SFdiv prec emax.
Definition ltb : Number -> Number -> bool := SFltb.
Definition leb : Number -> Number -> bool := SFleb.

(** A decimal literal [n / 10^d], correctly rounded as the parser does. *)
Definition of_decimal (n : Z) (d : Z) : Number := div (of_Z n) (of_Z (10 ^ d)).

(** [if (x)] on a Number: zero and NaN are falsy. *)
Definition truthy (x : Number) : bool :=
  match x with
  | S754_zero _ | S754_nan => false
  | _ => true
  end.

Definition is_finite (x : Number) : bool :=
  match x with
  | S754_zero _ | S754_finite _ _ _ => true
  | _ => false
  end.

(** The signed mantissa of a finite Number: its value is [signed s m * 2^e]. *)
Definition signed (s : bool) (m : positive) : Z := if s then Zneg m else Zpos m.

(** The exact floor of a finite Number, as an integer. *)
Definition floorZ (x : Number) : option Z :=
  match x with
  | S754_zero _ => Some 0
  | S754_finite s m e => Some (Z.shiftl (signed s m) e)
  | _ => None
  end.

(** The exact value of [floor (x + 1/2)] of a finite Number. *)
Definition roundZ (x : Number) : option Z :=
  match x with
  | S754_zero _ => Some 0
  | S754_finite s m e =>
      if 0 <=? e then Some (Z.shiftl (signed s m) e)
      else Some (Z.shiftr (2 * signed s m + 2 ^ (- e)) (- e + 1))
  | _ => None
  end.

(** [Math.floor]: the largest integral Number not above [x]; zeros,
    infinities, NaN and Numbers that are already integral are returned
    as they are. *)
Definition Math_floor (x : Number) : Number :=
  match x with
  | S754_finite s m e =>
      if 0 <=? e then x
      else binary_normalize prec emax (Z.shiftl (signed s m) e) 0 false
  | _ => x
  end.

(** [Math.round]: the integral Number closest to [x], a tie going to the
    one closer to plus infinity; a result of zero keeps the sign of [x]. *)
Definition Math_round (x : Number) : Number :=
  match x with
  | S754_finite s m e =>
      if 0 <=? e then x
      else binary_normalize prec emax
             (Z.shiftr (2 * signed s m + 2 ^ (- e)) (- e + 1)) 0 s
  | _ => x
  end.

(** A finite Number is integral when no bit of its mantissa lies below
    the binary point. *)
Definition is_integral (x : Number) : bool :=
  match x with
  | S754_zero _ => true
  | S754_finite _ m e => (0 <=? e) || (Zpos m mod 2 ^ (- e) =? 0)
  | _ => false
  end.

(** The integer an integral Number stands for. *)
Definition intval (x : Number) : option Z :=
  match x with
  | S754_zero _ => Some 0
  | S754_finite s m e =>
      if is_integral x then Some (Z.shiftl (signed s m) e) else None
  | _ => None
  end.

(** A proper binary64 value: the mantissa has at most 53 bits and sits at
    the exponent the format gives it. *)
Definition is_binary64 (x : Number) : bool := valid_binary prec emax x.

End JsNum.

Import JsNum.

(* ===================================================================== *)
(** ** JavaScript strings *)
(* ===================================================================== *)

Module JsString.

(** White space as [String.prototype.trim] sees it, among the code units
    below 256: TAB, LF, VT, FF, CR, SP and NBSP. *)
Definition is_ws (c : ascii) : bool :=
  let n := N_of_ascii c in
  (((9 <=? n) && (n <=? 13)) || (n =? 32) || (n =? 160))%N.

Fixpoint trimStart (s : string) : string :=
  match s with
  | String c r => if is_ws c then trimStart r else s
  | EmptyString => EmptyString
  end.

Fixpoint trimEnd (s : string) : string :=
  match s with
  | String c r =>
      match trimEnd r with
      | EmptyString => if is_ws c then EmptyString else String c EmptyString
      | r' => String c r'
      end
  | EmptyString => EmptyString
  end.

Definition trim (s : string) : string := trimEnd (trimStart s).

(** [Array.prototype.includes] on an array of strings. *)
Definition includes (l : list string) (x : string) : bool :=
  existsb (String.eqb x) l.

Definition is_hex (c : ascii) : bool :=
  let n := N_of_ascii c in
  (((48 <=? n) && (n <=? 57)) || ((65 <=? n) && (n <=? 70))
   || ((97 <=? n) && (n <=? 102)))%N.

Fixpoint all_chars (f : ascii -> bool) (s : string) : bool :=
  match s with
  | String c r => f c && all_chars f r
  | EmptyString => true
  end.

(** The pattern [/^[0-9a-fA-F]{24}$/]. *)
Definition isObjectId (s : string) : bool :=
  (String.length s =? 24)%nat && all_chars is_hex s.

(** The length of a string between two bounds.  [isLength] of the
    validation counts a surrogate pair once and the schema's
    [minlength]/[maxlength] count code units; a string of code units below
    256 has no surrogate pair, so here both count [s.length]. *)
Definition length_in (lo hi : nat) (s : string) : bool :=
  ((lo <=? String.length s) && (String.length s <=? hi))%nat.

(** [String.prototype.toLowerCase] on the code units below 256: the
    letters A to Z, and the capital letters of Latin-1 (192 to 222 without
    the multiplication sign 215), move up by 32. *)
Definition lower_char (c : ascii) : ascii :=
  let n := N_of_ascii c in
  if (((65 <=? n) && (n <=? 90))
      || ((192 <=? n) && (n <=? 222) && negb (n =? 215)))%N
  then ascii_of_N (n + 32)
  else c.

Fixpoint toLowerCase (s : string) : string :=
  match s with
  | String c r => String (lower_char c) (toLowerCase r)
  | EmptyString => EmptyString
  end.

Definition is_digit (c : ascii) : bool :=
  let n := N_of_ascii c in ((48 <=? n) && (n <=? 57))%N.

(** The pattern [/^1[3-9]\d{9}$|^$/] of the phone numbers. *)
Definition phonePattern (s : string) : bool :=
  match s with
  | EmptyString => true
  | String c1 (String c2 r) =>
      Ascii.eqb c1 "1"%char
      && ((51 <=? N_of_ascii c2) && (N_of_ascii c2 <=? 57))%N
      && (String.length r =? 9)%nat && all_chars is_digit r
  | _ => false
  end.

(** The class [[^\s@]]: [\s] is the white space of [trim]. *)
Definition plain_char (c : ascii) : bool :=
  negb (is_ws c) && negb (Ascii.eqb c "@"%char).

(** Some dot of the string is not its last character. *)
Fixpoint dot_before_end (s : string) : bool :=
  match s with
  | String c (String _ _ as r) => Ascii.eqb c "."%char || dot_before_end r
  | _ => false
  end.

(** What may follow the [@]: [[^\s@]+\.[^\s@]+] up to the end, that is,
    plain characters one of which, neither the first nor the last, is a
    dot. *)
Definition emailDomain (d : string) : bool :=
  all_chars plain_char d
  && match d with
     | String _ r => dot_before_end r
     | EmptyString => false
     end.

(** The pattern [/^[^\s@]+@[^\s@]+\.[^\s@]+$/] of the e-mail addresses;
    [seen] tells that a character of the part before the [@] has been
    read. *)
Fixpoint emailFrom (seen : bool) (s : string) : bool :=
  match s with
  | EmptyString => false
  | String c r =>
      if Ascii.eqb c "@"%char then seen && emailDomain r
      else if is_ws c then false
      else emailFrom true r
  end.

Definition emailPattern (s : string) : bool := emailFrom false s.

End JsString.

(** The ObjectId that mongoose casts a text of 24 hexadecimal digits to,
    written as [toString()] writes it: the digits are read in either case.
    The routes let no other text reach a cast: the id of a path is matched
    against the pattern first, the product id of a body is checked by the
    validation middleware, and [req.user.id] is the text of an ObjectId. *)
Module ObjectId.
Definition cast (text : string) : string := JsString.toLowerCase text.
End ObjectId.

Import JsString.

(* ===================================================================== *)
(** ** Errors and the method monad *)
(* ===================================================================== *)

(** The fields of an inquiry that carry schema validators. *)
Inductive Path :=
| p_quantity | p_message | p_status
| p_buyerContact_phone | p_buyerContact_email
| p_response_message | p_response_price | p_response_deliveryTime
| p_expectedPrice | p_urgency.

Inductive JsError :=
| Error (msg : string)                 (* [throw new Error(msg)] *)
| TypeError                            (* a property read on [undefined] *)
| ValidationError (paths : list Path). (* raised by [save] *)

Inductive outcome (A : Type) :=
| Returned (a : A)
| Thrown (e : JsError).
Arguments Returned {A} a.
Arguments Thrown {A} e.

(** A method of a document of type [S]: it reads and mutates [this] and
    either returns or throws; what it did to [this] before throwing stays. *)
Definition Method (S A : Type) : Type := S -> S * outcome A.

Definition ret {S A} (a : A) : Method S A := fun this => (this, Returned a).
Definition throw {S A} (e : JsError) : Method S A := fun this => (this, Thrown e).
Definition this {S} : Method S S := fun this => (this, Returned this).
Definition assign {S} (f : S -> S) : Method S unit := fun this => (f this, Returned tt).
Definition bind {S A B} (m : Method S A) (k : A -> Method S B) : Method S B :=
  fun this =>
    match m this with
    | (this', Returned a) => k a this'
    | (this', Thrown e) => (this', Thrown e)
    end.

Declare Scope method_scope.
Delimit Scope method_scope with method.
Notation "'let*' x ':=' m 'in' k" := (bind m (fun x => k))
  (at level 10, x name, m at level 100, k at level 200) : method_scope.
Notation "m ';;;' k" := (bind m (fun _ => k))
  (at level 100, k at level 200, right associativity) : method_scope.

(* ===================================================================== *)
(** ** The inquiry model ([models/Inquiry.js]) *)
(* ===================================================================== *)

Module Response.
(** The [response] sub-record of an inquiry. *)
Record t := mk {
  message : string;
  price : Number;
  deliveryTime : string;
  respondedAt : Z
}.
End Response.

Module Contact.
Record t := mk { phone : option string; email : option string }.
End Contact.

Module Inquiry.

Record t := mk {
  _id : string;
  product : string;            (* ObjectId of the product *)
  buyer : string;              (* ObjectId of the buying user *)
  seller : string;             (* ObjectId of the selling user *)
  quantity : Number;
  message : string;
  status : string;
  buyerContact : Contact.t;
  response : option Response.t;
  expectedPrice : option Number;
  urgency : string;
  createdAt : Z;
  updatedAt : Z
}.

Definition set_status (v : string) (d : t) : t :=
  mk (_id d) (product d) (buyer d) (seller d) (quantity d) (message d) v
     (buyerContact d) (response d) (expectedPrice d) (urgency d)
     (createdAt d) (updatedAt d).

Definition set_response (v : option Response.t) (d : t) : t :=
  mk (_id d) (product d) (buyer d) (seller d) (quantity d) (message d)
     (status d) (buyerContact d) v (expectedPrice d) (urgency d)
     (createdAt d) (updatedAt d).

Definition set_quantity (v : Number) (d : t) : t :=
  mk (_id d) (product d) (buyer d) (seller d) v (message d) (status d)
     (buyerContact d) (response d) (expectedPrice d) (urgency d)
     (createdAt d) (updatedAt d).

Definition set_expectedPrice (v : option Number) (d : t) : t :=
  mk (_id d) (product d) (buyer d) (seller d) (quantity d) (message d)
     (status d) (buyerContact d) (response d) v (urgency d)
     (createdAt d) (updatedAt d).

Definition set_updatedAt (v : Z) (d : t) : t :=
  mk (_id d) (product d) (buyer d) (seller d) (quantity d) (message d)
     (status d) (buyerContact d) (response d) (expectedPrice d) (urgency d)
     (createdAt d) v.

(** The [enum] of the [status] path and that of the [urgency] path. *)
Definition statusValues : list string :=
  ["pending"; "responded"; "accepted"; "rejected"; "completed"; "cancelled"].

Definition urgencyValues : list string := ["low"; "medium"; "high"].

(** *** Virtual fields *)

Definition canRespond (d : t) : bool := String.eqb (status d) "pending".

Definition isCompleted (d : t) : bool :=
  includes ["accepted"; "rejected"; "completed"; "cancelled"] (status d).

(** *** Schema validators

    [min]/[max] compare Numbers, [minlength]/[maxlength] string lengths,
    [match] tests a pattern on a string that is neither absent nor empty,
    and a path without a value passes every validator but [required].
    The three [required] ObjectIds are fields of every document of type
    [t].  The custom validator of [quantity] reads [this.product.stock];
    the [product] path holds an ObjectId whenever a document is saved by
    this program, so [this.product.stock] is [undefined], the comparison
    [undefined < quantity] is false and the validator accepts. *)
Definition matches_pattern (pattern : string -> bool) (v : option string) : bool :=
  match v with
  | Some s => String.eqb s "" || pattern s
  | None => true
  end.

Definition check (p : Path) (d : t) : bool :=
  match p with
  | p_quantity => leb (of_Z 1) (quantity d)
  | p_message => negb (String.eqb (message d) "") && length_in 10 500 (message d)
  | p_status => includes statusValues (status d)
  | p_buyerContact_phone => matches_pattern phonePattern (Contact.phone (buyerContact d))
  | p_buyerContact_email => matches_pattern emailPattern (Contact.email (buyerContact d))
  | p_urgency => includes urgencyValues (urgency d)
  | p_expectedPrice =>
      match expectedPrice d with
      | Some x => leb (of_Z 0) x && leb x (of_Z 1000000)
      | None => true
      end
  | p_response_message =>
      match response d with
      | Some r => length_in 0 1000 (Response.message r)
      | None => true
      end
  | p_response_price =>
      match response d with
      | Some r => leb (of_Z 0) (Response.price r)
                  && leb (Response.price r) (of_Z 1000000)
      | None => true
      end
  | p_response_deliveryTime =>
      match response d with
      | Some r => length_in 0 100 (Response.deliveryTime r)
      | None => true
      end
  end.

(** The paths with validators, in the order of the schema. *)
Definition schemaPaths : list Path :=
  [ p_quantity; p_message; p_status; p_buyerContact_phone; p_buyerContact_email;
    p_response_message; p_response_price; p_response_deliveryTime;
    p_expectedPrice; p_urgency ].

(** [this.validate()]: the paths whose validator rejects the document.
    Before a save mongoose validates every path that was loaded, set or
    filled by a default, and every required one: all of [schemaPaths]. *)
Definition validate (d : t) : list Path :=
  List.filter (fun p => negb (check p d)) schemaPaths.

(** *** [inquirySchema.pre('save')] *)

(** [Math.round(x * 100) / 100] *)
Definition round2 (x : Number) : Number :=
  div (Math_round (mul x (of_Z 100))) (of_Z 100).

Definition preSave (d : t) : t :=
  let d1 :=
    match expectedPrice d with
    | Some x => if truthy x then set_expectedPrice (Some (round2 x)) d else d
    | None => d
    end in
  let d2 :=
    match response d1 with
    | Some r =>
        if truthy (Response.price r)
        then set_response
               (Some (Response.mk (Response.message r) (round2 (Response.price r))
                        (Response.deliveryTime r) (Response.respondedAt r))) d1
        else d1
    | None => d1
    end in
  if truthy (quantity d2) then set_quantity (Math_floor (quantity d2)) d2 else d2.

(** [this.save()]: the validators run first, then the [pre('save')]
    hook, and the [timestamps] option stamps [updatedAt]. *)
Definition save (now : Z) : Method t unit :=
  (let* d := this in
   match validate d with
   | [] => assign (fun d => set_updatedAt now (preSave d))
   | errs => throw (ValidationError errs)
   end)%method.

(** *** Instance methods *)

Record ResponseData := mkData {
  d_message : string;
  d_price : Number;
  d_deliveryTime : string
}.

Definition msg_already_responded : string := "该询价已回复，无法再次回复".

(** The schema's [trim] setters run when [response] is assigned. *)
Definition respondToInquiry (responseData : ResponseData) (now : Z)
  : Method t unit :=
  (let* d := this in
   if negb (String.eqb (status d) "pending")
   then throw (Error msg_already_responded)
   else
     assign (set_status "responded") ;;;
     assign (set_response
               (Some (Response.mk (trim (d_message responseData))
                        (d_price responseData)
                        (trim (d_deliveryTime responseData))
                        now))) ;;;
     save now)%method.

Definition validTransitions : gmap string (list string) :=
  list_to_map
    [ ("pending", ["responded"; "cancelled"]);
      ("responded", ["accepted"; "rejected"; "completed"]);
      ("accepted", ["completed"; "cancelled"]);
      ("rejected", ["cancelled"]);
      ("completed", []);
      ("cancelled", []) ].

Definition msg_transition (from to : string) : string :=
  ("无法从 " ++ from ++ " 状态切换到 " ++ to ++ " 状态")%string.

(** [validTransitions[this.status]] is [undefined] for a status outside
    the table, and reading [.includes] of it raises a TypeError. *)
Definition updateStatus (newStatus : string) (now : Z) : Method t unit :=
  (let* d := this in
   match validTransitions !! status d with
   | None => throw TypeError
   | Some allowed =>
       if negb (includes allowed newStatus)
       then throw (Error (msg_transition (status d) newStatus))
       else
         assign (set_status newStatus) ;;;
         save now
   end)%method.

End Inquiry.

Module InquiryCreate.
Import Inquiry.

(** The argument of [Inquiry.create] in the create route. *)
Record Fields := mkFields {
  f_product : string;
  f_buyer : string;
  f_seller : string;
  f_quantity : Number;
  f_message : string;
  f_expectedPrice : option Number;
  f_buyerContact : Contact.t
}.

(** The setters of the two [buyerContact] paths: [trim] on both, and
    [lowercase] on the e-mail address, which runs first (mongoose applies
    the setters of a path last declared first). *)
Definition setContact (c : Contact.t) : Contact.t :=
  Contact.mk (option_map trim (Contact.phone c))
             (option_map (fun e => trim (toLowerCase e)) (Contact.email c)).

(** [new Inquiry(fields)]: the text of the product id is cast to an
    ObjectId, the schema defaults fill [status] and [urgency], the setters
    run on [message] and on [buyerContact], and the [timestamps] option
    stamps [createdAt]. *)
Definition construct (newId : string) (fields : Fields) (now : Z) : Inquiry.t :=
  Inquiry.mk newId (ObjectId.cast (f_product fields)) (f_buyer fields)
    (f_seller fields) (f_quantity fields) (trim (f_message fields)) "pending"
    (setContact (f_buyerContact fields)) None (f_expectedPrice fields) "medium"
    now now.

(** [Inquiry.create(fields)]: build the document and save it. *)
Definition create (newId : string) (fields : Fields) (now : Z)
  : Inquiry.t * outcome unit :=
  save now (construct newId fields now).

End InquiryCreate.

(* ===================================================================== *)
(** ** Products, users and the document store *)
(* ===================================================================== *)

Module Product.
Record t := mk {
  _id : string;
  name : string;
  price : Number;
  seller : string;             (* ObjectId of the owning user *)
  stock : Number;
  isActive : bool;
  views : Number
}.
End Product.

Module User.
Record t := mk {
  _id : string;
  username : string;
  email : string;
  phone : option string;
  role : string
}.
(** The [id] virtual: the hexadecimal text of [_id]. *)
Definition id (u : t) : string := _id u.
End User.

Record Db := mkDb {
  users : gmap string User.t;
  products : gmap string Product.t;
  inquiries : gmap string Inquiry.t
}.

Definition put_inquiry (d : Inquiry.t) (db : Db) : Db :=
  mkDb (users db) (products db) (<[Inquiry._id d := d]> (inquiries db)).

(* ===================================================================== *)
(** ** HTTP responses *)
(* ===================================================================== *)

Record FieldError := mkFieldError { fe_field : string; fe_message : string }.

(** The JSON bodies the modelled routes and middleware send. *)
Inductive Payload :=
| ErrorJson (message : string)
    (* [{ status: 'error', message }] *)
| StockErrorJson (stock : Number)
    (* [{ status: 'error', message: `库存不足，当前库存为 ${stock}` }] *)
| ValidationJson (errors : list FieldError)
    (* [{ status: 'error', message: '数据验证失败', errors }] *)
| CsrfErrorJson (message : string) (hasCsrfSecret : bool)
    (* [{ status: 'error', message, details: { ..., debug } }] *)
| InquiryJson (inquiry : Inquiry.t)
    (* [{ status: 'success', data: { inquiry } }] *)
| OtherJson (tag : string).
    (* the body of a route that is not modelled in detail *)

(** An answer: the status code and the value that the handler hands to
    [res.json].  [xssProtection] stands in front of every route, so what
    goes out is the text of that value after the outbound filter. *)
Record HttpResponse := mkResponse { code : Z; payload : Payload }.

(* ===================================================================== *)
(** ** The inquiry routes ([routes/inquiries.js]) *)
(* ===================================================================== *)

Module Routes.

Record CreateBody := mkCreateBody {
  productId : string;
  quantity : Number;
  message : string;
  expectedPrice : option Number
}.

Record RespondBody := mkRespondBody {
  r_message : string;
  r_price : Number;
  r_deliveryTime : string
}.

(** *** express-validator checks on the fields of a JSON body

    A missing string field validates like the empty string.  [isInt]
    and [isFloat] test the decimal text of the Number: [isInt] accepts an
    integral Number below 1e21 (from there on the text is in exponent
    notation), [isFloat] a finite one; both then compare with the bounds. *)
Definition isInt_min (lo : Z) (x : Number) : bool :=
  is_integral x && leb (of_Z lo) x && ltb x (of_Z (10 ^ 21)).

Definition isFloat_range (lo hi : Z) (x : Number) : bool :=
  is_finite x && leb (of_Z lo) x && leb x (of_Z hi).

Definition notEmpty (s : string) : bool := negb (String.eqb s "").

(** One validator of a chain with the message given by [withMessage]. *)
Definition rule (field : string) (ok : bool) (msg : string) : list FieldError :=
  if ok then [] else [mkFieldError field msg].

Definition createInquiryValidation (b : CreateBody) : list FieldError :=
  rule "productId" (notEmpty (productId b)) "商品ID不能为空"
  ++ rule "productId" (isObjectId (productId b)) "无效的商品ID格式"
  ++ rule "quantity" (isInt_min 1 (quantity b)) "采购数量必须大于0"
  ++ rule "message" (notEmpty (message b)) "询价留言不能为空"
  ++ rule "message" (length_in 10 500 (message b)) "询价留言必须为10-500位字符"
  ++ match expectedPrice b with
     | Some x => rule "expectedPrice" (isFloat_range 0 1000000 x)
                      "期望价格必须在0-1000000之间"
     | None => []
     end.

Definition respondInquiryValidation (b : RespondBody) : list FieldError :=
  rule "message" (notEmpty (r_message b)) "回复内容不能为空"
  ++ rule "message" (length_in 10 1000 (r_message b)) "回复内容必须为10-1000位字符"
  ++ rule "price" (isFloat_range 0 1000000 (r_price b)) "报价必须在0-1000000之间"
  ++ rule "deliveryTime" (notEmpty (r_deliveryTime b)) "交货时间不能为空"
  ++ rule "deliveryTime" (length_in 0 100 (r_deliveryTime b))
          "交货时间描述不能超过100个字符".

(** The [trim()] sanitizers of the chains rewrite the body. *)
Definition sanitizeCreateBody (b : CreateBody) : CreateBody :=
  mkCreateBody (productId b) (quantity b) (trim (message b)) (expectedPrice b).

Definition sanitizeRespondBody (b : RespondBody) : RespondBody :=
  mkRespondBody (trim (r_message b)) (r_price b) (trim (r_deliveryTime b)).

(** [handleValidationErrors]: answer 400 when a chain reported an error. *)
Definition handleValidationErrors (errors : list FieldError) : option HttpResponse :=
  match errors with
  | [] => None
  | _ => Some (mkResponse 400 (ValidationJson errors))
  end.

(** [Product.findOne({ _id: productId, isActive: true })]; the filter
    casts the text of the id to an ObjectId. *)
Definition findActiveProduct (db : Db) (productId : string) : option Product.t :=
  match products db !! ObjectId.cast productId with
  | Some p => if Product.isActive p then Some p else None
  | None => None
  end.

(** [Inquiry.findOne({ _id: id, seller: userId })]; the filter casts the
    text of the id to an ObjectId. *)
Definition findInquiryOfSeller (db : Db) (id userId : string) : option Inquiry.t :=
  match inquiries db !! ObjectId.cast id with
  | Some d => if String.eqb (Inquiry.seller d) userId then Some d else None
  | None => None
  end.

(** The handler of [POST /]: the code after the validation middleware.
    [populate('seller')] leaves [product.seller] null when the user is
    gone, and reading [product.seller._id] then throws into the [catch]. *)
Definition post_inquiry (db : Db) (user : User.t) (b : CreateBody)
    (newId : string) (now : Z) : Db * HttpResponse :=
  match findActiveProduct db (productId b) with
  | None => (db, mkResponse 404 (ErrorJson "商品不存在或已下架"))
  | Some product =>
      if ltb (Product.stock product) (quantity b)
      then (db, mkResponse 400 (StockErrorJson (Product.stock product)))
      else
        match users db !! Product.seller product with
        | None => (db, mkResponse 500 (ErrorJson "创建询价失败"))
        | Some seller =>
            if String.eqb (User._id seller) (User.id user)
            then (db, mkResponse 400 (ErrorJson "不能对自己的商品进行询价"))
            else
              match InquiryCreate.create newId
                      (InquiryCreate.mkFields (productId b) (User.id user)
                         (User._id seller) (quantity b) (message b)
                         (expectedPrice b)
                         (Contact.mk (User.phone user) (Some (User.email user))))
                      now with
              | (inquiry, Returned _) =>
                  (put_inquiry inquiry db, mkResponse 201 (InquiryJson inquiry))
              | (_, Thrown _) =>
                  (db, mkResponse 500 (ErrorJson "创建询价失败"))
              end
        end
  end.

(** The handler of [PATCH /:id/respond]. *)
Definition patch_respond (db : Db) (user : User.t) (id : string)
    (b : RespondBody) (now : Z) : Db * HttpResponse :=
  if negb (isObjectId id)
  then (db, mkResponse 400 (ErrorJson "无效的询价ID格式"))
  else
    match findInquiryOfSeller db id (User.id user) with
    | None => (db, mkResponse 404 (ErrorJson "询价不存在或无权操作"))
    | Some inquiry =>
        if negb (String.eqb (Inquiry.status inquiry) "pending")
        then (db, mkResponse 400 (ErrorJson "该询价已回复，无法再次回复"))
        else
          let run :=
            (assign (Inquiry.set_status "responded") ;;;
             assign (Inquiry.set_response
                       (Some (Response.mk (trim (r_message b)) (r_price b)
                                (trim (r_deliveryTime b)) now))) ;;;
             Inquiry.save now)%method in
          match run inquiry with
          | (inquiry', Returned _) =>
              (put_inquiry inquiry' db, mkResponse 200 (InquiryJson inquiry'))
          | (_, Thrown _) =>
              (db, mkResponse 500 (ErrorJson "回复询价失败"))
          end
    end.

(** The handler of [GET /:id].  [populate] leaves a party [null] when
    its user is gone, and reading [_id] of it throws into the [catch]; the
    permission check reads the buyer first and, by [&&], the seller only
    when the buyer is not the caller. *)
Definition get_inquiry (db : Db) (user : User.t) (id : string)
  : Db * HttpResponse :=
  if negb (isObjectId id)
  then (db, mkResponse 400 (ErrorJson "无效的询价ID格式"))
  else
    match inquiries db !! ObjectId.cast id with
    | None => (db, mkResponse 404 (ErrorJson "询价不存在"))
    | Some inquiry =>
        match users db !! Inquiry.buyer inquiry with
        | None => (db, mkResponse 500 (ErrorJson "获取询价详情失败"))
        | Some b =>
            if negb (String.eqb (User._id b) (User.id user))
            then
              match users db !! Inquiry.seller inquiry with
              | None => (db, mkResponse 500 (ErrorJson "获取询价详情失败"))
              | Some s =>
                  if negb (String.eqb (User._id s) (User.id user))
                  then (db, mkResponse 403 (ErrorJson "无权查看此询价"))
                  else (db, mkResponse 200 (InquiryJson inquiry))
              end
            else (db, mkResponse 200 (InquiryJson inquiry))
        end
    end.

(** The routes with their validation middleware in front. *)
Definition route_post_inquiry (db : Db) (user : User.t) (b : CreateBody)
    (newId : string) (now : Z) : Db * HttpResponse :=
  match handleValidationErrors (createInquiryValidation b) with
  | Some r => (db, r)
  | None => post_inquiry db user (sanitizeCreateBody b) newId now
  end.

Definition route_patch_respond (db : Db) (user : User.t) (id : string)
    (b : RespondBody) (now : Z) : Db * HttpResponse :=
  match handleValidationErrors (respondInquiryValidation b) with
  | Some r => (db, r)
  | None => patch_respond db user id (sanitizeRespondBody b) now
  end.

End Routes.

(* ===================================================================== *)
(** ** The security middleware ([middleware/security.js]) *)
(* ===================================================================== *)

Inductive HttpMethod := GET | HEAD | OPTIONS | POST | PUT | PATCH | DELETE.

Definition HttpMethod_eqb (a b : HttpMethod) : bool :=
  match a, b with
  | GET, GET | HEAD, HEAD | OPTIONS, OPTIONS | POST, POST
  | PUT, PUT | PATCH, PATCH | DELETE, DELETE => true
  | _, _ => false
  end.

(** The [methods] that the CSRF validation lets through unchecked. *)
Definition is_safe_method (m : HttpMethod) : bool :=
  match m with
  | GET | HEAD | OPTIONS => true
  | _ => false
  end.

(** [req.path] as text: the segments joined by slashes. *)
Fixpoint path_text (segments : list string) : string :=
  match segments with
  | [] => ""
  | s :: r => ("/" ++ s ++ path_text r)%string
  end.

Definition req_path (segments : list string) : string :=
  match segments with
  | [] => "/"
  | _ => path_text segments
  end.

Module Csrf.

(** An anti-forgery token: the random component it was created with and
    the value derived from that component and the secret. *)
Record Token := mkToken { salt : string; mac : string }.

Record Session := mkSession {
  sessionID : string;
  csrfSecret : option string
}.

Section Tokens.
(** The one-way function of the token library. *)
Variable digest : string -> string.

(** Modelled from the spec: the token library ([csrf]) is not part of
    the repository.  A token is computed from the secret and a fresh
    random component; verification recomputes it from the secret and
    the submitted token, without any per-token state. *)
Definition tokens_create (secret salt : string) : Token :=
  mkToken salt (digest (salt ++ "-" ++ secret)).

(** Modelled from the spec: verification recomputes the derived value
    from the secret and the random component of the submitted token. *)
Definition tokens_verify (secret : string) (token : Token) : bool :=
  String.eqb (digest (salt token ++ "-" ++ secret)) (mac token).

(** [csrfMiddleware]: the session gets a secret on first need
    ([freshSecret] is what [tokens.secretSync()] returns), and a token
    for it is put in [res.locals.csrfToken]. *)
Definition ensureSecret (freshSecret : string) (s : Session) : Session :=
  match csrfSecret s with
  | Some _ => s
  | None => mkSession (sessionID s) (Some freshSecret)
  end.

Definition csrfMiddleware (freshSecret freshSalt : string) (s : Session)
  : Session * option Token :=
  let s' := ensureSecret freshSecret s in
  (s', match csrfSecret s' with
       | Some secret => Some (tokens_create secret freshSalt)
       | None => None
       end).

(** [req.validateCsrf]: an absent token is refused, and so is one for
    which [tokens.verify] answers false or throws. *)
Definition req_validateCsrf (s : Session) (token : option Token) : bool :=
  match token, csrfSecret s with
  | Some t, Some secret => tokens_verify secret t
  | _, _ => false
  end.

(** What [validateCsrf] reads of a request; [path] is [req.path], which
    inside a mounted middleware does not include the mount point. *)
Record CsrfRequest := mkCsrfRequest {
  method : HttpMethod;
  path : list string;
  x_csrf_token : option Token;
  x_xsrf_token : option Token;
  body_csrf : option Token;
  session : Session
}.

Definition skipPaths : list string :=
  [ "/auth/register"; "/auth/login"; "/api/health"; "/api/csrf-token";
    "/api/debug/session" ].

Definition first_some {A} (a b : option A) : option A :=
  match a with
  | Some _ => a
  | None => b
  end.

Definition has_secret (s : Session) : bool :=
  match csrfSecret s with
  | Some _ => true
  | None => false
  end.

(** [validateCsrf]: [None] stands for [next()]. *)
Definition validateCsrf (req : CsrfRequest) : option HttpResponse :=
  if is_safe_method (method req) then None
  else if existsb (String.eqb (req_path (path req))) skipPaths then None
  else if String.prefix "/auth/" (req_path (path req))
          && negb (String.eqb (req_path (path req)) "/auth/logout")
  then None
  else
    let token := first_some (x_csrf_token req)
                   (first_some (x_xsrf_token req) (body_csrf req)) in
    match token with
    | None =>
        Some (mkResponse 403
                (CsrfErrorJson "安全验证失败：缺少 CSRF Token"
                   (has_secret (session req))))
    | Some _ =>
        if negb (req_validateCsrf (session req) token)
        then Some (mkResponse 403
                     (CsrfErrorJson "安全验证失败：无效的 CSRF Token"
                        (has_secret (session req))))
        else None
    end.

End Tokens.

End Csrf.

(** *** Rate limiting *)

Module RateLimit.

Record Options := mkOptions {
  windowMs : Z;
  max : Z;
  skipSuccessfulRequests : bool;
  message : string
}.

Definition authLimiter : Options :=
  mkOptions (15 * 60 * 1000) 10 true "尝试次数过多，请15分钟后再试".

Definition apiLimiter : Options :=
  mkOptions (15 * 60 * 1000) 100 false "请求过于频繁，请稍后再试".

(** The count of one client and the time at which its window ends. *)
Record Window := mkWindow { hits : Z; resetTime : Z }.

(** Modelled from the spec: the limiter library ([express-rate-limit]) is
    not part of the repository.  Each limiter keeps one counter per
    client; a window opens with the first counted request of a client
    and lasts [windowMs]; once it has expired the count starts again.
    Every pass of a request through the middleware counts once. *)
Definition increment (o : Options) (now : Z) (key : string)
    (store : gmap string Window) : gmap string Window * Z :=
  match store !! key with
  | Some w =>
      if now <? resetTime w
      then (<[key := mkWindow (hits w + 1) (resetTime w)]> store, hits w + 1)
      else (<[key := mkWindow 1 (now + windowMs o)]> store, 1)
  | None => (<[key := mkWindow 1 (now + windowMs o)]> store, 1)
  end.

(** Modelled from the spec: with [skipSuccessfulRequests] a successful
    request is excluded from the count; the pass is taken back when the
    response it led to has a status below 400. *)
Definition decrement (key : string) (store : gmap string Window)
  : gmap string Window :=
  match store !! key with
  | Some w => <[key := mkWindow (Z.max 0 (hits w - 1)) (resetTime w)]> store
  | None => store
  end.

(** Modelled from the spec: the middleware counts the pass and answers
    429 with the configured message when the count is above [max]; [None]
    stands for [next()]. *)
Definition limiter (o : Options) (now : Z) (key : string)
    (store : gmap string Window) : gmap string Window * option HttpResponse :=
  let '(store', n) := increment o now key store in
  if max o <? n
  then (store', Some (mkResponse 429 (ErrorJson (message o))))
  else (store', None).

End RateLimit.

(** *** Sanitization *)

(** A JSON value, as a request body, a query string or a response holds it. *)
#[local] Set Warnings "-register-all".
Inductive Json :=
| JNull
| JBool (b : bool)
| JNum (n : Number)
| JStr (s : string)
| JArr (items : list Json)
| JObj (fields : list (string * Json)).

Module Sanitize.

Definition is_angle (c : ascii) : bool :=
  Ascii.eqb c "<"%char || Ascii.eqb c ">"%char.

(** [text.replace(/[<>]/g, '')], the [textFilter] of [sanitizeInput]. *)
Fixpoint textFilter (text : string) : string :=
  match text with
  | String c r => if is_angle c then textFilter r else String c (textFilter r)
  | EmptyString => EmptyString
  end.

(** The entity escaping of text by the HTML sanitizer. *)
Definition escapeChar (c : ascii) : string :=
  if Ascii.eqb c "&"%char then "&amp;"
  else if Ascii.eqb c "<"%char then "&lt;"
  else if Ascii.eqb c ">"%char then "&gt;"
  else String c EmptyString.

Fixpoint escapeHtml (text : string) : string :=
  match text with
  | String c r => (escapeChar c ++ escapeHtml r)%string
  | EmptyString => EmptyString
  end.

(** No angle bracket occurs in the string. *)
Definition no_angle (s : string) : bool := all_chars (fun c => negb (is_angle c)) s.

Section Filters.
(** Modelled from the spec: the HTML-stripping filter of the inbound
    direction, [sanitizeHtml(value, { allowedTags: [], allowedAttributes:
    {}, textFilter })] of the [sanitize-html] package, which is not part of
    the repository; a function of the text filter and the value. *)
Variable sanitizeHtml : (string -> string) -> string -> string.

(** Modelled from the spec: the XSS-escaping filter of the outbound
    direction, [xss(value, { whiteList: {}, stripIgnoreTag: true })] of the
    [xss] package, which is not part of the repository; the flag tells
    whether [stripIgnoreTagBody: ['script', 'style']] is given as well. *)
Variable xss : bool -> string -> string.

(** [sanitizeValue] inside [sanitizeInput]. *)
Definition sanitizeValue (value : Json) : Json :=
  match value with
  | JStr s => JStr (trim (sanitizeHtml textFilter s))
  | _ => value
  end.

(** What [sanitizeInput] reads of a request; a part that has not been
    parsed is [undefined]. *)
Record SanRequest := mkSanRequest {
  body : option (list (string * Json));
  query : option (list (string * Json))
}.

Definition sanitizeBodyField (kv : string * Json) : string * Json :=
  if negb (String.eqb (fst kv) "_csrf")
  then (fst kv, sanitizeValue (snd kv))
  else kv.

Definition sanitizeQueryField (kv : string * Json) : string * Json :=
  (fst kv, sanitizeValue (snd kv)).

Definition sanitizeInput (req : SanRequest) : SanRequest :=
  mkSanRequest (option_map (List.map sanitizeBodyField) (body req))
               (option_map (List.map sanitizeQueryField) (query req)).

(** [sanitized[key] = value] on the fresh object [sanitized]: the
    assignment makes a field of every key but [__proto__], which is the
    accessor that [sanitized] inherits; assigning to it makes no field. *)
Definition assignable (kv : string * Json) : bool :=
  negb (String.eqb (fst kv) "__proto__").

(** [sanitizeObject]: arrays are mapped over, the string values of an
    object go through [xss], its object-typed values (objects, arrays
    and [null]) are sanitized in turn, and anything else is returned
    as it is -- also a string that is an item of an array.  The fields of
    an object are its own entries, each key once; they are assigned to a
    fresh object one by one. *)
Fixpoint sanitizeObject (obj : Json) : Json :=
  match obj with
  | JArr items => JArr (List.map sanitizeObject items)
  | JObj fields =>
      JObj (List.filter assignable
              (List.map
                 (fun kv : string * Json =>
                    let (key, value) := kv in
                    match value with
                    | JStr s => (key, JStr (xss false s))
                    | JNull | JArr _ | JObj _ => (key, sanitizeObject value)
                    | _ => (key, value)
                    end) fields))
  | _ => obj
  end.

(** The replacement of [res.send] installed by [xssProtection]. *)
Definition xssProtection_send (data : Json) : Json :=
  match data with
  | JStr s => JStr (xss true s)
  | JArr _ | JObj _ => sanitizeObject data
  | _ => data
  end.

End Filters.

End Sanitize.

(* ===================================================================== *)
(** ** Route mounting and the request pipeline ([server.js]) *)
(* ===================================================================== *)

Module Server.

Inductive Handler :=
| h_post_inquiry            (* [POST /api/inquiries] *)
| h_patch_respond           (* [PATCH /api/inquiries/:id/respond] *)
| h_get_inquiry             (* [GET /api/inquiries/:id] *)
| h_not_found               (* the final [app.use('*', ...)] *)
| h_other (name : string).  (* a handler that is not modelled in detail *)

Inductive Middleware :=
| mw_auth
| mw_authLimiter
| mw_apiLimiter
| mw_validateCsrf
| mw_validate_create        (* [createInquiryValidation, handleValidationErrors] *)
| mw_validate_respond       (* [respondInquiryValidation, handleValidationErrors] *)
| mw_validate_other (name : string)
| mw_handler (h : Handler).

Inductive Segment := lit (s : string) | param.

Record Route := mkRoute {
  r_method : HttpMethod;
  r_pattern : list Segment;
  r_chain : list Middleware
}.

Record Mount := mkMount {
  m_prefix : list string;
  m_chain : list Middleware;
  m_router : list Route
}.

(** [routes/auth.js] *)
Definition authRouter : list Route :=
  [ mkRoute POST [lit "register"]
      [mw_authLimiter; mw_validateCsrf; mw_validate_other "register";
       mw_handler (h_other "register")];
    mkRoute POST [lit "login"]
      [mw_authLimiter; mw_validateCsrf; mw_validate_other "login";
       mw_handler (h_other "login")];
    mkRoute POST [lit "logout"]
      [mw_validateCsrf; mw_handler (h_other "logout")] ].

(** [routes/products.js] *)
Definition productsRouter : list Route :=
  [ mkRoute GET [] [mw_apiLimiter; mw_handler (h_other "listProducts")];
    mkRoute POST []
      [mw_apiLimiter; mw_validate_other "createProduct";
       mw_handler (h_other "createProduct")];
    mkRoute GET [param] [mw_apiLimiter; mw_handler (h_other "getProduct")];
    mkRoute GET [lit "search"; param]
      [mw_apiLimiter; mw_handler (h_other "searchProducts")] ].

(** [routes/users.js] *)
Definition usersRouter : list Route :=
  [ mkRoute GET [lit "me"] [mw_auth; mw_handler (h_other "me")];
    mkRoute GET [lit "profile"] [mw_auth; mw_handler (h_other "getProfile")];
    mkRoute PATCH [lit "profile"] [mw_auth; mw_handler (h_other "updateProfile")] ].

(** [routes/inquiries.js] *)
Definition inquiriesRouter : list Route :=
  [ mkRoute GET [lit "my-inquiries"]
      [mw_apiLimiter; mw_handler (h_other "myInquiries")];
    mkRoute GET [lit "seller-inquiries"]
      [mw_apiLimiter; mw_handler (h_other "sellerInquiries")];
    mkRoute POST [] [mw_apiLimiter; mw_validate_create; mw_handler h_post_inquiry];
    mkRoute PATCH [param; lit "respond"]
      [mw_apiLimiter; mw_validate_respond; mw_handler h_patch_respond];
    mkRoute GET [param] [mw_apiLimiter; mw_handler h_get_inquiry] ].

(** The four [app.use(prefix, ...middleware, router)] lines of [server.js]. *)
Definition mounts : list Mount :=
  [ mkMount ["auth"] [mw_authLimiter; mw_validateCsrf] authRouter;
    mkMount ["api"; "products"] [mw_auth; mw_apiLimiter] productsRouter;
    mkMount ["api"; "users"] [mw_auth; mw_apiLimiter; mw_validateCsrf] usersRouter;
    mkMount ["api"; "inquiries"] [mw_auth; mw_apiLimiter] inquiriesRouter ].

(** The path below a mount point, when the URL lies under it. *)
Fixpoint strip_prefix (prefix url : list string) : option (list string) :=
  match prefix, url with
  | [], _ => Some url
  | p :: prefix', u :: url' =>
      if String.eqb p u then strip_prefix prefix' url' else None
  | _ :: _, [] => None
  end.

Fixpoint matches (pattern : list Segment) (rel : list string) : bool :=
  match pattern, rel with
  | [], [] => true
  | lit s :: pattern', u :: rel' => String.eqb s u && matches pattern' rel'
  | param :: pattern', _ :: rel' => matches pattern' rel'
  | _, _ => false
  end.

Definition find_route (router : list Route) (m : HttpMethod) (rel : list string)
  : option Route :=
  List.find (fun r => HttpMethod_eqb (r_method r) m && matches (r_pattern r) rel) router.

Fixpoint find_mount (ms : list Mount) (url : list string)
  : option (Mount * list string) :=
  match ms with
  | [] => None
  | mt :: ms' =>
      match strip_prefix (m_prefix mt) url with
      | Some rel => Some (mt, rel)
      | None => find_mount ms' url
      end
  end.

(** The middleware a request under one of the mounts runs through, in
    order, with the path relative to the mount; a request that no route of
    the router matches falls through to the final 404 handler. *)
Definition chain_for (m : HttpMethod) (url : list string)
  : option (list Middleware * list string) :=
  match find_mount mounts url with
  | None => None
  | Some (mt, rel) =>
      match find_route (m_router mt) m rel with
      | Some r => Some ((m_chain mt ++ r_chain r)%list, rel)
      | None => Some ((m_chain mt ++ [mw_handler h_not_found])%list, rel)
      end
  end.

Inductive Bearer :=
| NoBearer                   (* no [Authorization: Bearer] header *)
| BadBearer                  (* a token that [jwt.verify] rejects *)
| GoodBearer (uid : string). (* a token that decodes to this user id *)

Inductive ReqBody :=
| NoBody
| CreateBody (b : Routes.CreateBody)
| RespondBody (b : Routes.RespondBody).

Record Request := mkRequest {
  method : HttpMethod;
  url : list string;
  bearer : Bearer;
  ip : string;
  x_csrf_token : option Csrf.Token;
  x_xsrf_token : option Csrf.Token;
  body_csrf : option Csrf.Token;
  session : Csrf.Session;
  body : ReqBody;
  now : Z;             (* the clock when the request is served *)
  freshId : string     (* the ObjectId a created document would get *)
}.

Record World := mkWorld {
  db : Db;
  authHits : gmap string RateLimit.Window;
  apiHits : gmap string RateLimit.Window
}.

(** A body with none of the expected fields: the validators see empty
    strings and a quantity that is not a number. *)
Definition as_create (b : ReqBody) : Routes.CreateBody :=
  match b with
  | CreateBody b => b
  | _ => Routes.mkCreateBody "" S754_nan "" None
  end.

Definition as_respond (b : ReqBody) : Routes.RespondBody :=
  match b with
  | RespondBody b => b
  | _ => Routes.mkRespondBody "" S754_nan ""
  end.

Definition route_id (rel : list string) : string :=
  match rel with
  | id :: _ => id
  | [] => ""
  end.

(** [middleware/auth.js] *)
Definition auth (w : World) (req : Request) : User.t + HttpResponse :=
  match bearer req with
  | NoBearer => inr (mkResponse 401 (ErrorJson "请提供访问令牌"))
  | BadBearer => inr (mkResponse 401 (ErrorJson "令牌无效"))
  | GoodBearer uid =>
      match users (db w) !! uid with
      | Some u => inl u
      | None => inr (mkResponse 401 (ErrorJson "用户不存在"))
      end
  end.

(** How often each limiter counted the request on its way. *)
Record Passes := mkPasses { authPasses : nat; apiPasses : nat }.

Section Pipeline.
Variable digest : string -> string.
Variable other_handler : string -> World -> Request -> World * HttpResponse.
Variable other_validation : string -> Request -> option HttpResponse.

(** A handler reads [req.user]; without it the read throws and the
    handler's [catch] answers 500. *)
Definition run_handler (h : Handler) (rel : list string) (user : option User.t)
    (w : World) (req : Request) : World * HttpResponse :=
  match h with
  | h_not_found => (w, mkResponse 404 (ErrorJson "API接口不存在"))
  | h_other name => other_handler name w req
  | _ =>
      match user with
      | None =>
          (w, mkResponse 500
                (ErrorJson match h with
                           | h_post_inquiry => "创建询价失败"
                           | h_patch_respond => "回复询价失败"
                           | _ => "获取询价详情失败"
                           end))
      | Some u =>
          let '(db', r) :=
            match h with
            | h_post_inquiry =>
                Routes.post_inquiry (db w) u
                  (Routes.sanitizeCreateBody (as_create (body req)))
                  (freshId req) (now req)
            | h_patch_respond =>
                Routes.patch_respond (db w) u (route_id rel)
                  (Routes.sanitizeRespondBody (as_respond (body req))) (now req)
            | _ => Routes.get_inquiry (db w) u (route_id rel)
            end in
          (mkWorld db' (authHits w) (apiHits w), r)
      end
  end.

(** The middleware of a chain one after the other, until one of them
    answers. *)
Fixpoint run_chain (chain : list Middleware) (rel : list string)
    (user : option User.t) (passes : Passes) (w : World) (req : Request)
  : World * HttpResponse * Passes :=
  match chain with
  | [] => (w, mkResponse 404 (ErrorJson "API接口不存在"), passes)
  | mw :: chain' =>
      match mw with
      | mw_auth =>
          match auth w req with
          | inl u => run_chain chain' rel (Some u) passes w req
          | inr r => (w, r, passes)
          end
      | mw_authLimiter =>
          let '(store, r) :=
            RateLimit.limiter RateLimit.authLimiter (now req) (ip req) (authHits w) in
          let w' := mkWorld (db w) store (apiHits w) in
          let passes' := mkPasses (S (authPasses passes)) (apiPasses passes) in
          match r with
          | Some r => (w', r, passes')
          | None => run_chain chain' rel user passes' w' req
          end
      | mw_apiLimiter =>
          let '(store, r) :=
            RateLimit.limiter RateLimit.apiLimiter (now req) (ip req) (apiHits w) in
          let w' := mkWorld (db w) (authHits w) store in
          let passes' := mkPasses (authPasses passes) (S (apiPasses passes)) in
          match r with
          | Some r => (w', r, passes')
          | None => run_chain chain' rel user passes' w' req
          end
      | mw_validateCsrf =>
          match Csrf.validateCsrf digest
                  (Csrf.mkCsrfRequest (method req) rel (x_csrf_token req)
                     (x_xsrf_token req) (body_csrf req) (session req)) with
          | Some r => (w, r, passes)
          | None => run_chain chain' rel user passes w req
          end
      | mw_validate_create =>
          match Routes.handleValidationErrors
                  (Routes.createInquiryValidation (as_create (body req))) with
          | Some r => (w, r, passes)
          | None => run_chain chain' rel user passes w req
          end
      | mw_validate_respond =>
          match Routes.handleValidationErrors
                  (Routes.respondInquiryValidation (as_respond (body req))) with
          | Some r => (w, r, passes)
          | None => run_chain chain' rel user passes w req
          end
      | mw_validate_other name =>
          match other_validation name req with
          | Some r => (w, r, passes)
          | None => run_chain chain' rel user passes w req
          end
      | mw_handler h =>
          let '(w', r) := run_handler h rel user w req in (w', r, passes)
      end
  end.

(** When the response is sent, a limiter with [skipSuccessfulRequests]
    takes back the passes of a request answered with a status below 400. *)
Definition settle (o : RateLimit.Options) (n : nat) (key : string)
    (status : Z) (store : gmap string RateLimit.Window)
  : gmap string RateLimit.Window :=
  if RateLimit.skipSuccessfulRequests o && (status <? 400)
  then Nat.iter n (RateLimit.decrement key) store
  else store.

(** One request under one of the mounts, from the first middleware to the
    response. *)
Definition serve (w : World) (req : Request) : option (World * HttpResponse) :=
  match chain_for (method req) (url req) with
  | None => None
  | Some (chain, rel) =>
      let '(w', r, passes) := run_chain chain rel None (mkPasses 0 0) w req in
      Some (mkWorld (db w')
              (settle RateLimit.authLimiter (authPasses passes) (ip req) (code r)
                 (authHits w'))
              (settle RateLimit.apiLimiter (apiPasses passes) (ip req) (code r)
                 (apiHits w')),
            r)
  end.

(** A sequence of requests served one after the other; the responses are
    listed in order. *)
Fixpoint serve_all (w : World) (reqs : list Request) : World * list (option HttpResponse) :=
  match reqs with
  | [] => (w, [])
  | req :: reqs' =>
      match serve w req with
      | None => let '(w', rs) := serve_all w reqs' in (w', None :: rs)
      | Some (w1, r) => let '(w', rs) := serve_all w1 reqs' in (w', Some r :: rs)
      end
  end.

End Pipeline.

End Server.

(* ===================================================================== *)
(** ** Derived notions *)
(* ===================================================================== *)

(** The document [respondToInquiry] saves: the status and the response
    assigned to [this]. *)
Definition responded_with (message : string) (price : Number)
    (deliveryTime : string) (now : Z) (d : Inquiry.t) : Inquiry.t :=
  Inquiry.set_response
    (Some (Response.mk (trim message) price (trim deliveryTime) now))
    (Inquiry.set_status "responded" d).

(** The payload the respond handler hands to the model. *)
Definition body_data (b : Routes.RespondBody) : Inquiry.ResponseData :=
  Inquiry.mkData (Routes.r_message b) (Routes.r_price b) (Routes.r_deliveryTime b).

(** What the [pre('save')] hook makes of a price, of a quantity and of a
    response sub-record. *)
Definition normalize_price (x : Number) : Number :=
  if truthy x then Inquiry.round2 x else x.

Definition normalize_quantity (q : Number) : Number :=
  if truthy q then Math_floor q else q.

Definition normalize_response (r : Response.t) : Response.t :=
  Response.mk (Response.message r) (normalize_price (Response.price r))
    (Response.deliveryTime r) (Response.respondedAt r).

(** The passes of one client through one limiter at the given times:
    for each pass, whether it was let through. *)
Fixpoint run_passes (o : RateLimit.Options) (key : string) (times : list Z)
    (store : gmap string RateLimit.Window) : list bool :=
  match times with
  | [] => []
  | t :: times' =>
      let '(store', r) := RateLimit.limiter o t key store in
      match r with
      | None => true
      | Some _ => false
      end :: run_passes o key times' store'
  end.

(** *** Sequences of calls to the inquiry routes *)

Inductive Call :=
| CreateCall (user : User.t) (b : Routes.CreateBody) (newId : string)
| RespondCall (user : User.t) (id : string) (b : Routes.RespondBody)
| ReadCall (user : User.t) (id : string).

(** One call served at clock reading [now]. *)
Definition run_call (now : Z) (c : Call) (db : Db) : Db * HttpResponse :=
  match c with
  | CreateCall user b newId => Routes.route_post_inquiry db user b newId now
  | RespondCall user id b => Routes.route_patch_respond db user id b now
  | ReadCall user id => Routes.get_inquiry db user id
  end.

(** Calls served one after the other, each with its clock reading; the
    clock starts at [t] and never goes back. *)
Inductive reaches : Z -> Db -> Z -> Db -> Prop :=
| reaches_refl (t : Z) (db : Db) : reaches t db t db
| reaches_step (t : Z) (db : Db) (t1 : Z) (db1 : Db) (now : Z) (c : Call) :
    reaches t db t1 db1 -> t1 <= now ->
    reaches t db now (fst (run_call now c db1)).

(* ===================================================================== *)
(** ** The words of the specification *)
(* ===================================================================== *)

(** The transition table of the specification, entry by entry. *)
Inductive Allowed : string -> string -> Prop :=
| pending_responded : Allowed "pending" "responded"
| pending_cancelled : Allowed "pending" "cancelled"
| responded_accepted : Allowed "responded" "accepted"
| responded_rejected : Allowed "responded" "rejected"
| responded_completed : Allowed "responded" "completed"
| accepted_completed : Allowed "accepted" "completed"
| accepted_cancelled : Allowed "accepted" "cancelled"
| rejected_cancelled : Allowed "rejected" "cancelled".

(** The errors of the specification's taxonomy, as the code raises them. *)
Definition InvalidTransition (from to : string) : JsError :=
  Error (Inquiry.msg_transition from to).

Definition AlreadyResponded : JsError := Error Inquiry.msg_already_responded.

(** A method call succeeded when it returned. *)
Definition succeeds {S A} (r : S * outcome A) : Prop :=
  exists s a, r = (s, Returned a).

(** The bounds the specification puts on a response payload: a message of
    at most 1000 characters, a price between 0 and 1,000,000 and a delivery
    time of at most 100 characters, the texts without the white space at
    their ends. *)
Definition within_response_bounds (data : Inquiry.ResponseData) : bool :=
  length_in 0 1000 (trim (Inquiry.d_message data))
  && (leb (of_Z 0) (Inquiry.d_price data) && leb (Inquiry.d_price data) (of_Z 1000000))
  && length_in 0 100 (trim (Inquiry.d_deliveryTime data)).

(** The failures of the specification's taxonomy, as the routes and the
    middleware answer them. *)
Definition InsufficientStock (stock : Number) : HttpResponse :=
  mkResponse 400 (StockErrorJson stock).

Definition SelfInquiryForbidden : HttpResponse :=
  mkResponse 400 (ErrorJson "不能对自己的商品进行询价").

Definition InquiryNotFound : HttpResponse :=
  mkResponse 404 (ErrorJson "询价不存在或无权操作").

Definition RateLimited (o : RateLimit.Options) : HttpResponse :=
  mkResponse 429 (ErrorJson (RateLimit.message o)).

(** *** Rounding to two decimals, in the words of the specification *)

(** The rules for a price that lies halfway between two cents. *)
Inductive HalfRule := half_up | half_down | half_even | half_odd.

(** The cents of a price written with three decimals, as [n] thousandths
    (not negative), rounded to the nearest cent, a half by the rule. *)
Definition cents_by (rule : HalfRule) (n : Z) : Z :=
  let q := n / 10 in
  let r := n mod 10 in
  if r <? 5 then q
  else if 5 <? r then q + 1
  else match rule with
       | half_up => q + 1
       | half_down => q
       | half_even => if Z.even q then q else q + 1
       | half_odd => if Z.odd q then q else q + 1
       end.

(** [k] cents are as near to the exact value of the Number [x] as cents
    can be: the hundredfold of [x] and [k] differ by one half at most. *)
Definition nearest_cent (x : Number) (k : Z) : bool :=
  match x with
  | S754_zero _ => k =? 0
  | S754_finite s m e =>
      if 0 <=? e then 100 * signed s m * 2 ^ e =? k
      else Z.abs (200 * signed s m - 2 * k * 2 ^ (- e)) <=? 2 ^ (- e)
  | _ => false
  end.
(* ===================================================================== *)
(** ** Sample documents, requests and filters *)
(* ===================================================================== *)

(** The parties and the product of the end-to-end scenario of the
    specification: a product with a stock of 10, its seller, a buyer and a
    third user. *)
Definition buyer_id : string := "aaaaaaaaaaaaaaaaaaaaaaaa".
Definition seller_id : string := "bbbbbbbbbbbbbbbbbbbbbbbb".
Definition other_id : string := "dddddddddddddddddddddddd".
Definition product_id : string := "cccccccccccccccccccccccc".
Definition inquiry_id : string := "eeeeeeeeeeeeeeeeeeeeeeee".

Definition buyer1 : User.t :=
  User.mk buyer_id "buyer1" "buyer1@example.com" None "buyer".
Definition seller1 : User.t :=
  User.mk seller_id "seller1" "seller1@example.com" (Some "13800138000") "seller".
Definition other1 : User.t :=
  User.mk other_id "other1" "other1@example.com" None "seller".

Definition product1 : Product.t :=
  Product.mk product_id "NSK 6308" (of_decimal 4580 2) seller_id (of_Z 10) true (of_Z 0).

Definition db0 : Db :=
  mkDb (<[buyer_id := buyer1]> (<[seller_id := seller1]> (<[other_id := other1]> ∅)))
       (<[product_id := product1]> ∅)
       ∅.

(** [{ productId: P, quantity: 5, message: "need these by Friday for
    repair job" }] *)
Definition order1 : Routes.CreateBody :=
  Routes.mkCreateBody product_id (of_Z 5) "need these by Friday for repair job" None.

(** A create call whose message is too short and whose quantity exceeds
    the stock of 10, and a well-formed one for more than the stock. *)
Definition order_short : Routes.CreateBody :=
  Routes.mkCreateBody product_id (of_Z 20) "too short" None.

Definition order_large : Routes.CreateBody :=
  Routes.mkCreateBody product_id (of_Z 20) "need these by Friday for repair job" None.

(** [{ message: "Can deliver in 3 days at this rate", price: 199.995,
    deliveryTime: "3 days" }] *)
Definition quote1 : Routes.RespondBody :=
  Routes.mkRespondBody "Can deliver in 3 days at this rate" (of_decimal 199995 3) "3 days".

Definition quote1_data : Inquiry.ResponseData := body_data quote1.

(** The same response with another price, and the price that the store
    holds once the seller has sent it for the inquiry of the scenario. *)
Definition quote_priced (price : Number) : Routes.RespondBody :=
  Routes.mkRespondBody "Can deliver in 3 days at this rate" price "3 days".

(** The inquiry that the order creates at time 1000. *)
Definition inquiry1 : Inquiry.t :=
  Inquiry.mk inquiry_id product_id buyer_id seller_id (of_Z 5)
    "need these by Friday for repair job" "pending"
    (Contact.mk None (Some "buyer1@example.com")) None None "medium" 1000 1000.

Definition db1 : Db := put_inquiry inquiry1 db0.

Definition stored_quote (price : Number) : option Number :=
  match inquiries (fst (Routes.route_patch_respond db1 seller1 inquiry_id
                          (quote_priced price) 2000)) !! inquiry_id with
  | Some d => option_map Response.price (Inquiry.response d)
  | None => None
  end.

(** The order of the scenario with an expected price, and the expected
    price that the store holds once the buyer has sent it. *)
Definition order_expecting (price : Number) : Routes.CreateBody :=
  Routes.mkCreateBody product_id (of_Z 5) "need these by Friday for repair job"
    (Some price).

Definition stored_expectation (price : Number) : option Number :=
  match inquiries (fst (Routes.route_post_inquiry db0 buyer1 (order_expecting price)
                          inquiry_id 1000)) !! inquiry_id with
  | Some d => Inquiry.expectedPrice d
  | None => None
  end.

(** A pending inquiry that the validators of the schema refuse: a
    quantity of one half. *)
Definition inquiry_half : Inquiry.t :=
  Inquiry.mk inquiry_id product_id buyer_id seller_id (of_decimal 5 1)
    "need these by Friday for repair job" "pending"
    (Contact.mk None (Some "buyer1@example.com")) None None "medium" 1000 1000.

(** The same inquiry after the seller's quote of 199.995 has been saved
    at time 2000: the price reads 200.00. *)
Definition inquiry1_quoted : Inquiry.t :=
  Inquiry.mk inquiry_id product_id buyer_id seller_id (of_Z 5)
    "need these by Friday for repair job" "responded"
    (Contact.mk None (Some "buyer1@example.com"))
    (Some (Response.mk "Can deliver in 3 days at this rate" (of_decimal 20000 2)
             "3 days" 2000))
    None "medium" 1000 2000.

(** A document that has not been normalized: a quantity of 5.7, an
    expected price of 12.345 and the quote of 199.995. *)
Definition inquiry2 : Inquiry.t :=
  Inquiry.mk inquiry_id product_id buyer_id seller_id (of_decimal 57 1)
    "need these by Friday for repair job" "responded"
    (Contact.mk None (Some "buyer1@example.com"))
    (Some (Response.mk "Can deliver in 3 days at this rate" (of_decimal 199995 3)
             "3 days" 2000))
    (Some (of_decimal 12345 3)) "medium" 1000 2000.

(** *** Requests *)

Definition session1 : Csrf.Session := Csrf.mkSession "session-1" (Some "secret-1").

Definition client1 : string := "203.0.113.7".

Definition world0 : Server.World := Server.mkWorld db0 ∅ ∅.
Definition world1 : Server.World := Server.mkWorld db1 ∅ ∅.

(** The buyer posts the order with a valid bearer token and no
    anti-forgery token at all. *)
Definition post_without_token : Server.Request :=
  Server.mkRequest POST ["api"; "inquiries"] (Server.GoodBearer buyer_id) client1
    None None None session1 (Server.CreateBody order1) 1000 inquiry_id.

(** The seller answers the inquiry, again without an anti-forgery token. *)
Definition respond_without_token : Server.Request :=
  Server.mkRequest PATCH ["api"; "inquiries"; inquiry_id; "respond"]
    (Server.GoodBearer seller_id) client1
    None None None session1 (Server.RespondBody quote1) 2000 "".

(** A login attempt without an anti-forgery token. *)
Definition login_without_token : Server.Request :=
  Server.mkRequest POST ["auth"; "login"] Server.NoBearer client1
    None None None session1 Server.NoBody 1000 "".

(** The buyer reads the inquiry at time [t]. *)
Definition read_inquiry (t : Z) : Server.Request :=
  Server.mkRequest GET ["api"; "inquiries"; inquiry_id] (Server.GoodBearer buyer_id)
    client1 None None None session1 Server.NoBody t "".

(** [n] reads, one per millisecond from time [t] on. *)
Fixpoint reads (n : nat) (t : Z) : list Server.Request :=
  match n with
  | O => []
  | S n' => read_inquiry t :: reads n' (t + 1)
  end.

(** *** Filters

    Two functions with the laws that the properties of the sanitization
    layer ask of the HTML sanitizer and of the XSS filter: one that reads
    the entities of its input back ([&amp;], [&lt;], [&gt;]) and escapes the
    text again, and one that deletes angle brackets. *)
Fixpoint decodeEntities (skip : nat) (s : string) : string :=
  match s with
  | EmptyString => EmptyString
  | String c r =>
      match skip with
      | S k => decodeEntities k r
      | O =>
          if Ascii.eqb c "&"%char
          then match r with
               | String "a"%char _ => String "&"%char (decodeEntities 4 r)
               | String "l"%char _ => String "<"%char (decodeEntities 3 r)
               | String "g"%char _ => String ">"%char (decodeEntities 3 r)
               | _ => String c (decodeEntities 0 r)
               end
          else String c (decodeEntities 0 r)
      end
  end.

Definition sample_sanitizeHtml (textFilter : string -> string) (s : string) : string :=
  textFilter (Sanitize.escapeHtml (decodeEntities 0 s)).

Definition sample_xss (stripBody : bool) (s : string) : string :=
  Sanitize.textFilter s.


(* ===================================================================== *)
(** ** More of the models *)
(* ===================================================================== *)

(** *** The virtual fields and the save hook of a product *)

Module ProductVirtual.

(** [stockStatus]: [===] and [<=] on Numbers; a stock that is not a
    number fails every test and reads as plentiful. *)
Definition stockStatus (p : Product.t) : string :=
  if SFeqb (Product.stock p) (of_Z 0) then "缺货"
  else if leb (Product.stock p) (of_Z 10) then "紧张"
  else if leb (Product.stock p) (of_Z 50) then "一般"
  else "充足".

(** [isAvailable]: [this.isActive && this.stock > 0]. *)
Definition isAvailable (p : Product.t) : bool :=
  Product.isActive p && ltb (of_Z 0) (Product.stock p).

(** [productSchema.pre('save')]: the price to two decimals, the stock to
    its floor. *)
Definition preSave (p : Product.t) : Product.t :=
  let p1 :=
    if truthy (Product.price p)
    then Product.mk (Product._id p) (Product.name p) (Inquiry.round2 (Product.price p))
           (Product.seller p) (Product.stock p) (Product.isActive p) (Product.views p)
    else p in
  if truthy (Product.stock p1)
  then Product.mk (Product._id p1) (Product.name p1) (Product.price p1)
         (Product.seller p1) (Math_floor (Product.stock p1)) (Product.isActive p1)
         (Product.views p1)
  else p1.

End ProductVirtual.

(** *** The life of an inquiry *)

(** Calls of [updateStatus] on one document, one target after the other;
    the first call that throws ends the sequence. *)
Fixpoint updateStatus_each (targets : list string) (now : Z)
  : Method Inquiry.t unit :=
  match targets with
  | [] => ret tt
  | newStatus :: rest =>
      (Inquiry.updateStatus newStatus now ;;; updateStatus_each rest now)%method
  end.

(** How far a status is along the life of an inquiry. *)
Definition status_rank (s : string) : nat :=
  if String.eqb s "pending" then 0
  else if String.eqb s "responded" then 1
  else if String.eqb s "accepted" || String.eqb s "rejected" then 2
  else 3.

(** What holds of every inquiry that the routes store under the key [id]:
    the key is its [_id], the two parties differ, it is pending without a
    response or responded with one, the buyer's message has 10 to 500
    characters, and the text of a response stays within the lengths of the
    schema. *)
Definition inquiry_sound (id : string) (d : Inquiry.t) : bool :=
  String.eqb (Inquiry._id d) id
  && negb (String.eqb (Inquiry.buyer d) (Inquiry.seller d))
  && length_in 10 500 (Inquiry.message d)
  && match Inquiry.response d with
     | None => String.eqb (Inquiry.status d) "pending"
     | Some r =>
         String.eqb (Inquiry.status d) "responded"
         && length_in 0 1000 (Response.message r)
         && length_in 0 100 (Response.deliveryTime r)
     end.

Definition store_sound (db : Db) : Prop :=
  map_Forall (fun id d => inquiry_sound id d = true) (inquiries db).

(** The time stamps of an inquiry that the routes have written, at the
    clock reading [t]: [updatedAt] is not before [createdAt] and not after
    [t]; it is [createdAt] as long as there is no response, and a response
    is dated between the two. *)
Definition stamps_coherent (t : Z) (d : Inquiry.t) : bool :=
  (Inquiry.createdAt d <=? Inquiry.updatedAt d)
  && (Inquiry.updatedAt d <=? t)
  && match Inquiry.response d with
     | None => Inquiry.updatedAt d =? Inquiry.createdAt d
     | Some r =>
         (Inquiry.createdAt d <=? Response.respondedAt r)
         && (Response.respondedAt r <=? Inquiry.updatedAt d)
     end.

Definition stamps_sound (t : Z) (db : Db) : Prop :=
  map_Forall (fun _ d => stamps_coherent t d = true) (inquiries db).

(** The document that the create route builds for a body, once the body
    has passed the validation and the product has been found, and the
    document it stores when the validators of the schema accept that one. *)
Definition drafted_inquiry (newId : string) (user seller : User.t)
    (b : Routes.CreateBody) (now : Z) : Inquiry.t :=
  Inquiry.mk newId (ObjectId.cast (Routes.productId b)) (User.id user)
    (User._id seller) (Routes.quantity b) (trim (Routes.message b)) "pending"
    (InquiryCreate.setContact (Contact.mk (User.phone user) (Some (User.email user))))
    None (Routes.expectedPrice b) "medium" now now.

Definition created_inquiry (newId : string) (user seller : User.t)
    (b : Routes.CreateBody) (now : Z) : Inquiry.t :=
  Inquiry.mk newId (ObjectId.cast (Routes.productId b)) (User.id user)
    (User._id seller) (normalize_quantity (Routes.quantity b))
    (trim (Routes.message b)) "pending"
    (InquiryCreate.setContact (Contact.mk (User.phone user) (Some (User.email user))))
    None (option_map normalize_price (Routes.expectedPrice b)) "medium" now now.

(** The document that the respond route stores in the place of [d]. *)
Definition responded_inquiry (d : Inquiry.t) (b : Routes.RespondBody) (now : Z)
  : Inquiry.t :=
  Inquiry.mk (Inquiry._id d) (Inquiry.product d) (Inquiry.buyer d)
    (Inquiry.seller d) (normalize_quantity (Inquiry.quantity d))
    (Inquiry.message d) "responded" (Inquiry.buyerContact d)
    (Some (Response.mk (trim (Routes.r_message b))
             (normalize_price (Routes.r_price b))
             (trim (Routes.r_deliveryTime b)) now))
    (option_map normalize_price (Inquiry.expectedPrice d))
    (Inquiry.urgency d) (Inquiry.createdAt d) now.

(* ===================================================================== *)
(** ** More of the security middleware *)
(* ===================================================================== *)

Module CsrfPages.

Section Tokens.
Variable digest : string -> string.

(** [provideCsrfToken]: [res.locals.csrfToken] is filled when it is empty
    and the session has a secret; otherwise it is left as it is. *)
Definition provideCsrfToken (freshSalt : string) (s : Csrf.Session)
    (locals : option Csrf.Token) : option Csrf.Token :=
  match locals, Csrf.csrfSecret s with
  | None, Some secret => Some (Csrf.tokens_create digest secret freshSalt)
  | _, _ => locals
  end.

(** [getCsrfToken]: the same step, after which [res.locals.csrfToken] is
    sent as [data.csrfToken]; the result is that field of the answer. *)
Definition getCsrfToken (freshSalt : string) (s : Csrf.Session)
    (locals : option Csrf.Token) : option Csrf.Token :=
  match locals, Csrf.csrfSecret s with
  | None, Some secret => Some (Csrf.tokens_create digest secret freshSalt)
  | _, _ => locals
  end.

(** [validateCsrfSimple]: no skip list, and the token is looked for in
    the [X-CSRF-Token] header and the [_csrf] field only. *)
Definition validateCsrfSimple (req : Csrf.CsrfRequest) : option HttpResponse :=
  if is_safe_method (Csrf.method req) then None
  else
    let token := Csrf.first_some (Csrf.x_csrf_token req) (Csrf.body_csrf req) in
    match token with
    | None => Some (mkResponse 403 (ErrorJson "缺少 CSRF Token"))
    | Some _ =>
        if negb (Csrf.req_validateCsrf digest (Csrf.session req) token)
        then Some (mkResponse 403 (ErrorJson "无效的 CSRF Token"))
        else None
    end.

(** What a client is given by [GET /api/csrf-token]: [csrfMiddleware]
    runs on every request, then [getCsrfToken] answers. *)
Definition fetch_token (freshSecret salt1 salt2 : string) (s : Csrf.Session)
  : Csrf.Session * option Csrf.Token :=
  let '(s', locals) := Csrf.csrfMiddleware digest freshSecret salt1 s in
  (s', getCsrfToken salt2 s' locals).

(** A request of the session on a path where [validateCsrf] is mounted:
    [csrfMiddleware] runs first; [x], [y] and [z] are the two headers and
    the [_csrf] field. *)
Definition guarded_request (freshSecret salt : string) (s : Csrf.Session)
    (m : HttpMethod) (path : list string) (x y z : option Csrf.Token)
  : Csrf.Session * option HttpResponse :=
  let '(s', _) := Csrf.csrfMiddleware digest freshSecret salt s in
  (s', Csrf.validateCsrf digest (Csrf.mkCsrfRequest m path x y z s')).

End Tokens.

(** The three tests by which [validateCsrf] lets a request through
    without looking for a token. *)
Definition skips (req : Csrf.CsrfRequest) : bool :=
  is_safe_method (Csrf.method req)
  || existsb (String.eqb (req_path (Csrf.path req))) Csrf.skipPaths
  || (String.prefix "/auth/" (req_path (Csrf.path req))
      && negb (String.eqb (req_path (Csrf.path req)) "/auth/logout")).

End CsrfPages.

(** *** The [Authorization] header ([middleware/auth.js]) *)

Module AuthHeader.

(** [s.split(sep)] for a separator of one character: the pieces between
    the separators, at least one. *)
Fixpoint split (sep : ascii) (s : string) : list string :=
  match s with
  | EmptyString => [EmptyString]
  | String c r =>
      if Ascii.eqb c sep then EmptyString :: split sep r
      else match split sep r with
           | piece :: pieces => String c piece :: pieces
           | [] => [String c EmptyString]
           end
  end.

Definition no_space (s : string) : bool :=
  all_chars (fun c => negb (Ascii.eqb c " "%char)) s.

(** The token that [auth] reads from the header: the second piece of a
    non-empty header that starts with [Bearer]; an absent or empty piece
    is no token. *)
Definition bearerToken (authorization : option string) : option string :=
  match authorization with
  | Some h =>
      if negb (String.eqb h "") && String.prefix "Bearer" h
      then match split " " h !! 1%nat with
           | Some token => if String.eqb token "" then None else Some token
           | None => None
           end
      else None
  | None => None
  end.

(** The first answer of [auth]: 401 when there is no token to verify. *)
Definition requireToken (authorization : option string) : string + HttpResponse :=
  match bearerToken authorization with
  | Some token => inl token
  | None => inr (mkResponse 401 (ErrorJson "请提供访问令牌"))
  end.

End AuthHeader.

(** *** The shape of a JSON value *)

Module JsonShape.

(** The value with every string replaced by the empty string. *)
Fixpoint skeleton (j : Json) : Json :=
  match j with
  | JStr _ => JStr ""
  | JArr items => JArr (List.map skeleton items)
  | JObj fields =>
      JObj (List.map (fun kv : string * Json =>
                        let (key, value) := kv in (key, skeleton value)) fields)
  | _ => j
  end.

(** Some object inside the value, or the value itself, has a field whose
    value is a string. *)
Fixpoint has_string_field (j : Json) : bool :=
  match j with
  | JArr items => existsb has_string_field items
  | JObj fields =>
      existsb (fun kv : string * Json =>
                 let (key, value) := kv in
                 match value with
                 | JStr _ => true
                 | _ => has_string_field value
                 end) fields
  | _ => false
  end.

(** Every string that is the value of a field of an object, at any depth,
    is free of angle brackets. *)
Fixpoint field_strings_clean (j : Json) : bool :=
  match j with
  | JArr items => forallb field_strings_clean items
  | JObj fields =>
      forallb (fun kv : string * Json =>
                 let (key, value) := kv in
                 match value with
                 | JStr s => Sanitize.no_angle s
                 | _ => field_strings_clean value
                 end) fields
  | _ => true
  end.

(** The value as it is after every object in it has been copied, entry by
    entry, into a fresh object: a field named [__proto__] is lost at every
    depth, everything else is kept in its order. *)
Fixpoint reassigned (j : Json) : Json :=
  match j with
  | JArr items => JArr (List.map reassigned items)
  | JObj fields =>
      JObj (List.filter Sanitize.assignable
              (List.map (fun kv : string * Json =>
                           let (key, value) := kv in (key, reassigned value)) fields))
  | _ => j
  end.

(** Some object inside the value, or the value itself, has a field named
    [__proto__]. *)
Fixpoint names_proto (j : Json) : bool :=
  match j with
  | JArr items => existsb names_proto items
  | JObj fields =>
      existsb (fun kv : string * Json =>
                 let (key, value) := kv in
                 String.eqb key "__proto__" || names_proto value) fields
  | _ => false
  end.

End JsonShape.

(* ===================================================================== *)
(** ** More sample documents and requests *)
(* ===================================================================== *)

(** The inquiry of the scenario after it has been answered, accepted and
    completed at time 2000, without a response on record. *)
Definition inquiry1_completed : Inquiry.t :=
  Inquiry.mk inquiry_id product_id buyer_id seller_id (of_Z 5)
    "need these by Friday for repair job" "completed"
    (Contact.mk None (Some "buyer1@example.com")) None None "medium" 1000 2000.

(** An order whose message has 14 characters, 8 of them between the
    white space. *)
Definition order_padded : Routes.CreateBody :=
  Routes.mkCreateBody product_id (of_Z 5) "   bearings   " None.

(** A buyer whose stored phone number is not of the pattern of the
    schema. *)
Definition caller_12345 : User.t :=
  User.mk buyer_id "buyer1" "buyer1@example.com" (Some "12345") "buyer".

(** The store after the order of the scenario and the seller's quote. *)
Definition db2 : Db := put_inquiry inquiry1_quoted db1.

(** Handlers and validators for the routes that are not modelled in
    detail. *)
Definition sample_handler (name : string) (w : Server.World) (req : Server.Request)
  : Server.World * HttpResponse :=
  (w, mkResponse 200 (OtherJson name)).

Definition sample_validation (name : string) (req : Server.Request)
  : option HttpResponse := None.


(* ===================================================================== *)
(** * Properties *)
(* ===================================================================== *)

(** ** Numbers *)

(** The literals of the scenarios, bit for bit, and the rounding of
    halves: up, for either sign. *)
Example literal_199_995 :
  of_decimal 199995 3 = S754_finite false 7036698495905956 (-45).
Proof. vm_compute. reflexivity. Qed.

Example round_half_up :
  Math_round (of_decimal 25 1) = of_Z 3
  /\ Math_round (of_decimal (-25) 1) = of_Z (-2)
  /\ Math_round (of_decimal (-5) 1) = S754_zero true
  /\ Math_floor (of_decimal (-25) 1) = of_Z (-3)
  /\ Math_floor (of_decimal 57 1) = of_Z 5.
Proof. repeat split; vm_compute; reflexivity. Qed.


Lemma iter_xO_value (p q : positive) :
  Zpos (Pos.iter xO p q) = Zpos p * 2 ^ Zpos q.
Proof.
  induction q as [|q IH] using Pos.peano_ind.
  - cbn. lia.
  - rewrite Pos.iter_succ, Pos2Z.inj_succ, Z.pow_succ_r by lia.
    rewrite Pos2Z.inj_xO, IH. ring.
Qed.

Lemma iter_xO_digits (p q : positive) :
  Zpos (digits2_pos (Pos.iter xO p q)) = Zpos (digits2_pos p) + Zpos q.
Proof.
  induction q as [|q IH] using Pos.peano_ind.
  - cbn. lia.
  - rewrite Pos.iter_succ. cbn [digits2_pos].
    rewrite !Pos2Z.inj_succ, IH. lia.
Qed.

Lemma digits2_pos_bounds (p : positive) :
  2 ^ (Zpos (digits2_pos p) - 1) <= Zpos p < 2 ^ Zpos (digits2_pos p).
Proof.
  induction p as [p IH | p IH |]; cbn [digits2_pos].
  - rewrite Pos2Z.inj_succ, Z.pow_succ_r by lia.
    replace (Z.succ (Zpos (digits2_pos p)) - 1)
      with (Z.succ (Zpos (digits2_pos p) - 1)) by lia.
    rewrite Z.pow_succ_r by lia. rewrite (Pos2Z.inj_xI p). lia.
  - rewrite Pos2Z.inj_succ, Z.pow_succ_r by lia.
    replace (Z.succ (Zpos (digits2_pos p)) - 1)
      with (Z.succ (Zpos (digits2_pos p) - 1)) by lia.
    rewrite Z.pow_succ_r by lia. rewrite (Pos2Z.inj_xO p). lia.
  - cbn. lia.
Qed.

Lemma digits2_pos_small (p : positive) :
  Zpos p < 2 ^ 53 -> Zpos (digits2_pos p) <= 53.
Proof.
  intros Hp. destruct (digits2_pos_bounds p) as [Hlo _].
  destruct (Z_le_gt_dec (Zpos (digits2_pos p)) 53) as [H | H]; [exact H |].
  exfalso.
  assert (2 ^ 53 <= 2 ^ (Zpos (digits2_pos p) - 1)) by (apply Z.pow_le_mono_r; lia).
  lia.
Qed.

(** A mantissa already at its canonical exponent is not shifted. *)
Lemma shr_fexp_canonical (mz : positive) (ez : Z) :
  fexp prec emax (Zpos (digits2_pos mz) + ez) = ez ->
  shr_fexp prec emax (Zpos mz) ez loc_Exact
  = (Build_shr_record (Zpos mz) false false, ez).
Proof.
  intros H. unfold shr_fexp, Zdigits2. rewrite H, Z.sub_diag. reflexivity.
Qed.

Lemma binary_round_aux_canonical (s : bool) (mz : positive) (ez : Z) :
  fexp prec emax (Zpos (digits2_pos mz) + ez) = ez ->
  ez <= emax - prec ->
  binary_round_aux prec emax s (Zpos mz) ez loc_Exact = S754_finite s mz ez.
Proof.
  intros H Hle. unfold binary_round_aux.
  rewrite (shr_fexp_canonical _ _ H).
  cbn [shr_m loc_of_shr_record round_nearest_even].
  rewrite (shr_fexp_canonical _ _ H). cbn [shr_m].
  apply Z.leb_le in Hle. now rewrite Hle.
Qed.

(** The Number of a positive integer below 2^53 is that integer, shifted
    to the left to fill the mantissa. *)
Lemma binary_round_small (s : bool) (p : positive) :
  Zpos p < 2 ^ 53 ->
  exists mz n, 0 <= n
               /\ binary_round prec emax s p 0 = S754_finite s mz (- n)
               /\ Zpos mz = Zpos p * 2 ^ n.
Proof.
  intros Hp. pose proof (digits2_pos_small p Hp) as Hd.
  assert (Hd1 : 1 <= Zpos (digits2_pos p)) by lia.
  unfold binary_round.
  assert (Hf : fexp prec emax (Zpos (digits2_pos p) + 0) = Zpos (digits2_pos p) - 53).
  { unfold fexp, emin, prec, emax. lia. }
  rewrite Hf. unfold shl_align.
  destruct (Zpos (digits2_pos p) - 53 - 0) as [|q|q] eqn:E; [| lia |].
  - exists p, 0. split; [lia |]. split; [| cbn; lia].
    apply binary_round_aux_canonical.
    + unfold fexp, emin, prec, emax. lia.
    + unfold prec, emax. lia.
  - exists (Pos.iter xO p q), (Zpos q). split; [lia |]. split.
    + replace (Zpos (digits2_pos p) - 53) with (- Zpos q) by lia.
      apply binary_round_aux_canonical.
      * rewrite iter_xO_digits. unfold fexp, emin, prec, emax. lia.
      * unfold prec, emax. lia.
    + apply iter_xO_value.
Qed.

Lemma shiftl_neg_exact (a n : Z) :
  0 <= n -> Z.shiftl (a * 2 ^ n) (- n) = a.
Proof.
  intros Hn. rewrite <- Z.shiftr_opp_r, Z.opp_involutive.
  rewrite Z.shiftr_div_pow2 by lia. apply Z.div_mul.
  apply Z.pow_nonzero; lia.
Qed.

Lemma intval_finite_shifted (s : bool) (mz p : positive) (n : Z) :
  0 <= n -> Zpos mz = Zpos p * 2 ^ n ->
  intval (S754_finite s mz (- n)) = Some (signed s p).
Proof.
  intros Hn Hm. unfold intval, is_integral.
  assert (Hmod : Zpos mz mod 2 ^ (- - n) = 0).
  { rewrite Z.opp_involutive, Hm. apply Z.mod_mul. apply Z.pow_nonzero; lia. }
  rewrite Hmod, Z.eqb_refl, orb_true_r.
  f_equal.
  assert (Hs : signed s mz = signed s p * 2 ^ n).
  { destruct s; cbn [signed]; [| exact Hm].
    change (Zneg mz) with (- Zpos mz). change (Zneg p) with (- Zpos p).
    rewrite Hm. ring. }
  rewrite Hs. now apply shiftl_neg_exact.
Qed.

(** The Number of an integer below 2^53 in absolute value stands for it. *)
Lemma intval_normalize (k : Z) (szero : bool) :
  Z.abs k < 2 ^ 53 ->
  intval (binary_normalize prec emax k 0 szero) = Some k.
Proof.
  intros Hk. destruct k as [|p|p]; cbn [binary_normalize].
  - reflexivity.
  - destruct (binary_round_small false p) as (mz & n & Hn & -> & Hm); [lia |].
    now apply (intval_finite_shifted false).
  - destruct (binary_round_small true p) as (mz & n & Hn & -> & Hm); [cbn in Hk; lia |].
    now apply (intval_finite_shifted true).
Qed.

Lemma binary64_mantissa (s : bool) (m : positive) (e : Z) :
  is_binary64 (S754_finite s m e) = true -> Zpos m < 2 ^ 53.
Proof.
  unfold is_binary64, valid_binary, bounded, canonical_mantissa.
  rewrite andb_true_iff, Z.eqb_eq. intros [Hc _].
  assert (Hd : Zpos (digits2_pos m) <= 53).
  { revert Hc. unfold fexp, emin, prec, emax. lia. }
  destruct (digits2_pos_bounds m) as [_ Hhi].
  assert (2 ^ Zpos (digits2_pos m) <= 2 ^ 53) by (apply Z.pow_le_mono_r; lia).
  lia.
Qed.

Lemma signed_abs (s : bool) (m : positive) : Z.abs (signed s m) = Zpos m.
Proof. destruct s; reflexivity. Qed.

(** [Math.floor] of a finite binary64 value is the Number that stands for
    the exact floor. *)
Lemma Math_floor_exact (x : Number) :
  is_binary64 x = true -> is_finite x = true ->
  intval (Math_floor x) = floorZ x.
Proof.
  intros Hv Hf. destruct x as [s | s | | s m e]; try discriminate; [reflexivity |].
  cbn [Math_floor floorZ].
  destruct (0 <=? e) eqn:He.
  - unfold intval, is_integral. now rewrite He.
  - apply Z.leb_gt in He. apply intval_normalize.
    pose proof (binary64_mantissa _ _ _ Hv) as Hm.
    pose proof (signed_abs s m) as Ha.
    rewrite <- (Z.opp_involutive e), Z.shiftl_opp_r, Z.shiftr_div_pow2 by lia.
    assert (Hp : 0 < 2 ^ (- e)) by (apply Z.pow_pos_nonneg; lia).
    pose proof (Z.mul_div_le (signed s m) (2 ^ (- e)) Hp) as H1.
    pose proof (Z.mul_succ_div_gt (signed s m) (2 ^ (- e)) Hp) as H2.
    destruct s; cbn [signed] in *; nia.
Qed.

(** [Math.round] of a finite binary64 value is the Number that stands for
    the nearest integer, the upper one of two that are equally near. *)
Lemma Math_round_exact (x : Number) :
  is_binary64 x = true -> is_finite x = true ->
  intval (Math_round x) = roundZ x.
Proof.
  intros Hv Hf. destruct x as [s | s | | s m e]; try discriminate; [reflexivity |].
  cbn [Math_round roundZ].
  destruct (0 <=? e) eqn:He.
  - unfold intval, is_integral. now rewrite He.
  - apply Z.leb_gt in He. apply intval_normalize.
    pose proof (binary64_mantissa _ _ _ Hv) as Hm.
    rewrite Z.shiftr_div_pow2 by lia.
    assert (Hp : 2 <= 2 ^ (- e)).
    { change 2 with (2 ^ 1) at 1. apply Z.pow_le_mono_r; lia. }
    replace (2 ^ (- e + 1)) with (2 * 2 ^ (- e))
      by (rewrite Z.pow_add_r by lia; ring).
    assert (Hq : 0 < 2 * 2 ^ (- e)) by lia.
    pose proof (Z.mul_div_le (2 * signed s m + 2 ^ (- e)) (2 * 2 ^ (- e)) Hq) as H1.
    pose proof (Z.mul_succ_div_gt (2 * signed s m + 2 ^ (- e)) (2 * 2 ^ (- e)) Hq) as H2.
    destruct s; cbn [signed] in *; nia.
Qed.

(** ** The status machine *)

Lemma status_preSave (d : Inquiry.t) :
  Inquiry.status (Inquiry.preSave d) = Inquiry.status d.
Proof.
  unfold Inquiry.preSave.
  destruct (Inquiry.expectedPrice d) as [x|]; [destruct (truthy x)|];
    cbn [Inquiry.response Inquiry.set_expectedPrice];
    destruct (Inquiry.response d) as [r|];
    try destruct (truthy (Response.price r));
    cbn [Inquiry.quantity Inquiry.set_response Inquiry.set_expectedPrice];
    destruct (truthy (Inquiry.quantity d)); reflexivity.
Qed.

Lemma includes_spec (l : list string) (x : string) :
  includes l x = true <-> In x l.
Proof.
  unfold includes. rewrite existsb_exists. split.
  - intros (y & Hy & E). apply String.eqb_eq in E. now subst.
  - intros H. exists x. split; [assumption | apply String.eqb_refl].
Qed.

Lemma validTransitions_lookup (from : string) (allowed : list string) :
  Inquiry.validTransitions !! from = Some allowed ->
  forall to, In to allowed <-> Allowed from to.
Proof.
  intros H to.
  assert (Hin : In (from, allowed)
                  [ ("pending", ["responded"; "cancelled"]);
                    ("responded", ["accepted"; "rejected"; "completed"]);
                    ("accepted", ["completed"; "cancelled"]);
                    ("rejected", ["cancelled"]);
                    ("completed", []);
                    ("cancelled", []) ]).
  { apply list_elem_of_In. unfold Inquiry.validTransitions in H.
    now apply elem_of_list_to_map_2 in H. }
  cbn [In] in Hin.
  split.
  - intros Hto.
    repeat (destruct Hin as [E | Hin]; [inversion E; subst; clear E |]);
      try contradiction; cbn [In] in Hto;
      repeat (destruct Hto as [<- | Hto]; [constructor |]); contradiction.
  - intros Hal.
    repeat (destruct Hin as [E | Hin]; [inversion E; subst; clear E |]);
      try contradiction; inversion Hal; subst; cbn [In]; tauto.
Qed.

Lemma validTransitions_defined (from : string) :
  In from Inquiry.statusValues ->
  exists allowed, Inquiry.validTransitions !! from = Some allowed
                  /\ forall to, In to allowed -> In to Inquiry.statusValues.
Proof.
  unfold Inquiry.statusValues. cbn [In].
  intros H.
  repeat (destruct H as [<- | H]; [eexists; split; [vm_compute; reflexivity |] |]);
    try contradiction; cbn [In]; intros to Hto; tauto.
Qed.

(** ** Validation and save *)

(** The fields of a document and of its parts, and the validator of a
    path, computed on a document that is given by its constructor or by
    setters. *)
Tactic Notation "inquiry_fields" :=
  cbn [Inquiry.check Inquiry._id Inquiry.product Inquiry.buyer Inquiry.seller
       Inquiry.quantity Inquiry.message Inquiry.status Inquiry.buyerContact
       Inquiry.response Inquiry.expectedPrice Inquiry.urgency Inquiry.createdAt
       Inquiry.updatedAt Inquiry.set_status Inquiry.set_response
       Inquiry.set_quantity Inquiry.set_expectedPrice Inquiry.set_updatedAt
       Response.message Response.price Response.deliveryTime Response.respondedAt
       Contact.phone Contact.email].
Tactic Notation "inquiry_fields" "in" hyp(H) :=
  cbn [Inquiry.check Inquiry._id Inquiry.product Inquiry.buyer Inquiry.seller
       Inquiry.quantity Inquiry.message Inquiry.status Inquiry.buyerContact
       Inquiry.response Inquiry.expectedPrice Inquiry.urgency Inquiry.createdAt
       Inquiry.updatedAt Inquiry.set_status Inquiry.set_response
       Inquiry.set_quantity Inquiry.set_expectedPrice Inquiry.set_updatedAt
       Response.message Response.price Response.deliveryTime Response.respondedAt
       Contact.phone Contact.email] in H.

Lemma validate_nil (d : Inquiry.t) :
  Inquiry.validate d = [] <->
  forall p, In p Inquiry.schemaPaths -> Inquiry.check p d = true.
Proof.
  unfold Inquiry.validate. split.
  - intros H p Hp. destruct (Inquiry.check p d) eqn:E; [reflexivity |].
    assert (Hin : In p (List.filter (fun p => negb (Inquiry.check p d))
                          Inquiry.schemaPaths)).
    { apply filter_In. split; [exact Hp | now rewrite E]. }
    rewrite H in Hin. destruct Hin.
  - intros H.
    induction Inquiry.schemaPaths as [|p ps IH]; [reflexivity |].
    cbn [List.filter]. rewrite (H p) by (left; reflexivity). cbn [negb].
    apply IH. intros q Hq. apply H. now right.
Qed.

(** [save], by cases on the validators. *)
Lemma save_run (now : Z) (d : Inquiry.t) :
  Inquiry.save now d =
    match Inquiry.validate d with
    | [] => (Inquiry.set_updatedAt now (Inquiry.preSave d), Returned tt)
    | errs => (d, Thrown (ValidationError errs))
    end.
Proof.
  unfold Inquiry.save, bind, this, assign, throw.
  destruct (Inquiry.validate d); reflexivity.
Qed.

(** The validators other than that of [status] do not read the status. *)
Lemma validate_set_status (s : string) (d : Inquiry.t) :
  In s Inquiry.statusValues ->
  In (Inquiry.status d) Inquiry.statusValues ->
  Inquiry.validate (Inquiry.set_status s d) = Inquiry.validate d.
Proof.
  intros Hs Hd. apply includes_spec in Hs, Hd.
  unfold Inquiry.validate, Inquiry.schemaPaths.
  cbn [List.filter Inquiry.check Inquiry.set_status Inquiry.status Inquiry.quantity
       Inquiry.message Inquiry.buyerContact Inquiry.response Inquiry.expectedPrice
       Inquiry.urgency].
  now rewrite Hs, Hd.
Qed.

(** What [updateStatus] does, by cases on the table entry of the current
    status and on the validators. *)
Lemma updateStatus_run (d : Inquiry.t) (newStatus : string) (now : Z)
    (allowed : list string) :
  Inquiry.validTransitions !! Inquiry.status d = Some allowed ->
  Inquiry.updateStatus newStatus now d =
    if includes allowed newStatus
    then match Inquiry.validate (Inquiry.set_status newStatus d) with
         | [] => (Inquiry.set_updatedAt now
                    (Inquiry.preSave (Inquiry.set_status newStatus d)),
                  Returned tt)
         | errs => (Inquiry.set_status newStatus d, Thrown (ValidationError errs))
         end
    else (d, Thrown (InvalidTransition (Inquiry.status d) newStatus)).
Proof.
  intros Hl. unfold Inquiry.updateStatus, bind, this. rewrite Hl.
  destruct (includes allowed newStatus); cbn [negb]; [| reflexivity].
  unfold assign. apply save_run.
Qed.

(** C1, as the code has it.  For an inquiry whose status is one of the
    six values of the schema: for a target outside the transition table
    [updateStatus] throws the InvalidTransition error and the inquiry, its
    status included, is what it was; a call that returns has followed the
    table, has left the target as the status, and was made on an inquiry
    that passes the validators of its schema; for an inquiry that passes
    them, [updateStatus] returns exactly when the target is in the table;
    and for one that does not, a target in the table ends in a validation
    error, with the target left as the status of the document in memory. *)
Theorem updateStatus_follows_table (d : Inquiry.t) (newStatus : string) (now : Z) :
  In (Inquiry.status d) Inquiry.statusValues ->
  (Inquiry.validate d = [] ->
     (succeeds (Inquiry.updateStatus newStatus now d)
        <-> Allowed (Inquiry.status d) newStatus))
  /\ (forall d' a, Inquiry.updateStatus newStatus now d = (d', Returned a) ->
        Allowed (Inquiry.status d) newStatus
        /\ Inquiry.status d' = newStatus
        /\ Inquiry.validate d = [])
  /\ (~ Allowed (Inquiry.status d) newStatus ->
        Inquiry.updateStatus newStatus now d
        = (d, Thrown (InvalidTransition (Inquiry.status d) newStatus)))
  /\ (Allowed (Inquiry.status d) newStatus -> Inquiry.validate d <> [] ->
        Inquiry.updateStatus newStatus now d
        = (Inquiry.set_status newStatus d,
           Thrown (ValidationError (Inquiry.validate d)))).
Proof.
  intros Hst.
  destruct (validTransitions_defined _ Hst) as (allowed & Hl & Hsub).
  pose proof (validTransitions_lookup _ _ Hl newStatus) as Htab.
  rewrite (updateStatus_run d newStatus now allowed Hl).
  destruct (includes allowed newStatus) eqn:Hin.
  - apply includes_spec in Hin.
    rewrite (validate_set_status newStatus d (Hsub _ Hin) Hst).
    apply Htab in Hin.
    destruct (Inquiry.validate d) as [|e es] eqn:Hv.
    + split; [| split; [| split]].
      * intros _. split; [intros _; exact Hin | intros _; eexists; eexists; reflexivity].
      * intros d' a E. inversion E; subst d'.
        cbn [Inquiry.status Inquiry.set_updatedAt]. rewrite status_preSave. auto.
      * intros Hn. contradiction.
      * intros _ Hne. now contradict Hne.
    + split; [| split; [| split]].
      * discriminate.
      * intros d' a E. discriminate.
      * intros Hn. contradiction.
      * reflexivity.
  - assert (Hn : ~ Allowed (Inquiry.status d) newStatus).
    { intros Hal. apply Htab in Hal. apply includes_spec in Hal. congruence. }
    split; [| split; [| split]].
    + intros _. split; [intros (s & a & E); discriminate | intros Hal; contradiction].
    + intros d' a E. discriminate.
    + intros _. reflexivity.
    + intros Hal. contradiction.
Qed.

Lemma updateStatus_follows_table_witness :
  In (Inquiry.status inquiry1) Inquiry.statusValues
  /\ Inquiry.validate inquiry1 = []
  /\ (succeeds (Inquiry.updateStatus "cancelled" 2000 inquiry1)
        <-> Allowed (Inquiry.status inquiry1) "cancelled")
  /\ (succeeds (Inquiry.updateStatus "accepted" 2000 inquiry1)
        <-> Allowed (Inquiry.status inquiry1) "accepted").
Proof.
  assert (Hs : In (Inquiry.status inquiry1) Inquiry.statusValues)
    by (left; reflexivity).
  assert (Hv : Inquiry.validate inquiry1 = []) by (vm_compute; reflexivity).
  split; [exact Hs |]. split; [exact Hv |]. split.
  - exact (proj1 (updateStatus_follows_table inquiry1 "cancelled" 2000 Hs) Hv).
  - exact (proj1 (updateStatus_follows_table inquiry1 "accepted" 2000 Hs) Hv).
Defined.

(** The claim as the specification words it, for every inquiry, fails: a
    pending inquiry with a quantity of one half is refused by the
    validators of the schema, so the call for "cancelled", a target of the
    table, throws a validation error and does not return. *)
Lemma updateStatus_refuses_invalid_inquiry :
  Inquiry.status inquiry_half = "pending"
  /\ Allowed "pending" "cancelled"
  /\ Inquiry.validate inquiry_half = [p_quantity]
  /\ Inquiry.updateStatus "cancelled" 2000 inquiry_half
     = (Inquiry.set_status "cancelled" inquiry_half,
        Thrown (ValidationError [p_quantity]))
  /\ ~ succeeds (Inquiry.updateStatus "cancelled" 2000 inquiry_half).
Proof.
  split; [reflexivity |]. split; [constructor |].
  split; [vm_compute; reflexivity |]. split; [vm_compute; reflexivity |].
  intros (s & a & E). vm_compute in E. discriminate E.
Qed.

(** ** Responding to an inquiry *)

Lemma handleValidationErrors_nil (errors : list FieldError) :
  errors = [] -> Routes.handleValidationErrors errors = None.
Proof. intros ->. reflexivity. Qed.

Lemma trimStart_length (s : string) :
  (String.length (trimStart s) <= String.length s)%nat.
Proof.
  induction s as [|c r IH]; cbn [trimStart String.length]; [lia |].
  destruct (is_ws c); cbn [String.length]; lia.
Qed.

Lemma trimEnd_length (s : string) :
  (String.length (trimEnd s) <= String.length s)%nat.
Proof.
  induction s as [|c r IH]; cbn [trimEnd String.length]; [lia |].
  destruct (trimEnd r) as [|c' r'] eqn:E.
  - destruct (is_ws c); cbn [String.length]; lia.
  - cbn [String.length] in *. lia.
Qed.

Lemma trim_length (s : string) :
  (String.length (trim s) <= String.length s)%nat.
Proof.
  unfold trim. pose proof (trimEnd_length (trimStart s)).
  pose proof (trimStart_length s). lia.
Qed.

(** The [pre('save')] hook, field by field. *)
Lemma preSave_fields (d : Inquiry.t) :
  Inquiry.preSave d =
  Inquiry.mk (Inquiry._id d) (Inquiry.product d) (Inquiry.buyer d)
    (Inquiry.seller d) (normalize_quantity (Inquiry.quantity d))
    (Inquiry.message d) (Inquiry.status d) (Inquiry.buyerContact d)
    (option_map normalize_response (Inquiry.response d))
    (option_map normalize_price (Inquiry.expectedPrice d))
    (Inquiry.urgency d) (Inquiry.createdAt d) (Inquiry.updatedAt d).
Proof.
  destruct d as [i p b s q m st bc [[rm rp rd ra]|] [x|] u ca ua];
    unfold Inquiry.preSave, normalize_quantity, normalize_response, normalize_price,
      option_map;
    try destruct (truthy x) eqn:Ex; try destruct (truthy rp) eqn:Er;
    destruct (truthy q) eqn:Eq;
    repeat (cbn [Inquiry.expectedPrice Inquiry.response Inquiry.quantity
                 Inquiry.set_expectedPrice Inquiry.set_response Inquiry.set_quantity
                 Inquiry._id Inquiry.product Inquiry.buyer Inquiry.seller
                 Inquiry.message Inquiry.status Inquiry.buyerContact Inquiry.urgency
                 Inquiry.createdAt Inquiry.updatedAt Response.message Response.price
                 Response.deliveryTime Response.respondedAt];
            rewrite ?Ex, ?Er, ?Eq);
    reflexivity.
Qed.

(** What [respondToInquiry] does, by cases on the status and on the
    validators. *)
Lemma respondToInquiry_run (d : Inquiry.t) (data : Inquiry.ResponseData) (now : Z) :
  Inquiry.respondToInquiry data now d =
    if String.eqb (Inquiry.status d) "pending"
    then
      match Inquiry.validate
              (responded_with (Inquiry.d_message data) (Inquiry.d_price data)
                 (Inquiry.d_deliveryTime data) now d) with
      | [] => (Inquiry.set_updatedAt now
                 (Inquiry.preSave
                    (responded_with (Inquiry.d_message data) (Inquiry.d_price data)
                       (Inquiry.d_deliveryTime data) now d)),
               Returned tt)
      | errs => (responded_with (Inquiry.d_message data) (Inquiry.d_price data)
                   (Inquiry.d_deliveryTime data) now d,
                 Thrown (ValidationError errs))
      end
    else (d, Thrown AlreadyResponded).
Proof.
  unfold Inquiry.respondToInquiry, bind, this.
  destruct (String.eqb (Inquiry.status d) "pending"); cbn [negb]; [| reflexivity].
  unfold assign. apply save_run.
Qed.

(** The validators accept a pending inquiry with a response exactly when
    the response is within the bounds of the schema and the validators
    accept the inquiry without it. *)
Lemma validate_responded_with (message : string) (price : Number)
    (deliveryTime : string) (now : Z) (d : Inquiry.t) :
  In (Inquiry.status d) Inquiry.statusValues ->
  Inquiry.validate (responded_with message price deliveryTime now d) = []
  <-> within_response_bounds (Inquiry.mkData message price deliveryTime) = true
      /\ Inquiry.validate (Inquiry.set_response None d) = [].
Proof.
  intros Hst. apply includes_spec in Hst.
  rewrite !validate_nil. unfold within_response_bounds, responded_with.
  cbn [Inquiry.d_message Inquiry.d_price Inquiry.d_deliveryTime].
  split.
  - intros H. split.
    + pose proof (H p_response_message ltac:(cbn; tauto)) as H1.
      pose proof (H p_response_price ltac:(cbn; tauto)) as H2.
      pose proof (H p_response_deliveryTime ltac:(cbn; tauto)) as H3.
      inquiry_fields in H1. inquiry_fields in H2. inquiry_fields in H3.
      now rewrite H1, H2, H3.
    + intros p Hp. pose proof (H p Hp) as Hc.
      destruct p; inquiry_fields in Hc; inquiry_fields;
        try exact Hc; try reflexivity. exact Hst.
  - intros [Hb H] p Hp. pose proof (H p Hp) as Hc.
    apply andb_true_iff in Hb as [Hb H3]. apply andb_true_iff in Hb as [H1 H2].
    destruct p; inquiry_fields in Hc; inquiry_fields;
      try exact Hc; try reflexivity; assumption.
Qed.

(** The handler of [PATCH /:id/respond] carries the same steps inline:
    on the inquiry it found it does what [respondToInquiry] does, answering
    200 with the saved inquiry, which it stores, when the method returns,
    400 when the status is not "pending", and 500 when [save] throws. *)
Lemma patch_respond_found (db : Db) (user : User.t) (id : string)
    (b : Routes.RespondBody) (now : Z) (d : Inquiry.t) :
  isObjectId id = true ->
  Routes.findInquiryOfSeller db id (User.id user) = Some d ->
  Routes.patch_respond db user id b now =
    match Inquiry.respondToInquiry
            (Inquiry.mkData (Routes.r_message b) (Routes.r_price b)
               (Routes.r_deliveryTime b)) now d with
    | (d', Returned _) => (put_inquiry d' db, mkResponse 200 (InquiryJson d'))
    | (_, Thrown (Error msg)) => (db, mkResponse 400 (ErrorJson msg))
    | (_, Thrown _) => (db, mkResponse 500 (ErrorJson "回复询价失败"))
    end.
Proof.
  intros Hid Hfind. unfold Routes.patch_respond. rewrite Hid, Hfind. cbn [negb].
  rewrite respondToInquiry_run.
  destruct (String.eqb (Inquiry.status d) "pending"); cbn [negb]; [| reflexivity].
  cbv beta iota zeta delta [bind assign].
  rewrite save_run.
  cbn [Inquiry.d_message Inquiry.d_price Inquiry.d_deliveryTime].
  fold (responded_with (Routes.r_message b) (Routes.r_price b)
          (Routes.r_deliveryTime b) now d).
  destruct (Inquiry.validate _); reflexivity.
Qed.

Lemma trimEnd_idem (s : string) : trimEnd (trimEnd s) = trimEnd s.
Proof.
  induction s as [|c r IH]; [reflexivity |].
  cbn [trimEnd]. destruct (trimEnd r) as [|c' r'] eqn:E.
  - destruct (is_ws c) eqn:Hw; [reflexivity |]. cbn [trimEnd]. now rewrite Hw.
  - cbn [trimEnd] in *. now rewrite IH.
Qed.

Lemma trimStart_idem (s : string) : trimStart (trimStart s) = trimStart s.
Proof.
  induction s as [|c r IH]; [reflexivity |].
  cbn [trimStart]. destruct (is_ws c) eqn:Hw; [exact IH |].
  cbn [trimStart]. now rewrite Hw.
Qed.

Lemma trimStart_trimEnd (u : string) :
  trimStart u = u -> trimStart (trimEnd u) = trimEnd u.
Proof.
  destruct u as [|c r]; [reflexivity |].
  cbn [trimStart]. destruct (is_ws c) eqn:Hw.
  - intros H. pose proof (trimStart_length r) as Hl. rewrite H in Hl.
    cbn [String.length] in Hl. lia.
  - intros _. cbn [trimEnd]. destruct (trimEnd r); rewrite ?Hw; cbn [trimStart];
      now rewrite Hw.
Qed.

Lemma trim_idem (s : string) : trim (trim s) = trim s.
Proof.
  unfold trim. rewrite trimStart_trimEnd by apply trimStart_idem.
  apply trimEnd_idem.
Qed.

(** The document that a successful respond leaves in the place of [d]. *)
Lemma responded_document (d : Inquiry.t) (b : Routes.RespondBody) (now : Z) :
  Inquiry.set_updatedAt now
    (Inquiry.preSave
       (responded_with (Routes.r_message b) (Routes.r_price b)
          (Routes.r_deliveryTime b) now d))
  = responded_inquiry d b now.
Proof.
  rewrite preSave_fields. unfold responded_inquiry, responded_with. reflexivity.
Qed.

Lemma responded_with_sanitized (d : Inquiry.t) (b : Routes.RespondBody) (now : Z) :
  responded_with (Routes.r_message (Routes.sanitizeRespondBody b))
    (Routes.r_price (Routes.sanitizeRespondBody b))
    (Routes.r_deliveryTime (Routes.sanitizeRespondBody b)) now d
  = responded_with (Routes.r_message b) (Routes.r_price b)
      (Routes.r_deliveryTime b) now d.
Proof.
  unfold responded_with, Routes.sanitizeRespondBody.
  cbn [Routes.r_message Routes.r_price Routes.r_deliveryTime].
  now rewrite !trim_idem.
Qed.

(** The respond route, once the body has passed the validation and the
    inquiry has been found for its seller. *)
Lemma route_patch_respond_found (db : Db) (user : User.t) (id : string)
    (b : Routes.RespondBody) (now : Z) (d : Inquiry.t) :
  Routes.respondInquiryValidation b = [] ->
  isObjectId id = true ->
  Routes.findInquiryOfSeller db id (User.id user) = Some d ->
  Routes.route_patch_respond db user id b now
  = if String.eqb (Inquiry.status d) "pending"
    then match Inquiry.validate
                 (responded_with (Routes.r_message b) (Routes.r_price b)
                    (Routes.r_deliveryTime b) now d) with
         | [] => (put_inquiry (responded_inquiry d b now) db,
                  mkResponse 200 (InquiryJson (responded_inquiry d b now)))
         | _ => (db, mkResponse 500 (ErrorJson "回复询价失败"))
         end
    else (db, mkResponse 400 (ErrorJson Inquiry.msg_already_responded)).
Proof.
  intros Hv Hid Hfind.
  unfold Routes.route_patch_respond. rewrite (handleValidationErrors_nil _ Hv).
  rewrite (patch_respond_found _ _ _ _ _ _ Hid Hfind), respondToInquiry_run.
  destruct (String.eqb (Inquiry.status d) "pending"); [| reflexivity].
  cbn [Inquiry.d_message Inquiry.d_price Inquiry.d_deliveryTime].
  rewrite responded_with_sanitized.
  destruct (Inquiry.validate _); [| reflexivity].
  now rewrite responded_document.
Qed.




(** ** Creating an inquiry *)

(** What the create route answers once the body has passed validation
    and the product has been found. *)
Lemma route_post_inquiry_valid (db : Db) (user : User.t) (b : Routes.CreateBody)
    (newId : string) (now : Z) :
  Routes.createInquiryValidation b = [] ->
  Routes.route_post_inquiry db user b newId now
  = Routes.post_inquiry db user (Routes.sanitizeCreateBody b) newId now.
Proof.
  intros Hv. unfold Routes.route_post_inquiry.
  now rewrite (handleValidationErrors_nil _ Hv).
Qed.

Lemma rule_nil (field : string) (ok : bool) (msg : string) :
  Routes.rule field ok msg = [] -> ok = true.
Proof. unfold Routes.rule. destruct ok; [reflexivity | discriminate]. Qed.

(** What a body that passes [createInquiryValidation] is known to be. *)
Lemma create_validated (b : Routes.CreateBody) :
  Routes.createInquiryValidation b = [] ->
  isObjectId (Routes.productId b) = true
  /\ Routes.isInt_min 1 (Routes.quantity b) = true
  /\ length_in 10 500 (Routes.message b) = true
  /\ forall x, Routes.expectedPrice b = Some x ->
               Routes.isFloat_range 0 1000000 x = true.
Proof.
  unfold Routes.createInquiryValidation. intros H.
  repeat match type of H with
         | (_ ++ _)%list = [] => apply app_eq_nil in H; destruct H as [?H H]
         end.
  repeat match goal with
         | Hr : Routes.rule _ _ _ = [] |- _ => apply rule_nil in Hr
         end.
  repeat split; try assumption.
  intros x Hx. rewrite Hx in H. now apply rule_nil in H.
Qed.

(** The document that [Inquiry.create] builds in the create route, and
    the one that it leaves when the validators accept that one. *)
Lemma drafted_document (newId : string) (user seller : User.t)
    (b : Routes.CreateBody) (now : Z) :
  InquiryCreate.construct newId
    (InquiryCreate.mkFields (Routes.productId b) (User.id user) (User._id seller)
       (Routes.quantity b) (trim (Routes.message b)) (Routes.expectedPrice b)
       (Contact.mk (User.phone user) (Some (User.email user)))) now
  = drafted_inquiry newId user seller b now.
Proof.
  unfold drafted_inquiry, InquiryCreate.construct.
  cbn [InquiryCreate.f_product InquiryCreate.f_buyer InquiryCreate.f_seller
       InquiryCreate.f_quantity InquiryCreate.f_message
       InquiryCreate.f_expectedPrice InquiryCreate.f_buyerContact].
  now rewrite trim_idem.
Qed.

Lemma created_document (newId : string) (user seller : User.t)
    (b : Routes.CreateBody) (now : Z) :
  Inquiry.set_updatedAt now (Inquiry.preSave (drafted_inquiry newId user seller b now))
  = created_inquiry newId user seller b now.
Proof. rewrite preSave_fields. reflexivity. Qed.

(** The create route, once the body has passed the validation and the
    product, its stock and its seller have been checked: the validators
    of the schema decide between 201 and 500. *)
Lemma route_post_inquiry_checked (db : Db) (user : User.t) (b : Routes.CreateBody)
    (newId : string) (now : Z) (p : Product.t) (seller : User.t) :
  Routes.createInquiryValidation b = [] ->
  Routes.findActiveProduct db (Routes.productId b) = Some p ->
  ltb (Product.stock p) (Routes.quantity b) = false ->
  users db !! Product.seller p = Some seller ->
  String.eqb (User._id seller) (User.id user) = false ->
  Routes.route_post_inquiry db user b newId now
  = match Inquiry.validate (drafted_inquiry newId user seller b now) with
    | [] => (put_inquiry (created_inquiry newId user seller b now) db,
             mkResponse 201 (InquiryJson (created_inquiry newId user seller b now)))
    | _ => (db, mkResponse 500 (ErrorJson "创建询价失败"))
    end.
Proof.
  intros Hv Hp Hlt Hs Hne. rewrite (route_post_inquiry_valid _ _ _ _ _ Hv).
  unfold Routes.post_inquiry.
  cbn [Routes.productId Routes.quantity Routes.message Routes.expectedPrice
       Routes.sanitizeCreateBody].
  rewrite Hp, Hlt, Hs, Hne.
  unfold InquiryCreate.create. rewrite save_run, drafted_document.
  destruct (Inquiry.validate _); [| reflexivity].
  now rewrite created_document.
Qed.

(** Every answer of the create route: an answer other than 201 leaves
    the store as it was, and with 201 the document of the body, which the
    validators of the schema have accepted, is stored. *)
Lemma route_post_inquiry_cases (db : Db) (user : User.t) (b : Routes.CreateBody)
    (newId : string) (now : Z) :
  (fst (Routes.route_post_inquiry db user b newId now) = db
   /\ In (code (snd (Routes.route_post_inquiry db user b newId now))) [400; 404; 500])
  \/ exists p seller,
       Routes.createInquiryValidation b = []
       /\ Routes.findActiveProduct db (Routes.productId b) = Some p
       /\ ltb (Product.stock p) (Routes.quantity b) = false
       /\ users db !! Product.seller p = Some seller
       /\ String.eqb (User._id seller) (User.id user) = false
       /\ Inquiry.validate (drafted_inquiry newId user seller b now) = []
       /\ Routes.route_post_inquiry db user b newId now
          = (put_inquiry (created_inquiry newId user seller b now) db,
             mkResponse 201 (InquiryJson (created_inquiry newId user seller b now))).
Proof.
  destruct (Routes.createInquiryValidation b) as [|e es] eqn:Hv.
  2:{ left. unfold Routes.route_post_inquiry. rewrite Hv. cbn. auto. }
  destruct (Routes.findActiveProduct db (Routes.productId b)) as [p|] eqn:Hp.
  2:{ left. rewrite (route_post_inquiry_valid _ _ _ _ _ Hv).
      unfold Routes.post_inquiry. cbn [Routes.productId Routes.sanitizeCreateBody].
      rewrite Hp. cbn. auto. }
  destruct (ltb (Product.stock p) (Routes.quantity b)) eqn:Hlt.
  { left. rewrite (route_post_inquiry_valid _ _ _ _ _ Hv).
    unfold Routes.post_inquiry.
    cbn [Routes.productId Routes.quantity Routes.sanitizeCreateBody].
    rewrite Hp, Hlt. cbn. auto. }
  destruct (users db !! Product.seller p) as [seller|] eqn:Hs.
  2:{ left. rewrite (route_post_inquiry_valid _ _ _ _ _ Hv).
      unfold Routes.post_inquiry.
      cbn [Routes.productId Routes.quantity Routes.sanitizeCreateBody].
      rewrite Hp, Hlt, Hs. cbn. auto. }
  destruct (String.eqb (User._id seller) (User.id user)) eqn:Hne.
  { left. rewrite (route_post_inquiry_valid _ _ _ _ _ Hv).
    unfold Routes.post_inquiry.
    cbn [Routes.productId Routes.quantity Routes.sanitizeCreateBody].
    rewrite Hp, Hlt, Hs, Hne. cbn. auto. }
  pose proof (route_post_inquiry_checked db user b newId now p seller Hv Hp Hlt Hs Hne)
    as Hr.
  destruct (Inquiry.validate (drafted_inquiry newId user seller b now)) eqn:Hl.
  - right. exists p, seller. repeat split; assumption.
  - left. rewrite Hr. cbn. auto.
Qed.

(** C4, as the code has it.  For a create call whose body passes the
    validation middleware and whose product exists and is active: when the
    quantity exceeds the stock the call fails with InsufficientStock; when
    it does not and the product's seller is the calling buyer the call
    fails with SelfInquiryForbidden; in both cases the store is what it
    was. *)
Theorem create_checks_after_validation (db : Db) (user : User.t)
    (b : Routes.CreateBody) (newId : string) (now : Z) (p : Product.t) :
  Routes.createInquiryValidation b = [] ->
  Routes.findActiveProduct db (Routes.productId b) = Some p ->
  (ltb (Product.stock p) (Routes.quantity b) = true ->
     Routes.route_post_inquiry db user b newId now
     = (db, InsufficientStock (Product.stock p)))
  /\ (ltb (Product.stock p) (Routes.quantity b) = false ->
      Product.seller p = User.id user ->
      users db !! User.id user = Some user ->
      Routes.route_post_inquiry db user b newId now = (db, SelfInquiryForbidden)).
Proof.
  intros Hv Hp. rewrite (route_post_inquiry_valid _ _ _ _ _ Hv).
  unfold Routes.post_inquiry.
  cbn [Routes.productId Routes.quantity Routes.sanitizeCreateBody].
  rewrite Hp. split.
  - intros Hlt. rewrite Hlt. reflexivity.
  - intros Hlt Hs Hu. rewrite Hlt, Hs, Hu.
    unfold User.id. rewrite String.eqb_refl. reflexivity.
Qed.

Lemma create_checks_after_validation_witness :
  Routes.createInquiryValidation order_large = []
  /\ Routes.findActiveProduct db0 (Routes.productId order_large) = Some product1
  /\ ((ltb (Product.stock product1) (Routes.quantity order_large) = true ->
         Routes.route_post_inquiry db0 buyer1 order_large inquiry_id 1000
         = (db0, InsufficientStock (Product.stock product1)))
      /\ (ltb (Product.stock product1) (Routes.quantity order_large) = false ->
          Product.seller product1 = User.id buyer1 ->
          users db0 !! User.id buyer1 = Some buyer1 ->
          Routes.route_post_inquiry db0 buyer1 order_large inquiry_id 1000
          = (db0, SelfInquiryForbidden))).
Proof.
  split; [vm_compute; reflexivity |].
  split; [vm_compute; reflexivity |].
  apply (create_checks_after_validation db0 buyer1 order_large inquiry_id 1000 product1).
  - vm_compute; reflexivity.
  - vm_compute; reflexivity.
Defined.

(** The claim as the specification words it fails twice.  A call for more
    than the stock whose message is too short is answered by the
    validation middleware, not with InsufficientStock; and a seller asking
    for more than the stock of the seller's own product is answered with
    InsufficientStock, not with SelfInquiryForbidden. *)
Lemma create_checks_regardless_fails :
  (ltb (Product.stock product1) (Routes.quantity order_short) = true
   /\ Routes.findActiveProduct db0 (Routes.productId order_short) = Some product1
   /\ snd (Routes.route_post_inquiry db0 buyer1 order_short inquiry_id 1000)
      = mkResponse 400
          (ValidationJson [mkFieldError "message" "询价留言必须为10-500位字符"])
   /\ snd (Routes.route_post_inquiry db0 buyer1 order_short inquiry_id 1000)
      <> InsufficientStock (Product.stock product1))
  /\ (Product.seller product1 = User.id seller1
      /\ Routes.createInquiryValidation order_large = []
      /\ snd (Routes.route_post_inquiry db0 seller1 order_large inquiry_id 1000)
         = InsufficientStock (Product.stock product1)
      /\ snd (Routes.route_post_inquiry db0 seller1 order_large inquiry_id 1000)
         <> SelfInquiryForbidden).
Proof.
  repeat split; try (vm_compute; reflexivity); vm_compute; discriminate.
Qed.

(** C7. For every create call that succeeds (answers 201), the products
    of the store -- the stock of the referenced product among them -- are
    what they were before the call, and the inquiry that was created, sent
    back and stored has the status "pending". *)
Theorem create_leaves_stock (db db' : Db) (user : User.t) (b : Routes.CreateBody)
    (newId : string) (now : Z) (r : HttpResponse) :
  Routes.route_post_inquiry db user b newId now = (db', r) ->
  code r = 201 ->
  products db' = products db
  /\ (forall p, Routes.findActiveProduct db (Routes.productId b) = Some p ->
        Routes.findActiveProduct db' (Routes.productId b) = Some p
        /\ exists p', products db' !! ObjectId.cast (Routes.productId b) = Some p'
                      /\ Product.stock p' = Product.stock p)
  /\ exists inquiry, payload r = InquiryJson inquiry
                     /\ inquiries db' !! newId = Some inquiry
                     /\ Inquiry.status inquiry = "pending".
Proof.
  intros E Hc.
  destruct (route_post_inquiry_cases db user b newId now)
    as [[_ Hin] | (p & seller & _ & Hp & _ & _ & _ & _ & Hr)].
  { rewrite E in Hin. cbn [snd] in Hin. rewrite Hc in Hin. cbn [In] in Hin.
    exfalso. intuition discriminate. }
  rewrite Hr in E. inversion E; subst db' r. clear E.
  split; [reflexivity |]. split.
  - intros p0 Hp0. split; [exact Hp0 |].
    unfold Routes.findActiveProduct in Hp0. cbn [put_inquiry products].
    destruct (products db !! ObjectId.cast (Routes.productId b)) as [q|] eqn:Hq;
      [| discriminate].
    destruct (Product.isActive q); [| discriminate].
    inversion Hp0; subst q. exists p0. auto.
  - eexists. split; [reflexivity |]. split; [| reflexivity].
    cbn [put_inquiry inquiries created_inquiry Inquiry._id]. apply lookup_insert_eq.
Qed.

Lemma create_leaves_stock_witness :
  Routes.route_post_inquiry db0 buyer1 order1 inquiry_id 1000
  = (db1, mkResponse 201 (InquiryJson inquiry1))
  /\ code (mkResponse 201 (InquiryJson inquiry1)) = 201
  /\ (products db1 = products db0
      /\ (forall p, Routes.findActiveProduct db0 (Routes.productId order1) = Some p ->
            Routes.findActiveProduct db1 (Routes.productId order1) = Some p
            /\ exists p', products db1 !! ObjectId.cast (Routes.productId order1) = Some p'
                          /\ Product.stock p' = Product.stock p)
      /\ exists inquiry, payload (mkResponse 201 (InquiryJson inquiry1)) = InquiryJson inquiry
                         /\ inquiries db1 !! inquiry_id = Some inquiry
                         /\ Inquiry.status inquiry = "pending").
Proof.
  assert (H : Routes.route_post_inquiry db0 buyer1 order1 inquiry_id 1000
              = (db1, mkResponse 201 (InquiryJson inquiry1))).
  { vm_compute. reflexivity. }
  split; [exact H |]. split; [reflexivity |].
  exact (create_leaves_stock db0 db1 buyer1 order1 inquiry_id 1000
           (mkResponse 201 (InquiryJson inquiry1)) H eq_refl).
Defined.

(** ** Responding to an inquiry of another seller *)

Lemma findInquiryOfSeller_foreign (db : Db) (id userId : string) (d : Inquiry.t) :
  inquiries db !! ObjectId.cast id = Some d ->
  Inquiry.seller d <> userId ->
  Routes.findInquiryOfSeller db id userId = None.
Proof.
  intros Hd Hs. unfold Routes.findInquiryOfSeller. rewrite Hd.
  apply String.eqb_neq in Hs. now rewrite Hs.
Qed.

Lemma findInquiryOfSeller_missing (db : Db) (id userId : string) :
  inquiries db !! ObjectId.cast id = None ->
  Routes.findInquiryOfSeller db id userId = None.
Proof. intros Hd. unfold Routes.findInquiryOfSeller. now rewrite Hd. Qed.

Lemma findInquiryOfSeller_found (db : Db) (id userId : string) (d : Inquiry.t) :
  Routes.findInquiryOfSeller db id userId = Some d ->
  inquiries db !! ObjectId.cast id = Some d /\ Inquiry.seller d = userId.
Proof.
  unfold Routes.findInquiryOfSeller.
  destruct (inquiries db !! ObjectId.cast id) as [d0|]; [| discriminate].
  destruct (String.eqb (Inquiry.seller d0) userId) eqn:E; [| discriminate].
  intros H. inversion H; subst d0. apply String.eqb_eq in E. auto.
Qed.


(** Every answer of the respond route: an answer other than 200 leaves
    the store as it was, and with 200 the answered inquiry, which the
    validators of the schema have accepted, takes the place of the pending
    one that the seller owns. *)
Lemma route_patch_respond_cases (db : Db) (user : User.t) (id : string)
    (b : Routes.RespondBody) (now : Z) :
  (fst (Routes.route_patch_respond db user id b now) = db
   /\ In (code (snd (Routes.route_patch_respond db user id b now))) [400; 404; 500])
  \/ exists d,
       Routes.respondInquiryValidation b = []
       /\ isObjectId id = true
       /\ inquiries db !! ObjectId.cast id = Some d
       /\ Inquiry.seller d = User.id user
       /\ Inquiry.status d = "pending"
       /\ Inquiry.validate
            (responded_with (Routes.r_message b) (Routes.r_price b)
               (Routes.r_deliveryTime b) now d) = []
       /\ Routes.route_patch_respond db user id b now
          = (put_inquiry (responded_inquiry d b now) db,
             mkResponse 200 (InquiryJson (responded_inquiry d b now))).
Proof.
  destruct (Routes.respondInquiryValidation b) as [|e es] eqn:Hv.
  2:{ left. unfold Routes.route_patch_respond. rewrite Hv. cbn. auto. }
  destruct (isObjectId id) eqn:Hid.
  2:{ left. unfold Routes.route_patch_respond, Routes.patch_respond.
      rewrite Hv, Hid. cbn. auto. }
  destruct (Routes.findInquiryOfSeller db id (User.id user)) as [d|] eqn:Hfind.
  2:{ left. unfold Routes.route_patch_respond, Routes.patch_respond.
      rewrite Hv, Hid, Hfind. cbn. auto. }
  destruct (findInquiryOfSeller_found _ _ _ _ Hfind) as [Hd Hs].
  pose proof (route_patch_respond_found db user id b now d Hv Hid Hfind) as Hr.
  destruct (String.eqb (Inquiry.status d) "pending") eqn:Hst.
  - apply String.eqb_eq in Hst.
    destruct (Inquiry.validate _) eqn:Hval.
    + right. exists d. repeat split; assumption.
    + left. rewrite Hr. cbn. auto.
  - left. rewrite Hr. cbn. auto.
Qed.

(** C10, as the code has it.  When a user who is not the seller of an
    inquiry calls the respond route for it with a body that passes the
    validation middleware, the answer is the 404 response and the store is
    what it was; the very same response is given for an id under which no
    inquiry is stored; a body that does not pass the validation is
    answered with 400 by the middleware in front; and whatever the body,
    the route leaves the store as it was and does not answer 403. *)
Theorem respond_hides_foreign_inquiry (db : Db) (user : User.t) (id : string)
    (b : Routes.RespondBody) (now : Z) (d : Inquiry.t) :
  isObjectId id = true ->
  inquiries db !! ObjectId.cast id = Some d ->
  Inquiry.seller d <> User.id user ->
  (Routes.respondInquiryValidation b = [] ->
     Routes.route_patch_respond db user id b now = (db, InquiryNotFound))
  /\ code InquiryNotFound = 404
  /\ (forall db0 id0, isObjectId id0 = true ->
        inquiries db0 !! ObjectId.cast id0 = None ->
        Routes.respondInquiryValidation b = [] ->
        Routes.route_patch_respond db0 user id0 b now = (db0, InquiryNotFound))
  /\ (Routes.respondInquiryValidation b <> [] ->
        Routes.route_patch_respond db user id b now
        = (db, mkResponse 400 (ValidationJson (Routes.respondInquiryValidation b))))
  /\ fst (Routes.route_patch_respond db user id b now) = db
  /\ code (snd (Routes.route_patch_respond db user id b now)) <> 403.
Proof.
  intros Hid Hd Hs.
  assert (Hh : forall b', Routes.patch_respond db user id b' now = (db, InquiryNotFound)).
  { intros b'. unfold Routes.patch_respond.
    rewrite Hid, (findInquiryOfSeller_foreign _ _ _ _ Hd Hs). reflexivity. }
  split; [| split; [reflexivity |]; split; [| split]].
  - intros Hv. unfold Routes.route_patch_respond.
    rewrite (handleValidationErrors_nil _ Hv). apply Hh.
  - intros db0 id0 Hid0 Hnone Hv. unfold Routes.route_patch_respond.
    rewrite (handleValidationErrors_nil _ Hv). unfold Routes.patch_respond.
    rewrite Hid0, (findInquiryOfSeller_missing _ _ _ Hnone). reflexivity.
  - intros Hv. unfold Routes.route_patch_respond, Routes.handleValidationErrors.
    destruct (Routes.respondInquiryValidation b); [now contradict Hv | reflexivity].
  - unfold Routes.route_patch_respond, Routes.handleValidationErrors.
    destruct (Routes.respondInquiryValidation b).
    + rewrite Hh. split; [reflexivity | discriminate].
    + split; [reflexivity | discriminate].
Qed.

Lemma respond_hides_foreign_inquiry_witness :
  isObjectId inquiry_id = true
  /\ inquiries db1 !! ObjectId.cast inquiry_id = Some inquiry1
  /\ Inquiry.seller inquiry1 <> User.id other1
  /\ Routes.respondInquiryValidation quote1 = []
  /\ Routes.route_patch_respond db1 other1 inquiry_id quote1 2000
     = (db1, InquiryNotFound).
Proof.
  assert (H1 : isObjectId inquiry_id = true) by (vm_compute; reflexivity).
  assert (H2 : inquiries db1 !! ObjectId.cast inquiry_id = Some inquiry1)
    by (vm_compute; reflexivity).
  assert (H3 : Inquiry.seller inquiry1 <> User.id other1) by (vm_compute; discriminate).
  assert (H4 : Routes.respondInquiryValidation quote1 = []) by (vm_compute; reflexivity).
  split; [exact H1 |]. split; [exact H2 |]. split; [exact H3 |]. split; [exact H4 |].
  exact (proj1 (respond_hides_foreign_inquiry db1 other1 inquiry_id quote1 2000 inquiry1
                  H1 H2 H3) H4).
Defined.

(** The claim as the specification words it, for every call, fails: a
    user who is not the seller and whose body does not pass the validation
    middleware is answered 400, not 404, before the inquiry is looked
    for. *)
Lemma respond_foreign_invalid_body_is_400 :
  isObjectId inquiry_id = true
  /\ inquiries db1 !! ObjectId.cast inquiry_id = Some inquiry1
  /\ Inquiry.seller inquiry1 <> User.id other1
  /\ Routes.route_patch_respond db1 other1 inquiry_id
       (Routes.mkRespondBody "too short" (of_Z 10) "3 days") 2000
     = (db1, mkResponse 400
               (ValidationJson [mkFieldError "message" "回复内容必须为10-1000位字符"]))
  /\ code (snd (Routes.route_patch_respond db1 other1 inquiry_id
                  (Routes.mkRespondBody "too short" (of_Z 10) "3 days") 2000))
     <> 404.
Proof.
  split; [vm_compute; reflexivity |]. split; [vm_compute; reflexivity |].
  split; [vm_compute; discriminate |]. split; [vm_compute; reflexivity |].
  vm_compute. discriminate.
Qed.

(** ** Normalization on save *)

Lemma normalize_quantity_floor (q : Number) :
  is_binary64 q = true -> is_finite q = true ->
  intval (normalize_quantity q) = floorZ q.
Proof.
  intros Hv Hf. unfold normalize_quantity.
  destruct (truthy q) eqn:Ht; [now apply Math_floor_exact |].
  destruct q; try discriminate. reflexivity.
Qed.

(** The price that the store holds after the seller's response to the
    inquiry of the scenario is the price of the body as the save hook
    leaves it. *)
Lemma stored_quote_is_hooked (price : Number) :
  Routes.isFloat_range 0 1000000 price = true ->
  stored_quote price = Some (normalize_price price).
Proof.
  intros Hp. unfold stored_quote.
  assert (Hv : Routes.respondInquiryValidation (quote_priced price) = []).
  { unfold Routes.respondInquiryValidation, quote_priced.
    cbn [Routes.r_message Routes.r_price Routes.r_deliveryTime].
    rewrite Hp. reflexivity. }
  assert (Hid : isObjectId inquiry_id = true) by (vm_compute; reflexivity).
  assert (Hf : Routes.findInquiryOfSeller db1 inquiry_id (User.id seller1)
               = Some inquiry1) by (vm_compute; reflexivity).
  rewrite (route_patch_respond_found db1 seller1 inquiry_id (quote_priced price) 2000
             inquiry1 Hv Hid Hf).
  change (String.eqb (Inquiry.status inquiry1) "pending") with true. cbv iota.
  assert (Hval : Inquiry.validate
                   (responded_with (Routes.r_message (quote_priced price))
                      (Routes.r_price (quote_priced price))
                      (Routes.r_deliveryTime (quote_priced price)) 2000 inquiry1)
                 = []).
  { apply validate_responded_with; [left; reflexivity |].
    split; [| vm_compute; reflexivity].
    unfold within_response_bounds, quote_priced.
    cbn [Inquiry.d_message Inquiry.d_price Inquiry.d_deliveryTime
         Routes.r_message Routes.r_price Routes.r_deliveryTime].
    unfold Routes.isFloat_range in Hp.
    apply andb_true_iff in Hp as [Hp H1]. apply andb_true_iff in Hp as [_ H0].
    rewrite H0, H1. reflexivity. }
  rewrite Hval. cbn [fst put_inquiry inquiries responded_inquiry Inquiry._id].
  change (Inquiry._id inquiry1) with inquiry_id.
  rewrite lookup_insert_eq. reflexivity.
Qed.

(** An exact half goes up, also where rounding to even would go down:
    0.125 is a Number, its hundredfold is exactly 12.5, and it is stored as
    0.13. *)
Example exact_half_goes_up :
  normalize_price (of_decimal 125 3) = of_decimal 13 2
  /\ mul (of_decimal 125 3) (of_Z 100) = of_decimal 125 1
  /\ roundZ (of_decimal 125 1) = Some 13.
Proof. repeat split; vm_compute; reflexivity. Qed.

(** C9, at the inputs where the code departs from it.  Every response
    that the respond route stores has been through the save hook, which
    replaces the price by [Math.round(price * 100) / 100] -- but the
    product [price * 100] is itself rounded to a Number before
    [Math.round] sees it.  Of four prices that are written with a 5 as
    their third decimal, the seller's quotes of 199.995 and 2.675 are
    stored as 200.00 and 2.68, rounded up, and those of 1.005 and 1.015 as
    1.00 and 1.01, rounded down: none of the rules half-up, half-down,
    half-even and half-odd gives these four results.  Nor is the stored
    price always the nearest one to the Number that was received: the
    Number for 2.675 lies below 2.675, its nearest price with two decimals
    is 2.67, and 2.68 is stored.  The create route stores the expected
    price of an order through the same hook: 2.675 as 2.68 and 1.005 as
    1.00. *)
Theorem price_rounding_follows_no_rule :
  (forall price, Routes.isFloat_range 0 1000000 price = true ->
                 stored_quote price = Some (normalize_price price))
  /\ stored_quote (of_decimal 199995 3) = Some (of_decimal 20000 2)
  /\ stored_quote (of_decimal 2675 3) = Some (of_decimal 268 2)
  /\ stored_quote (of_decimal 1005 3) = Some (of_decimal 100 2)
  /\ stored_quote (of_decimal 1015 3) = Some (of_decimal 101 2)
  /\ (forall rule : HalfRule,
        exists n, In n [199995; 2675; 1005; 1015]
                  /\ n mod 10 = 5
                  /\ stored_quote (of_decimal n 3)
                     <> Some (of_decimal (cents_by rule n) 2))
  /\ nearest_cent (of_decimal 2675 3) 267 = true
  /\ nearest_cent (of_decimal 2675 3) 268 = false
  /\ stored_expectation (of_decimal 2675 3) = Some (of_decimal 268 2)
  /\ stored_expectation (of_decimal 1005 3) = Some (of_decimal 100 2).
Proof.
  split; [exact stored_quote_is_hooked |].
  split; [vm_compute; reflexivity |]. split; [vm_compute; reflexivity |].
  split; [vm_compute; reflexivity |]. split; [vm_compute; reflexivity |].
  split; [| repeat split; vm_compute; reflexivity].
  intros [| | |].
  - exists 1005. split; [cbn; tauto |]. split; [reflexivity |].
    vm_compute. discriminate.
  - exists 199995. split; [cbn; tauto |]. split; [reflexivity |].
    vm_compute. discriminate.
  - exists 1015. split; [cbn; tauto |]. split; [reflexivity |].
    vm_compute. discriminate.
  - exists 1005. split; [cbn; tauto |]. split; [reflexivity |].
    vm_compute. discriminate.
Qed.

(** ** Anti-forgery validation and the mounted routes *)

(** Where [validateCsrf] runs, a mutating request to a path outside the
    skip list is refused with 403 unless it carries a token that verifies
    against the secret of its session. *)
Lemma validateCsrf_requires_token (digest : string -> string)
    (req : Csrf.CsrfRequest) :
  is_safe_method (Csrf.method req) = false ->
  existsb (String.eqb (req_path (Csrf.path req))) Csrf.skipPaths = false ->
  String.prefix "/auth/" (req_path (Csrf.path req)) = false ->
  Csrf.req_validateCsrf digest (Csrf.session req)
    (Csrf.first_some (Csrf.x_csrf_token req)
       (Csrf.first_some (Csrf.x_xsrf_token req) (Csrf.body_csrf req))) = false ->
  exists r, Csrf.validateCsrf digest req = Some r /\ code r = 403.
Proof.
  intros Hm Hs Hp Hv. unfold Csrf.validateCsrf. rewrite Hm, Hs, Hp. cbn [andb].
  destruct (Csrf.first_some (Csrf.x_csrf_token req)
              (Csrf.first_some (Csrf.x_xsrf_token req) (Csrf.body_csrf req)))
    as [t|] eqn:E.
  - rewrite Hv. cbn [negb]. eexists. split; reflexivity.
  - eexists. split; reflexivity.
Qed.

(** C3, at the input where the code departs from it.  The mounts of the
    inquiry and the product routes carry no [validateCsrf]: the chains of
    the three mutating endpoints are without it, and the order of the
    scenario, posted without any anti-forgery token, is answered with 201
    and stored, as is the seller's response with 200.  The user routes are
    mounted with [validateCsrf]. *)
Theorem inquiry_routes_skip_csrf (digest : string -> string)
    (other_handler : string -> Server.World -> Server.Request
                     -> Server.World * HttpResponse)
    (other_validation : string -> Server.Request -> option HttpResponse) :
  (option_map snd
     (Server.serve digest other_handler other_validation world0 post_without_token)
   = Some (mkResponse 201 (InquiryJson inquiry1))
   /\ option_map (fun r => Server.db (fst r))
        (Server.serve digest other_handler other_validation world0 post_without_token)
      = Some db1)
  /\ (option_map snd
        (Server.serve digest other_handler other_validation world1 respond_without_token)
      = Some (mkResponse 200 (InquiryJson inquiry1_quoted))
      /\ option_map (fun r => Server.db (fst r))
           (Server.serve digest other_handler other_validation world1
              respond_without_token)
         = Some (put_inquiry inquiry1_quoted db1)
      /\ Inquiry.status inquiry1_quoted = "responded")
  /\ (forall id,
        Server.chain_for POST ["api"; "inquiries"]
        = Some ([Server.mw_auth; Server.mw_apiLimiter; Server.mw_apiLimiter;
                 Server.mw_validate_create; Server.mw_handler Server.h_post_inquiry], [])
        /\ Server.chain_for PATCH ["api"; "inquiries"; id; "respond"]
           = Some ([Server.mw_auth; Server.mw_apiLimiter; Server.mw_apiLimiter;
                    Server.mw_validate_respond;
                    Server.mw_handler Server.h_patch_respond], [id; "respond"])
        /\ Server.chain_for POST ["api"; "products"]
           = Some ([Server.mw_auth; Server.mw_apiLimiter; Server.mw_apiLimiter;
                    Server.mw_validate_other "createProduct";
                    Server.mw_handler (Server.h_other "createProduct")], []))
  /\ Server.chain_for PATCH ["api"; "users"; "profile"]
     = Some ([Server.mw_auth; Server.mw_apiLimiter; Server.mw_validateCsrf;
              Server.mw_auth; Server.mw_handler (Server.h_other "updateProfile")],
             ["profile"]).
Proof.
  split; [| split; [| split]].
  - split; vm_compute; reflexivity.
  - split; [| split]; [vm_compute; reflexivity | vm_compute; reflexivity | reflexivity].
  - intros id. repeat split; reflexivity.
  - reflexivity.
Qed.

Lemma limiter_code (o : RateLimit.Options) (now : Z) (key : string)
    (store store' : gmap string RateLimit.Window) (r : HttpResponse) :
  RateLimit.limiter o now key store = (store', Some r) -> r = RateLimited o.
Proof.
  unfold RateLimit.limiter.
  destruct (RateLimit.increment o now key store) as [s n].
  destruct (RateLimit.max o <? n); intros E; inversion E; reflexivity.
Qed.

Lemma auth_code (w : Server.World) (req : Server.Request) (r : HttpResponse) :
  Server.auth w req = inr r -> code r = 401.
Proof.
  unfold Server.auth. destruct (Server.bearer req) as [| | uid].
  - intros E; inversion E; reflexivity.
  - intros E; inversion E; reflexivity.
  - destruct (users (Server.db w) !! uid); intros E; inversion E; reflexivity.
Qed.

Lemma post_inquiry_code (db : Db) (user : User.t) (b : Routes.CreateBody)
    (newId : string) (now : Z) :
  code (snd (Routes.post_inquiry db user b newId now)) <> 403.
Proof.
  unfold Routes.post_inquiry.
  repeat match goal with
         | |- context [match ?x with _ => _ end] => destruct x
         end; cbn; discriminate.
Qed.

(** The skip list of [validateCsrf] compares [req.path], which under a
    mount point is relative to it: the login route, mounted under [/auth],
    is seen as [/login] and is asked for a token like any other. *)
Example login_without_token_is_403 (digest : string -> string)
    (other_handler : string -> Server.World -> Server.Request
                     -> Server.World * HttpResponse)
    (other_validation : string -> Server.Request -> option HttpResponse) :
  option_map (fun r => code (snd r))
    (Server.serve digest other_handler other_validation world0 login_without_token)
  = Some 403.
Proof. vm_compute. reflexivity. Qed.

(** No request to [POST /api/inquiries] is answered with 403, whatever
    anti-forgery token it carries or lacks. *)
Lemma post_inquiry_never_403 (digest : string -> string)
    (other_handler : string -> Server.World -> Server.Request
                     -> Server.World * HttpResponse)
    (other_validation : string -> Server.Request -> option HttpResponse)
    (w w' : Server.World) (req : Server.Request) (r : HttpResponse) :
  Server.method req = POST ->
  Server.url req = ["api"; "inquiries"] ->
  Server.serve digest other_handler other_validation w req = Some (w', r) ->
  code r <> 403.
Proof.
  intros Hm Hu. unfold Server.serve. rewrite Hm, Hu.
  change (Server.chain_for POST ["api"; "inquiries"])
    with (Some ([Server.mw_auth; Server.mw_apiLimiter; Server.mw_apiLimiter;
                 Server.mw_validate_create;
                 Server.mw_handler Server.h_post_inquiry], @nil string)).
  cbn [Server.run_chain].
  destruct (Server.auth w req) as [u | r0] eqn:Ha.
  2:{ intros E; inversion E; subst. rewrite (auth_code _ _ _ Ha). discriminate. }
  destruct (RateLimit.limiter RateLimit.apiLimiter (Server.now req) (Server.ip req)
              (Server.apiHits w)) as [s1 [r1|]] eqn:H1.
  { intros E; inversion E; subst. rewrite (limiter_code _ _ _ _ _ _ H1). discriminate. }
  cbn [Server.apiHits Server.db Server.authHits].
  destruct (RateLimit.limiter RateLimit.apiLimiter (Server.now req) (Server.ip req) s1)
    as [s2 [r2|]] eqn:H2.
  { intros E; inversion E; subst. rewrite (limiter_code _ _ _ _ _ _ H2). discriminate. }
  unfold Routes.handleValidationErrors.
  destruct (Routes.createInquiryValidation (Server.as_create (Server.body req))).
  2:{ intros E; inversion E; subst. discriminate. }
  unfold Server.run_handler.
  cbn [Server.db].
  match goal with |- context [Routes.post_inquiry ?a ?b ?c ?d ?e] =>
    pose proof (post_inquiry_code a b c d e) as Hc;
    destruct (Routes.post_inquiry a b c d e) as [db' r'] end.
  intros E; inversion E; subst. exact Hc.
Qed.

(** ** Rate limiting *)

(** Within the window of a client, the pass that brings the count to [n]
    is let through exactly when [n] is at most [max]. *)
Lemma passes_within_window (o : RateLimit.Options) (key : string)
    (times : list Z) :
  forall (h rt : Z) (store : gmap string RateLimit.Window),
    store !! key = Some (RateLimit.mkWindow h rt) ->
    Forall (fun t => t < rt) times ->
    run_passes o key times store
    = List.map (fun j => h + Z.of_nat j + 1 <=? RateLimit.max o)
        (List.seq 0 (length times)).
Proof.
  induction times as [|t ts IH]; intros h rt store Hs Hall; [reflexivity |].
  inversion Hall as [|? ? Ht Hts]; subst.
  cbn [run_passes length List.seq List.map].
  unfold RateLimit.limiter, RateLimit.increment. rewrite Hs.
  cbn [RateLimit.resetTime RateLimit.hits].
  apply Z.ltb_lt in Ht. rewrite Ht.
  assert (Hflag : (if RateLimit.max o <? h + 1
                   then false else true) = (h + Z.of_nat 0 + 1 <=? RateLimit.max o)).
  { cbn [Z.of_nat]. rewrite Z.add_0_r.
    destruct (Z.ltb_spec (RateLimit.max o) (h + 1));
      destruct (Z.leb_spec (h + 1) (RateLimit.max o)); try reflexivity; lia. }
  destruct (RateLimit.max o <? h + 1) eqn:E; rewrite <- Hflag; f_equal;
    (rewrite (IH (h + 1) rt) by (try apply lookup_insert_eq; assumption);
     rewrite <- seq_shift, List.map_map; apply List.map_ext; intros j;
     f_equal; lia).
Qed.

(** The first pass of a client opens its window with a count of one, and
    so does the first pass after the window has expired. *)
Lemma pass_opens_window (o : RateLimit.Options) (key : string) (t : Z)
    (store : gmap string RateLimit.Window) :
  (store !! key = None
   \/ exists w, store !! key = Some w /\ RateLimit.resetTime w <= t) ->
  fst (RateLimit.limiter o t key store) !! key
  = Some (RateLimit.mkWindow 1 (t + RateLimit.windowMs o))
  /\ (1 <= RateLimit.max o -> snd (RateLimit.limiter o t key store) = None).
Proof.
  intros H. unfold RateLimit.limiter, RateLimit.increment.
  assert (E : match store !! key with
              | Some w =>
                  if t <? RateLimit.resetTime w
                  then (<[key := RateLimit.mkWindow (RateLimit.hits w + 1)
                                   (RateLimit.resetTime w)]> store,
                        RateLimit.hits w + 1)
                  else (<[key := RateLimit.mkWindow 1 (t + RateLimit.windowMs o)]> store, 1)
              | None => (<[key := RateLimit.mkWindow 1 (t + RateLimit.windowMs o)]> store, 1)
              end
              = (<[key := RateLimit.mkWindow 1 (t + RateLimit.windowMs o)]> store, 1)).
  { destruct H as [-> | (w & -> & Hw)]; [reflexivity |].
    apply Z.ltb_ge in Hw. now rewrite Hw. }
  rewrite E. split.
  - destruct (RateLimit.max o <? 1); apply lookup_insert_eq.
  - intros Hmax. apply Z.ltb_ge in Hmax. now rewrite Hmax.
Qed.

(** A limiter that a request passes once lets a client through [max]
    times in a window and refuses the pass after that. *)
Lemma single_pass_limit (o : RateLimit.Options) (key : string) (t0 : Z)
    (times : list Z) (store : gmap string RateLimit.Window) :
  store !! key = None ->
  0 <= RateLimit.max o ->
  Forall (fun t => t < t0 + RateLimit.windowMs o) times ->
  run_passes o key (t0 :: times) store
  = List.map (fun j => Z.of_nat j <? RateLimit.max o) (List.seq 0 (S (length times))).
Proof.
  intros Hs Hmax Hall.
  cbn [run_passes length List.seq List.map].
  destruct (pass_opens_window o key t0 store (or_introl Hs)) as [Hw Hr].
  destruct (RateLimit.limiter o t0 key store) as [store' r] eqn:E.
  cbn [fst snd] in Hw, Hr.
  assert (Hfirst : match r with None => true | Some _ => false end
                   = (Z.of_nat 0 <? RateLimit.max o)).
  { change (Z.of_nat 0) with 0.
    destruct (Z.ltb_spec 0 (RateLimit.max o)) as [Hlt | Hge].
    - rewrite Hr by lia. reflexivity.
    - assert (RateLimit.max o = 0) as E0 by lia.
      revert E. unfold RateLimit.limiter, RateLimit.increment. rewrite Hs, E0.
      cbn. intros E; inversion E; reflexivity. }
  rewrite Hfirst. f_equal.
  rewrite (passes_within_window o key times 1 (t0 + RateLimit.windowMs o) store' Hw Hall).
  rewrite <- seq_shift, List.map_map. apply List.map_ext. intros j.
  destruct (Z.leb_spec (1 + Z.of_nat j + 1) (RateLimit.max o));
    destruct (Z.ltb_spec (Z.of_nat (S j)) (RateLimit.max o)); try reflexivity; lia.
Qed.

(** C8, at the input where the code departs from it.  The router of
    the inquiries puts [apiLimiter] in front of every route and
    [server.js] mounts that router behind the same [apiLimiter], so every
    request is counted twice: of 51 reads of one client within one
    millisecond each, far inside the window of 15 minutes and below the
    limit of 100, the first 50 are answered with 200 and the 51st with
    429. *)
Theorem api_limiter_counts_twice (digest : string -> string)
    (other_handler : string -> Server.World -> Server.Request
                     -> Server.World * HttpResponse)
    (other_validation : string -> Server.Request -> option HttpResponse) :
  snd (Server.serve_all digest other_handler other_validation world1 (reads 51 1001))
  = (List.repeat (Some (mkResponse 200 (InquiryJson inquiry1))) 50
     ++ [Some (RateLimited RateLimit.apiLimiter)])%list
  /\ Server.chain_for GET ["api"; "inquiries"; inquiry_id]
     = Some ([Server.mw_auth; Server.mw_apiLimiter; Server.mw_apiLimiter;
              Server.mw_handler Server.h_get_inquiry], [inquiry_id])
  /\ Server.chain_for POST ["auth"; "login"]
     = Some ([Server.mw_authLimiter; Server.mw_validateCsrf;
              Server.mw_authLimiter; Server.mw_validateCsrf;
              Server.mw_validate_other "login";
              Server.mw_handler (Server.h_other "login")], ["login"]).
Proof.
  split; [vm_compute; reflexivity |]. split; reflexivity.
Qed.

(** ** Anti-forgery tokens and sessions *)

Lemma append_inj_l (s a b : string) : (s ++ a)%string = (s ++ b)%string -> a = b.
Proof.
  induction s as [|c s IH]; cbn; intros H; [exact H |].
  inversion H. auto.
Qed.

(** A token verifies against the secret it was created from. *)
Lemma token_verifies_own_secret (digest : string -> string) (secret salt : string) :
  Csrf.tokens_verify digest secret (Csrf.tokens_create digest secret salt) = true.
Proof. unfold Csrf.tokens_verify, Csrf.tokens_create. cbn. apply String.eqb_refl. Qed.

Section SessionIsolation.
Variable digest : string -> string.

(** The one-way function of the token library has no collisions. *)
Hypothesis digest_injective : forall a b, digest a = digest b -> a = b.

(** C6. A token created from one secret does not verify against any
    other secret; so the token that [csrfMiddleware] issues in one session
    is refused by [req.validateCsrf] in every session with another secret,
    and [validateCsrf] answers with 403 a mutating request outside its
    skip list that carries the token there. *)
Theorem token_bound_to_secret (s1 s2 salt : string) :
  s1 <> s2 ->
  Csrf.tokens_verify digest s2 (Csrf.tokens_create digest s1 salt) = false
  /\ (forall idA idB fresh token,
        snd (Csrf.csrfMiddleware digest fresh salt (Csrf.mkSession idA (Some s1)))
        = Some token ->
        Csrf.req_validateCsrf digest (Csrf.mkSession idB (Some s2)) (Some token) = false
        /\ forall m path,
             is_safe_method m = false ->
             existsb (String.eqb (req_path path)) Csrf.skipPaths = false ->
             String.prefix "/auth/" (req_path path) = false ->
             exists r,
               Csrf.validateCsrf digest
                 (Csrf.mkCsrfRequest m path (Some token) None None
                    (Csrf.mkSession idB (Some s2))) = Some r
               /\ code r = 403).
Proof.
  intros Hne.
  assert (Hv : Csrf.tokens_verify digest s2 (Csrf.tokens_create digest s1 salt) = false).
  { unfold Csrf.tokens_verify, Csrf.tokens_create. cbn [Csrf.salt Csrf.mac].
    apply String.eqb_neq. intros H. apply digest_injective in H.
    apply append_inj_l in H. apply (append_inj_l "-") in H. congruence. }
  split; [exact Hv |].
  intros idA idB fresh token Ht. cbn in Ht. inversion Ht; subst token. clear Ht.
  split; [exact Hv |].
  intros m path Hm Hs Hp.
  apply validateCsrf_requires_token; try assumption.
Qed.

End SessionIsolation.

Lemma token_bound_to_secret_witness :
  (forall a b : string, (fun x : string => x) a = (fun x : string => x) b -> a = b)
  /\ "secret-1" <> "secret-2"
  /\ Csrf.tokens_verify (fun x => x) "secret-2"
       (Csrf.tokens_create (fun x => x) "secret-1" "salt") = false.
Proof.
  split; [intros a b H; exact H |].
  split; [discriminate |].
  apply (token_bound_to_secret (fun x => x) (fun a b H => H) "secret-1" "secret-2" "salt").
  discriminate.
Defined.

(** ** Sanitization *)

Lemma append_String (c : ascii) (a b : string) :
  (String c a ++ b)%string = String c (a ++ b)%string.
Proof. reflexivity. Qed.

Lemma append_empty_l (b : string) : (EmptyString ++ b)%string = b.
Proof. reflexivity. Qed.

Lemma append_empty_r (a : string) : (a ++ EmptyString)%string = a.
Proof.
  induction a as [|c a IH]; [reflexivity |]. now rewrite append_String, IH.
Qed.

Lemma textFilter_app (a b : string) :
  Sanitize.textFilter (a ++ b) = (Sanitize.textFilter a ++ Sanitize.textFilter b)%string.
Proof.
  induction a as [|c a IH]; [reflexivity |].
  rewrite append_String. cbn [Sanitize.textFilter].
  destruct (Sanitize.is_angle c); rewrite IH; reflexivity.
Qed.

Lemma textFilter_no_angle (s : string) :
  Sanitize.no_angle s = true -> Sanitize.textFilter s = s.
Proof.
  unfold Sanitize.no_angle.
  induction s as [|c s IH]; cbn; [reflexivity |].
  destruct (Sanitize.is_angle c); cbn; [discriminate |].
  intros H. now rewrite IH.
Qed.

Lemma no_angle_textFilter (s : string) :
  Sanitize.no_angle (Sanitize.textFilter s) = true.
Proof.
  unfold Sanitize.no_angle.
  induction s as [|c s IH]; cbn; [reflexivity |].
  destruct (Sanitize.is_angle c) eqn:E; cbn; [exact IH |].
  now rewrite E, IH.
Qed.

Lemma no_angle_app (a b : string) :
  Sanitize.no_angle (a ++ b)
  = Sanitize.no_angle a && Sanitize.no_angle b.
Proof.
  unfold Sanitize.no_angle.
  induction a as [|c a IH]; [reflexivity |].
  rewrite append_String. cbn [all_chars]. now rewrite IH, andb_assoc.
Qed.

(** The four shapes of an escaped character. *)
Lemma escapeChar_cases (c : ascii) :
  (c = "&"%char /\ Sanitize.escapeChar c = "&amp;")
  \/ (c = "<"%char /\ Sanitize.escapeChar c = "&lt;")
  \/ (c = ">"%char /\ Sanitize.escapeChar c = "&gt;")
  \/ (Ascii.eqb c "&" = false /\ Ascii.eqb c "<" = false /\ Ascii.eqb c ">" = false
      /\ Sanitize.escapeChar c = String c EmptyString).
Proof.
  unfold Sanitize.escapeChar.
  destruct (Ascii.eqb c "&") eqn:E1; [apply Ascii.eqb_eq in E1; auto |].
  destruct (Ascii.eqb c "<") eqn:E2; [apply Ascii.eqb_eq in E2; auto |].
  destruct (Ascii.eqb c ">") eqn:E3; [apply Ascii.eqb_eq in E3; auto 6 |].
  auto 8.
Qed.

Lemma no_angle_escapeHtml (t : string) :
  Sanitize.no_angle (Sanitize.escapeHtml t) = true.
Proof.
  induction t as [|c t IH]; cbn [Sanitize.escapeHtml]; [reflexivity |].
  rewrite no_angle_app, IH, andb_true_r.
  destruct (escapeChar_cases c) as [[_ ->] | [[_ ->] | [[_ ->] | (_ & E2 & E3 & ->)]]];
    try reflexivity.
  unfold Sanitize.no_angle, Sanitize.is_angle. cbn. now rewrite E2, E3.
Qed.

(** The text filter of [sanitizeInput] finds nothing to delete in escaped
    text. *)
Lemma textFilter_escapeHtml (t : string) :
  Sanitize.textFilter (Sanitize.escapeHtml t) = Sanitize.escapeHtml t.
Proof. apply textFilter_no_angle, no_angle_escapeHtml. Qed.

Lemma is_ws_plain (c : ascii) :
  is_ws c = true -> Sanitize.escapeChar c = String c EmptyString.
Proof.
  intros Hw.
  destruct (escapeChar_cases c) as [[-> _] | [[-> _] | [[-> _] | (_ & _ & _ & E)]]];
    try discriminate. exact E.
Qed.

Lemma escapeChar_head (c : ascii) :
  is_ws c = false ->
  exists h r, Sanitize.escapeChar c = String h r /\ is_ws h = false
              /\ trimEnd (Sanitize.escapeChar c) = Sanitize.escapeChar c.
Proof.
  intros Hw.
  destruct (escapeChar_cases c) as [[_ ->] | [[_ ->] | [[_ ->] | (_ & _ & _ & ->)]]].
  - eexists; eexists; repeat split.
  - eexists; eexists; repeat split.
  - eexists; eexists; repeat split.
  - eexists; eexists. split; [reflexivity |]. split; [exact Hw |].
    cbn. now rewrite Hw.
Qed.

Lemma trimStart_escapeHtml (t : string) :
  trimStart (Sanitize.escapeHtml t) = Sanitize.escapeHtml (trimStart t).
Proof.
  induction t as [|c t IH]; [reflexivity |].
  cbn [Sanitize.escapeHtml trimStart].
  destruct (is_ws c) eqn:Hw.
  - rewrite (is_ws_plain c Hw), append_String, append_empty_l.
    cbn [trimStart]. now rewrite Hw.
  - destruct (escapeChar_head c Hw) as (h & r & E & Hh & _).
    cbn [Sanitize.escapeHtml]. rewrite E, append_String.
    cbn [trimStart]. now rewrite Hh.
Qed.

Lemma trimEnd_app_empty (a b : string) :
  trimEnd b = EmptyString -> trimEnd (a ++ b) = trimEnd a.
Proof.
  intros Hb. induction a as [|c a IH]; [exact Hb |].
  rewrite append_String. cbn [trimEnd]. now rewrite IH.
Qed.

Lemma trimEnd_app_nonempty (a b : string) :
  trimEnd b <> EmptyString -> trimEnd (a ++ b) = (a ++ trimEnd b)%string.
Proof.
  intros Hb. induction a as [|c a IH]; [reflexivity |].
  rewrite !append_String. cbn [trimEnd].
  rewrite IH. destruct (a ++ trimEnd b)%string eqn:E; [| reflexivity].
  destruct a; [rewrite append_empty_l in E; contradiction |].
  rewrite append_String in E. discriminate.
Qed.

Lemma escapeChar_nonempty (c : ascii) : Sanitize.escapeChar c <> EmptyString.
Proof.
  destruct (escapeChar_cases c) as [[_ ->] | [[_ ->] | [[_ ->] | (_ & _ & _ & ->)]]];
    discriminate.
Qed.

Lemma trimEnd_escapeHtml (t : string) :
  trimEnd (Sanitize.escapeHtml t) = Sanitize.escapeHtml (trimEnd t).
Proof.
  induction t as [|c t IH]; [reflexivity |].
  cbn [Sanitize.escapeHtml trimEnd].
  destruct (trimEnd t) as [|c' t'] eqn:E.
  - rewrite trimEnd_app_empty by (rewrite IH; reflexivity).
    destruct (is_ws c) eqn:Hw.
    + rewrite (is_ws_plain c Hw). cbn [trimEnd]. now rewrite Hw.
    + destruct (escapeChar_head c Hw) as (h & r & _ & _ & ->).
      cbn [Sanitize.escapeHtml]. now rewrite append_empty_r.
  - rewrite trimEnd_app_nonempty.
    + now rewrite IH.
    + rewrite IH. cbn [Sanitize.escapeHtml]. intros H.
      destruct (Sanitize.escapeChar c') eqn:Ec; [now apply escapeChar_nonempty in Ec |].
      discriminate.
Qed.

Lemma trim_escapeHtml (t : string) :
  trim (Sanitize.escapeHtml t) = Sanitize.escapeHtml (trim t).
Proof. unfold trim. now rewrite trimStart_escapeHtml, trimEnd_escapeHtml. Qed.

(** The assignment to a fresh object looks at the key only. *)
Lemma filter_assignable_map (f : string * Json -> string * Json)
    (l : list (string * Json)) :
  (forall kv, fst (f kv) = fst kv) ->
  List.filter Sanitize.assignable (List.map f l)
  = List.map f (List.filter Sanitize.assignable l).
Proof.
  intros Hf. induction l as [|kv l IH]; [reflexivity |].
  cbn [List.map List.filter].
  assert (E : Sanitize.assignable (f kv) = Sanitize.assignable kv)
    by (unfold Sanitize.assignable; now rewrite Hf).
  rewrite E. destruct (Sanitize.assignable kv); cbn [List.map]; now rewrite IH.
Qed.

Lemma filter_assignable_idem (l : list (string * Json)) :
  List.filter Sanitize.assignable (List.filter Sanitize.assignable l)
  = List.filter Sanitize.assignable l.
Proof.
  induction l as [|kv l IH]; [reflexivity |].
  cbn [List.filter]. destruct (Sanitize.assignable kv) eqn:E; [| exact IH].
  cbn [List.filter]. now rewrite E, IH.
Qed.

(** An induction principle for JSON values that reaches the items of an
    array and the values of an object. *)
Lemma Json_nested_ind (P : Json -> Prop) :
  P JNull ->
  (forall b, P (JBool b)) ->
  (forall n, P (JNum n)) ->
  (forall s, P (JStr s)) ->
  (forall items, Forall P items -> P (JArr items)) ->
  (forall fields, Forall (fun kv => P (snd kv)) fields -> P (JObj fields)) ->
  forall j, P j.
Proof.
  intros Hnull Hbool Hnum Hstr Harr Hobj.
  fix IH 1. intros [| b | n | s | items | fields].
  - exact Hnull.
  - apply Hbool.
  - apply Hnum.
  - apply Hstr.
  - apply Harr. induction items as [|x xs IHxs]; constructor; [apply IH | exact IHxs].
  - apply Hobj. induction fields as [|[k v] fs IHfs]; constructor;
      [apply IH | exact IHfs].
Qed.

Lemma decodeEntities_escapeHtml (t : string) :
  decodeEntities 0 (Sanitize.escapeHtml t) = t.
Proof.
  induction t as [|c t IH]; [reflexivity |].
  cbn [Sanitize.escapeHtml].
  destruct (escapeChar_cases c) as [[-> ->] | [[-> ->] | [[-> ->] | (E1 & _ & _ & ->)]]];
    rewrite ?append_String, ?append_empty_l; cbn [decodeEntities];
    rewrite ?E1; cbn; now rewrite IH.
Qed.

Section SanitizationLaws.
Variable sanitizeHtml : (string -> string) -> string -> string.
Variable xss : bool -> string -> string.

(** With no tag allowed, what the HTML sanitizer returns is the filtered,
    entity-escaped text of its input. *)
Hypothesis sanitizeHtml_text :
  forall s, exists t,
    sanitizeHtml Sanitize.textFilter s = Sanitize.textFilter (Sanitize.escapeHtml t).

(** Escaped text holds no markup, and its entities are read back to the
    text they were made from. *)
Hypothesis sanitizeHtml_escaped :
  forall t, sanitizeHtml Sanitize.textFilter (Sanitize.escapeHtml t)
            = Sanitize.textFilter (Sanitize.escapeHtml t).

(** With an empty white list the XSS filter leaves no angle bracket, and a
    string without angle brackets is returned as it is. *)
Hypothesis xss_no_angle : forall b s, Sanitize.no_angle (xss b s) = true.
Hypothesis xss_plain : forall b s, Sanitize.no_angle s = true -> xss b s = s.

Lemma sanitized_form (s : string) :
  exists t, trim (sanitizeHtml Sanitize.textFilter s) = Sanitize.escapeHtml t
            /\ trim t = t.
Proof.
  destruct (sanitizeHtml_text s) as [t0 E]. exists (trim t0).
  rewrite E, textFilter_escapeHtml, trim_escapeHtml. split; [reflexivity |].
  apply trim_idem.
Qed.

Lemma sanitize_escaped (t : string) :
  trim t = t ->
  trim (sanitizeHtml Sanitize.textFilter (Sanitize.escapeHtml t)) = Sanitize.escapeHtml t.
Proof.
  intros Ht.
  now rewrite sanitizeHtml_escaped, textFilter_escapeHtml, trim_escapeHtml, Ht.
Qed.

Lemma sanitizeValue_idempotent (v : Json) :
  Sanitize.sanitizeValue sanitizeHtml (Sanitize.sanitizeValue sanitizeHtml v)
  = Sanitize.sanitizeValue sanitizeHtml v.
Proof.
  destruct v as [| b | n | s | items | fields]; try reflexivity.
  cbn [Sanitize.sanitizeValue].
  destruct (sanitized_form s) as (t & -> & Ht). now rewrite sanitize_escaped.
Qed.

Lemma xss_idempotent (b : bool) (s : string) : xss b (xss b s) = xss b s.
Proof. apply xss_plain, xss_no_angle. Qed.

Lemma sanitizeObject_idempotent (obj : Json) :
  Sanitize.sanitizeObject xss (Sanitize.sanitizeObject xss obj)
  = Sanitize.sanitizeObject xss obj.
Proof.
  induction obj as [| b | n | s | items IH | fields IH] using Json_nested_ind;
    try reflexivity.
  - cbn [Sanitize.sanitizeObject]. f_equal. rewrite List.map_map.
    apply List.map_ext_in. intros x Hx.
    rewrite Forall_forall in IH. now apply IH, list_elem_of_In.
  - cbn [Sanitize.sanitizeObject]. f_equal.
    rewrite !filter_assignable_map by (intros [k []]; reflexivity).
    rewrite filter_assignable_idem, List.map_map.
    apply List.map_ext_in. intros [k v] Hx. apply filter_In in Hx as [Hx _].
    rewrite Forall_forall in IH. apply list_elem_of_In, IH in Hx. cbn [snd] in Hx.
    destruct v as [| b | n | s | items | fields']; try reflexivity.
    + now rewrite xss_idempotent.
    + cbn [Sanitize.sanitizeObject] in *. now rewrite Hx.
    + cbn [Sanitize.sanitizeObject] in *. now rewrite Hx.
Qed.

(** C5. Applying the sanitization twice is applying it once: for the
    inbound filter on a string, on any value and on the body and query of
    a request, and for the outbound filter on a string, on a JSON payload
    and on whatever [res.send] is given. *)
Theorem sanitization_idempotent :
  (forall s,
     trim (sanitizeHtml Sanitize.textFilter (trim (sanitizeHtml Sanitize.textFilter s)))
     = trim (sanitizeHtml Sanitize.textFilter s))
  /\ (forall v,
        Sanitize.sanitizeValue sanitizeHtml (Sanitize.sanitizeValue sanitizeHtml v)
        = Sanitize.sanitizeValue sanitizeHtml v)
  /\ (forall req,
        Sanitize.sanitizeInput sanitizeHtml (Sanitize.sanitizeInput sanitizeHtml req)
        = Sanitize.sanitizeInput sanitizeHtml req)
  /\ (forall b s, xss b (xss b s) = xss b s)
  /\ (forall obj,
        Sanitize.sanitizeObject xss (Sanitize.sanitizeObject xss obj)
        = Sanitize.sanitizeObject xss obj)
  /\ (forall data,
        Sanitize.xssProtection_send xss (Sanitize.xssProtection_send xss data)
        = Sanitize.xssProtection_send xss data).
Proof.
  split; [| split; [| split; [| split; [| split]]]].
  - intros s. destruct (sanitized_form s) as (t & -> & Ht). now apply sanitize_escaped.
  - apply sanitizeValue_idempotent.
  - intros [body query]. unfold Sanitize.sanitizeInput.
    cbn [Sanitize.body Sanitize.query]. f_equal.
    + destruct body as [fields|]; [| reflexivity]. cbn [option_map]. f_equal.
      rewrite List.map_map. apply List.map_ext. intros [k v].
      unfold Sanitize.sanitizeBodyField. cbn [fst snd].
      destruct (String.eqb k "_csrf") eqn:E; cbn [negb fst snd]; rewrite E; cbn [negb];
        [reflexivity |]. now rewrite sanitizeValue_idempotent.
    + destruct query as [fields|]; [| reflexivity]. cbn [option_map]. f_equal.
      rewrite List.map_map. apply List.map_ext. intros [k v].
      unfold Sanitize.sanitizeQueryField. cbn [fst snd].
      now rewrite sanitizeValue_idempotent.
  - apply xss_idempotent.
  - apply sanitizeObject_idempotent.
  - intros [| b | n | s | items | fields]; try reflexivity.
    + cbn [Sanitize.xssProtection_send]. now rewrite xss_idempotent.
    + change (Sanitize.xssProtection_send xss (JArr items))
        with (Sanitize.sanitizeObject xss (JArr items)).
      cbn [Sanitize.sanitizeObject Sanitize.xssProtection_send].
      change (JArr (List.map (Sanitize.sanitizeObject xss)
                      (List.map (Sanitize.sanitizeObject xss) items)))
        with (Sanitize.sanitizeObject xss (Sanitize.sanitizeObject xss (JArr items))).
      apply sanitizeObject_idempotent.
    + pose proof (sanitizeObject_idempotent (JObj fields)) as H.
      cbn [Sanitize.sanitizeObject Sanitize.xssProtection_send] in *. exact H.
Qed.

End SanitizationLaws.

Lemma sanitization_idempotent_witness :
  (forall s, exists t,
      sample_sanitizeHtml Sanitize.textFilter s
      = Sanitize.textFilter (Sanitize.escapeHtml t))
  /\ (forall t, sample_sanitizeHtml Sanitize.textFilter (Sanitize.escapeHtml t)
                = Sanitize.textFilter (Sanitize.escapeHtml t))
  /\ (forall b s, Sanitize.no_angle (sample_xss b s) = true)
  /\ (forall b s, Sanitize.no_angle s = true -> sample_xss b s = s)
  /\ trim (sample_sanitizeHtml Sanitize.textFilter
             (trim (sample_sanitizeHtml Sanitize.textFilter " Tom & <b>Jerry</b> ")))
     = trim (sample_sanitizeHtml Sanitize.textFilter " Tom & <b>Jerry</b> ").
Proof.
  assert (H1 : forall s, exists t,
             sample_sanitizeHtml Sanitize.textFilter s
             = Sanitize.textFilter (Sanitize.escapeHtml t)).
  { intros s. exists (decodeEntities 0 s). reflexivity. }
  assert (H2 : forall t, sample_sanitizeHtml Sanitize.textFilter (Sanitize.escapeHtml t)
                         = Sanitize.textFilter (Sanitize.escapeHtml t)).
  { intros t. unfold sample_sanitizeHtml. now rewrite decodeEntities_escapeHtml. }
  assert (H3 : forall (b : bool) s, Sanitize.no_angle (sample_xss b s) = true).
  { intros b s. apply no_angle_textFilter. }
  assert (H4 : forall (b : bool) s, Sanitize.no_angle s = true -> sample_xss b s = s).
  { intros b s. apply textFilter_no_angle. }
  split; [exact H1 |]. split; [exact H2 |]. split; [exact H3 |]. split; [exact H4 |].
  apply (sanitization_idempotent sample_sanitizeHtml sample_xss H1 H2 H3 H4).
Defined.

(** The laws are not empty: a filter that escaped its input without
    reading entities back would drift on every further pass. *)
Example escaping_alone_drifts :
  Sanitize.escapeHtml (Sanitize.escapeHtml "&") <> Sanitize.escapeHtml "&"
  /\ sample_sanitizeHtml Sanitize.textFilter
       (sample_sanitizeHtml Sanitize.textFilter "Tom & Jerry")
     = "Tom &amp; Jerry".
Proof. split; [vm_compute; discriminate | vm_compute; reflexivity]. Qed.

(* ===================================================================== *)
(** * Further properties of the code *)
(* ===================================================================== *)

(** ** The life of an inquiry *)

(** A call of [updateStatus] that returns has followed an entry of the
    table and left the target as the status. *)
Lemma updateStatus_returned (d d' : Inquiry.t) (newStatus : string) (now : Z)
    (a : unit) :
  Inquiry.updateStatus newStatus now d = (d', Returned a) ->
  Allowed (Inquiry.status d) newStatus /\ Inquiry.status d' = newStatus.
Proof.
  destruct (Inquiry.validTransitions !! Inquiry.status d) as [allowed|] eqn:Hl.
  2:{ unfold Inquiry.updateStatus, bind, this. rewrite Hl. discriminate. }
  rewrite (updateStatus_run d newStatus now allowed Hl).
  destruct (includes allowed newStatus) eqn:Hin; [| discriminate].
  apply includes_spec in Hin.
  pose proof (proj1 (validTransitions_lookup _ _ Hl newStatus) Hin) as Hal.
  destruct (Inquiry.validate _); [| discriminate].
  intros E. inversion E; subst d'. split; [exact Hal |].
  cbn [Inquiry.status Inquiry.set_updatedAt]. now rewrite status_preSave.
Qed.

Lemma Allowed_rank (from to : string) :
  Allowed from to -> (status_rank from < status_rank to <= 3)%nat.
Proof. intros H. inversion H; subst; vm_compute; lia. Qed.

Lemma status_rank_bound (s : string) : (status_rank s <= 3)%nat.
Proof.
  unfold status_rank.
  repeat match goal with |- context [if ?c then _ else _] => destruct c end; lia.
Qed.

Lemma last_cons_default (x a b : string) (l : list string) :
  List.last (x :: l) a = List.last (x :: l) b.
Proof.
  revert x. induction l as [|y l IH]; intros x; [reflexivity |].
  change (List.last (y :: l) a = List.last (y :: l) b). apply IH.
Qed.

Lemma updateStatus_each_ranks (targets : list string) (now : Z) :
  forall d d' a,
    updateStatus_each targets now d = (d', Returned a) ->
    (length targets + status_rank (Inquiry.status d) <= 3)%nat
    /\ Forall (fun s => (status_rank (Inquiry.status d) < status_rank s)%nat) targets
    /\ NoDup targets
    /\ Inquiry.status d' = List.last targets (Inquiry.status d).
Proof.
  induction targets as [|s rest IH]; intros d d' a.
  - cbn. intros E. inversion E; subst d'.
    pose proof (status_rank_bound (Inquiry.status d)).
    repeat split; [lia | constructor | constructor].
  - cbn [updateStatus_each]. unfold bind.
    destruct (Inquiry.updateStatus s now d) as [d1 [a1|e]] eqn:E1; [| discriminate].
    intros E2.
    destruct (updateStatus_returned _ _ _ _ _ E1) as [Hal Hs].
    apply Allowed_rank in Hal.
    destruct (IH _ _ _ E2) as (Hlen & Hall & Hnd & Hlast).
    rewrite Hs in Hlen, Hall, Hlast.
    split; [cbn [length]; lia |]. split; [| split].
    + constructor; [lia |].
      eapply Forall_impl; [exact Hall |]. cbn. intros x Hx. lia.
    + constructor; [| exact Hnd].
      intros Hin. rewrite Forall_forall in Hall. apply Hall in Hin. lia.
    + rewrite Hlast. destruct rest as [|s0 rest]; [reflexivity |].
      change (List.last (s0 :: rest) s = List.last (s0 :: rest) (Inquiry.status d)).
      apply last_cons_default.
Qed.

(** X1. The transition table has no way back: when a sequence of
    [updateStatus] calls on an inquiry returns every time, it has at most
    three calls, no status occurs twice among the status at the start and
    the targets, and the inquiry ends with the last target as its status. *)
Theorem updateStatus_moves_forward (targets : list string) (now : Z)
    (d d' : Inquiry.t) :
  updateStatus_each targets now d = (d', Returned tt) ->
  (length targets <= 3)%nat
  /\ NoDup (Inquiry.status d :: targets)
  /\ Inquiry.status d' = List.last targets (Inquiry.status d).
Proof.
  intros E.
  destruct (updateStatus_each_ranks _ _ _ _ _ E) as (Hlen & Hall & Hnd & Hlast).
  split; [lia |]. split; [| exact Hlast].
  constructor; [| exact Hnd].
  intros Hin. rewrite Forall_forall in Hall. apply Hall in Hin. lia.
Qed.

Lemma updateStatus_moves_forward_witness :
  updateStatus_each ["responded"; "accepted"; "completed"] 2000 inquiry1
  = (inquiry1_completed, Returned tt)
  /\ (length ["responded"; "accepted"; "completed"] <= 3)%nat
  /\ NoDup (Inquiry.status inquiry1 :: ["responded"; "accepted"; "completed"])
  /\ Inquiry.status inquiry1_completed = "completed".
Proof.
  assert (E : updateStatus_each ["responded"; "accepted"; "completed"] 2000 inquiry1
              = (inquiry1_completed, Returned tt)) by (vm_compute; reflexivity).
  split; [exact E |].
  exact (updateStatus_moves_forward
           ["responded"; "accepted"; "completed"] 2000 inquiry1 inquiry1_completed E).
Defined.

(** X2. For an inquiry whose status is none of the six values of the
    schema the table has no entry: [updateStatus] throws a TypeError, not
    the error of a refused transition, whatever the target, and leaves the
    inquiry as it was. *)
Theorem updateStatus_unknown_status (d : Inquiry.t) (newStatus : string) (now : Z) :
  ~ In (Inquiry.status d) Inquiry.statusValues ->
  Inquiry.updateStatus newStatus now d = (d, Thrown TypeError).
Proof.
  intros Hout. unfold Inquiry.updateStatus, bind, this.
  assert (Hl : Inquiry.validTransitions !! Inquiry.status d = None).
  { unfold Inquiry.validTransitions. apply not_elem_of_list_to_map_1.
    intros Hin. apply Hout. apply list_elem_of_In in Hin.
    cbn [fmap list_fmap fst In] in Hin. unfold Inquiry.statusValues. cbn [In].
    tauto. }
  now rewrite Hl.
Qed.

Lemma updateStatus_unknown_status_witness :
  ~ In (Inquiry.status (Inquiry.set_status "archived" inquiry1)) Inquiry.statusValues
  /\ Inquiry.updateStatus "cancelled" 2000 (Inquiry.set_status "archived" inquiry1)
     = (Inquiry.set_status "archived" inquiry1, Thrown TypeError).
Proof.
  assert (H : ~ In (Inquiry.status (Inquiry.set_status "archived" inquiry1))
                Inquiry.statusValues).
  { cbn. intros H. repeat (destruct H as [H | H]; [discriminate |]). exact H. }
  split; [exact H |].
  exact (updateStatus_unknown_status (Inquiry.set_status "archived" inquiry1)
           "cancelled" 2000 H).
Defined.

(** X3. The virtual fields along the table: no inquiry is respondable and
    completed at once; after a call of [updateStatus] that returns the
    inquiry is not respondable, and an inquiry that was completed before
    the call is completed after it. *)
Theorem completed_stays_completed (d d' : Inquiry.t) (newStatus : string) (now : Z)
    (a : unit) :
  Inquiry.updateStatus newStatus now d = (d', Returned a) ->
  Inquiry.canRespond d' = false
  /\ (Inquiry.isCompleted d = true -> Inquiry.isCompleted d' = true)
  /\ Inquiry.canRespond d && Inquiry.isCompleted d = false
  /\ Inquiry.canRespond d' && Inquiry.isCompleted d' = false.
Proof.
  intros E. destruct (updateStatus_returned _ _ _ _ _ E) as [Hal Hs].
  unfold Inquiry.canRespond, Inquiry.isCompleted. rewrite Hs.
  inversion Hal; repeat split; try reflexivity;
    intros H'; first [reflexivity | vm_compute in H'; discriminate H'].
Qed.

Lemma completed_stays_completed_witness :
  Inquiry.updateStatus "cancelled" 2000 (Inquiry.set_status "accepted" inquiry1)
  = (Inquiry.set_updatedAt 2000 (Inquiry.set_status "cancelled" inquiry1), Returned tt)
  /\ Inquiry.isCompleted (Inquiry.set_status "accepted" inquiry1) = true
  /\ Inquiry.isCompleted
       (Inquiry.set_updatedAt 2000 (Inquiry.set_status "cancelled" inquiry1)) = true.
Proof.
  assert (E : Inquiry.updateStatus "cancelled" 2000
                (Inquiry.set_status "accepted" inquiry1)
              = (Inquiry.set_updatedAt 2000 (Inquiry.set_status "cancelled" inquiry1),
                 Returned tt)) by (vm_compute; reflexivity).
  split; [exact E |]. split; [reflexivity |].
  apply (proj1 (proj2 (completed_stays_completed _ _ _ _ _ E))). reflexivity.
Defined.

(** ** A failed save, and an inquiry from order to answer *)

(** X4. When [respondToInquiry] throws a validation error, the inquiry
    was pending and nothing has been saved, but the document in memory has
    been changed: it carries the status "responded" and the response that
    was refused, with the time stamp of its last save. *)
Theorem respond_failure_marks_document (d d' : Inquiry.t)
    (data : Inquiry.ResponseData) (now : Z) (errs : list Path) :
  Inquiry.respondToInquiry data now d = (d', Thrown (ValidationError errs)) ->
  Inquiry.status d = "pending"
  /\ d' = responded_with (Inquiry.d_message data) (Inquiry.d_price data)
            (Inquiry.d_deliveryTime data) now d
  /\ Inquiry.status d' = "responded"
  /\ Inquiry.response d'
     = Some (Response.mk (trim (Inquiry.d_message data)) (Inquiry.d_price data)
               (trim (Inquiry.d_deliveryTime data)) now)
  /\ Inquiry.updatedAt d' = Inquiry.updatedAt d
  /\ errs <> [].
Proof.
  rewrite respondToInquiry_run.
  destruct (String.eqb (Inquiry.status d) "pending") eqn:Hst; [| discriminate].
  apply String.eqb_eq in Hst.
  destruct (Inquiry.validate _) as [|e es]; [discriminate |].
  intros E. inversion E; subst d' errs.
  repeat split; [exact Hst | discriminate].
Qed.

Lemma respond_failure_marks_document_witness :
  Inquiry.respondToInquiry
    (Inquiry.mkData "Can deliver in 3 days" (of_Z (-1)) "3 days") 2000 inquiry1
  = (responded_with "Can deliver in 3 days" (of_Z (-1)) "3 days" 2000 inquiry1,
     Thrown (ValidationError [p_response_price]))
  /\ Inquiry.status inquiry1 = "pending"
  /\ Inquiry.status
       (responded_with "Can deliver in 3 days" (of_Z (-1)) "3 days" 2000 inquiry1)
     = "responded".
Proof.
  assert (E : Inquiry.respondToInquiry
                (Inquiry.mkData "Can deliver in 3 days" (of_Z (-1)) "3 days") 2000
                inquiry1
              = (responded_with "Can deliver in 3 days" (of_Z (-1)) "3 days" 2000
                   inquiry1,
                 Thrown (ValidationError [p_response_price])))
    by (vm_compute; reflexivity).
  split; [exact E |].
  destruct (respond_failure_marks_document _ _ _ _ _ E) as (H1 & _ & H2 & _).
  split; [exact H1 | exact H2].
Defined.

(** ** What the inquiry routes write *)

Lemma validate_check (d : Inquiry.t) (p : Path) :
  Inquiry.validate d = [] -> In p Inquiry.schemaPaths -> Inquiry.check p d = true.
Proof. intros H. now apply validate_nil. Qed.

Lemma is_integral_finite (q : Number) : is_integral q = true -> is_finite q = true.
Proof. destruct q; [reflexivity | discriminate | discriminate | reflexivity]. Qed.

(** The floor of an integral Number is the integer it stands for. *)
Lemma floorZ_integral (q : Number) : is_integral q = true -> floorZ q = intval q.
Proof.
  destruct q as [s | s | | s m e]; try discriminate; [reflexivity |].
  intros H. unfold intval. now rewrite H.
Qed.

Lemma get_inquiry_reads (db : Db) (user : User.t) (id : string) :
  fst (Routes.get_inquiry db user id) = db
  /\ In (code (snd (Routes.get_inquiry db user id))) [200; 400; 403; 404; 500].
Proof.
  unfold Routes.get_inquiry.
  repeat match goal with
         | |- context [match ?x with _ => _ end] => destruct x
         end; cbn; auto 10.
Qed.


(** ** The store along a run of the routes *)

Lemma inquiry_sound_created (newId : string) (user seller : User.t)
    (b : Routes.CreateBody) (now : Z) :
  String.eqb (User._id seller) (User.id user) = false ->
  Inquiry.validate (drafted_inquiry newId user seller b now) = [] ->
  inquiry_sound newId (created_inquiry newId user seller b now) = true.
Proof.
  intros Hne Hv.
  pose proof (validate_check _ p_message Hv ltac:(cbn; tauto)) as Hm.
  unfold drafted_inquiry in Hm. inquiry_fields in Hm.
  apply andb_true_iff in Hm as [_ Hl].
  unfold inquiry_sound, created_inquiry. inquiry_fields.
  rewrite String.eqb_refl, Hl.
  rewrite String.eqb_sym in Hne. unfold User.id in *. now rewrite Hne.
Qed.

Lemma inquiry_sound_responded (id : string) (d : Inquiry.t)
    (b : Routes.RespondBody) (now : Z) :
  Inquiry.validate
    (responded_with (Routes.r_message b) (Routes.r_price b)
       (Routes.r_deliveryTime b) now d) = [] ->
  inquiry_sound id d = true ->
  inquiry_sound id (responded_inquiry d b now) = true.
Proof.
  intros Hv Hd.
  pose proof (validate_check _ p_response_message Hv ltac:(cbn; tauto)) as Hm.
  pose proof (validate_check _ p_response_deliveryTime Hv ltac:(cbn; tauto)) as Hdt.
  unfold responded_with in Hm, Hdt. inquiry_fields in Hm. inquiry_fields in Hdt.
  unfold inquiry_sound in *. unfold responded_inquiry. inquiry_fields.
  apply andb_true_iff in Hd as [Hd _].
  rewrite Hd, Hm, Hdt. reflexivity.
Qed.

Lemma inquiry_sound_id (id : string) (d : Inquiry.t) :
  inquiry_sound id d = true -> Inquiry._id d = id.
Proof.
  unfold inquiry_sound. intros Hs.
  repeat (apply andb_true_iff in Hs as [Hs _]). now apply String.eqb_eq in Hs.
Qed.

Lemma run_call_sound (now : Z) (c : Call) (db : Db) :
  store_sound db -> store_sound (fst (run_call now c db)).
Proof.
  intros H. destruct c as [user b newId | user id b | user id]; cbn [run_call].
  - destruct (route_post_inquiry_cases db user b newId now)
      as [[-> _] | (p & seller & _ & _ & _ & _ & Hne & Hl & ->)]; [exact H |].
    cbn [fst]. unfold store_sound, put_inquiry. cbn [inquiries Inquiry._id created_inquiry].
    apply map_Forall_insert_2; [| exact H].
    now apply inquiry_sound_created.
  - destruct (route_patch_respond_cases db user id b now)
      as [[-> _] | (d & _ & _ & Hd & _ & _ & Hv & ->)]; [exact H |].
    cbn [fst]. unfold store_sound, put_inquiry.
    cbn [inquiries Inquiry._id responded_inquiry].
    pose proof (H _ d Hd) as Hs. cbn beta in Hs.
    rewrite (inquiry_sound_id _ _ Hs). apply map_Forall_insert_2; [| exact H].
    now apply inquiry_sound_responded.
  - now rewrite (proj1 (get_inquiry_reads db user id)).
Qed.

(** X6. In every store that the inquiry routes reach from a sound one,
    every inquiry is stored under its own id, has two different parties
    and a message of 10 to 500 characters, and is either pending without a
    response or responded with one whose texts are within the lengths of
    the schema: the routes never leave an inquiry accepted, rejected,
    completed or cancelled. *)
Theorem routes_keep_inquiries_sound (t0 t : Z) (db0' db : Db) :
  reaches t0 db0' t db ->
  store_sound db0' ->
  store_sound db.
Proof.
  induction 1 as [| t0 db0' t1 db1 now c Hreach IH Hle]; intros H0; [exact H0 |].
  apply run_call_sound. exact (IH H0).
Qed.

Lemma routes_keep_inquiries_sound_witness :
  reaches 0 db0 2000
    (fst (run_call 2000 (RespondCall seller1 inquiry_id quote1)
            (fst (run_call 1000 (CreateCall buyer1 order1 inquiry_id) db0))))
  /\ store_sound db0
  /\ store_sound
       (fst (run_call 2000 (RespondCall seller1 inquiry_id quote1)
               (fst (run_call 1000 (CreateCall buyer1 order1 inquiry_id) db0)))).
Proof.
  assert (Hr : reaches 0 db0 2000
                 (fst (run_call 2000 (RespondCall seller1 inquiry_id quote1)
                         (fst (run_call 1000 (CreateCall buyer1 order1 inquiry_id) db0))))).
  { apply (reaches_step 0 db0 1000); [| lia].
    apply (reaches_step 0 db0 0); [constructor | lia]. }
  assert (H0 : store_sound db0) by (apply map_Forall_empty).
  split; [exact Hr |]. split; [exact H0 |].
  exact (routes_keep_inquiries_sound 0 2000 db0 _ Hr H0).
Defined.

Lemma stamps_coherent_later (t now : Z) (d : Inquiry.t) :
  t <= now -> stamps_coherent t d = true -> stamps_coherent now d = true.
Proof.
  unfold stamps_coherent. intros Hle H.
  apply andb_true_iff in H as [H Hr]. apply andb_true_iff in H as [Hc Hu].
  rewrite Hc, Hr. apply Z.leb_le in Hu.
  assert (Hn : (Inquiry.updatedAt d <=? now) = true) by (apply Z.leb_le; lia).
  now rewrite Hn.
Qed.

Lemma run_call_stamps (t now : Z) (c : Call) (db : Db) :
  t <= now -> stamps_sound t db -> stamps_sound now (fst (run_call now c db)).
Proof.
  intros Hle H.
  assert (Hnow : stamps_sound now db).
  { intros id d Hd. cbn beta. apply (stamps_coherent_later t); [exact Hle |].
    exact (H id d Hd). }
  destruct c as [user b newId | user id b | user id]; cbn [run_call].
  - destruct (route_post_inquiry_cases db user b newId now)
      as [[-> _] | (p & seller & _ & _ & _ & _ & _ & _ & ->)]; [exact Hnow |].
    cbn [fst]. unfold stamps_sound, put_inquiry. cbn [inquiries].
    apply map_Forall_insert_2; [| exact Hnow].
    unfold stamps_coherent, created_inquiry.
    cbn [Inquiry.createdAt Inquiry.updatedAt Inquiry.response].
    now rewrite Z.leb_refl, Z.eqb_refl.
  - destruct (route_patch_respond_cases db user id b now)
      as [[-> _] | (d & _ & _ & Hd & _ & _ & _ & ->)]; [exact Hnow |].
    cbn [fst]. unfold stamps_sound, put_inquiry. cbn [inquiries].
    apply map_Forall_insert_2; [| exact Hnow].
    pose proof (H _ d Hd) as Hs. cbn beta in Hs. unfold stamps_coherent in Hs.
    apply andb_true_iff in Hs as [Hs _]. apply andb_true_iff in Hs as [Hc Hu].
    apply Z.leb_le in Hc, Hu.
    unfold stamps_coherent, responded_inquiry.
    cbn [Inquiry.createdAt Inquiry.updatedAt Inquiry.response Response.respondedAt].
    rewrite Z.leb_refl.
    assert (Hn : (Inquiry.createdAt d <=? now) = true) by (apply Z.leb_le; lia).
    now rewrite Hn.
  - now rewrite (proj1 (get_inquiry_reads db user id)).
Qed.

(** X7. In every store that the inquiry routes reach with a clock that
    does not go back, no inquiry is stamped in the future, [updatedAt] is
    never before [createdAt], an inquiry without a response has not been
    touched since it was created, and a response is dated between the
    creation and the last update of its inquiry. *)
Theorem routes_keep_stamps_in_order (t0 t : Z) (db0' db : Db) :
  reaches t0 db0' t db ->
  stamps_sound t0 db0' ->
  stamps_sound t db.
Proof.
  induction 1 as [| t0 db0' t1 db1 now c Hreach IH Hle]; intros H0; [exact H0 |].
  apply (run_call_stamps t1); [exact Hle | exact (IH H0)].
Qed.

Lemma routes_keep_stamps_in_order_witness :
  reaches 0 db0 2000
    (fst (run_call 2000 (RespondCall seller1 inquiry_id quote1)
            (fst (run_call 1000 (CreateCall buyer1 order1 inquiry_id) db0))))
  /\ stamps_sound 0 db0
  /\ stamps_sound 2000
       (fst (run_call 2000 (RespondCall seller1 inquiry_id quote1)
               (fst (run_call 1000 (CreateCall buyer1 order1 inquiry_id) db0)))).
Proof.
  assert (Hr : reaches 0 db0 2000
                 (fst (run_call 2000 (RespondCall seller1 inquiry_id quote1)
                         (fst (run_call 1000 (CreateCall buyer1 order1 inquiry_id) db0))))).
  { apply (reaches_step 0 db0 1000); [| lia].
    apply (reaches_step 0 db0 0); [constructor | lia]. }
  assert (H0 : stamps_sound 0 db0) by (apply map_Forall_empty).
  split; [exact Hr |]. split; [exact H0 |].
  exact (routes_keep_stamps_in_order 0 2000 db0 _ Hr H0).
Defined.

(** X8. Along every run of the inquiry routes the users and the
    products of the store, and with them every stock, stay what they were
    at the start, whatever the calls and their answers. *)
Theorem routes_leave_users_and_products (t0 t : Z) (db0' db : Db) :
  reaches t0 db0' t db ->
  users db = users db0' /\ products db = products db0'
  /\ forall id p, products db0' !! id = Some p ->
                  exists p', products db !! id = Some p'
                             /\ Product.stock p' = Product.stock p.
Proof.
  intros Hreach.
  assert (H : users db = users db0' /\ products db = products db0').
  { induction Hreach as [| t0 db0' t1 db1 now c Hreach [IHu IHp] Hle]; [auto |].
    destruct c as [user b newId | user id b | user id]; cbn [run_call].
    - destruct (route_post_inquiry_cases db1 user b newId now)
        as [[-> _] | (p & seller & _ & _ & _ & _ & _ & _ & ->)]; auto.
    - destruct (route_patch_respond_cases db1 user id b now)
        as [[-> _] | (d & _ & _ & _ & _ & _ & _ & ->)]; auto.
    - rewrite (proj1 (get_inquiry_reads db1 user id)). auto. }
  destruct H as [Hu Hp]. split; [exact Hu |]. split; [exact Hp |].
  intros id p Hid. exists p. rewrite Hp. auto.
Qed.

Lemma routes_leave_users_and_products_witness :
  reaches 0 db0 2000
    (fst (run_call 2000 (RespondCall seller1 inquiry_id quote1)
            (fst (run_call 1000 (CreateCall buyer1 order1 inquiry_id) db0))))
  /\ products (fst (run_call 2000 (RespondCall seller1 inquiry_id quote1)
                      (fst (run_call 1000 (CreateCall buyer1 order1 inquiry_id) db0))))
     = products db0.
Proof.
  assert (Hr : reaches 0 db0 2000
                 (fst (run_call 2000 (RespondCall seller1 inquiry_id quote1)
                         (fst (run_call 1000 (CreateCall buyer1 order1 inquiry_id) db0))))).
  { apply (reaches_step 0 db0 1000); [| lia].
    apply (reaches_step 0 db0 0); [constructor | lia]. }
  split; [exact Hr |].
  exact (proj1 (proj2 (routes_leave_users_and_products 0 2000 db0 _ Hr))).
Defined.

(** ** Reading, creating and answering an inquiry *)

(** X9. The read route never writes.  It answers 200 only for an id
    under which, read in either case of its digits, an inquiry is stored,
    and only to a user who is the buyer or the seller that the inquiry
    names; the buyer is answered 200 without the seller being looked at;
    any other user is told 403 for an inquiry whose parties exist and 404
    for an id under which nothing is stored. *)
Theorem read_only_for_parties (db : Db) (user : User.t) (id : string) :
  fst (Routes.get_inquiry db user id) = db
  /\ (code (snd (Routes.get_inquiry db user id)) = 200 ->
      isObjectId id = true
      /\ exists d,
           inquiries db !! ObjectId.cast id = Some d
           /\ ((exists bu, users db !! Inquiry.buyer d = Some bu
                           /\ User._id bu = User.id user)
               \/ (exists se, users db !! Inquiry.seller d = Some se
                              /\ User._id se = User.id user)))
  /\ (forall d bu,
        isObjectId id = true ->
        inquiries db !! ObjectId.cast id = Some d ->
        users db !! Inquiry.buyer d = Some bu ->
        User._id bu = User.id user ->
        code (snd (Routes.get_inquiry db user id)) = 200)
  /\ (forall d bu se,
        isObjectId id = true ->
        inquiries db !! ObjectId.cast id = Some d ->
        users db !! Inquiry.buyer d = Some bu ->
        users db !! Inquiry.seller d = Some se ->
        User._id bu <> User.id user ->
        User._id se <> User.id user ->
        Routes.get_inquiry db user id
        = (db, mkResponse 403 (ErrorJson "无权查看此询价")))
  /\ (isObjectId id = true ->
      inquiries db !! ObjectId.cast id = None ->
      Routes.get_inquiry db user id = (db, mkResponse 404 (ErrorJson "询价不存在"))).
Proof.
  split; [exact (proj1 (get_inquiry_reads db user id)) |].
  unfold Routes.get_inquiry. split; [| split; [| split]].
  - destruct (isObjectId id); cbn [negb]; [| discriminate].
    destruct (inquiries db !! ObjectId.cast id) as [d|]; [| discriminate].
    destruct (users db !! Inquiry.buyer d) as [bu|] eqn:Hb; [| discriminate].
    destruct (String.eqb (User._id bu) (User.id user)) eqn:E1; cbn [negb].
    + intros _. split; [reflexivity |]. exists d. apply String.eqb_eq in E1.
      split; [reflexivity |]. left. exists bu. auto.
    + destruct (users db !! Inquiry.seller d) as [se|] eqn:Hs; [| discriminate].
      destruct (String.eqb (User._id se) (User.id user)) eqn:E2; cbn [negb];
        [| discriminate].
      intros _. split; [reflexivity |]. exists d. apply String.eqb_eq in E2.
      split; [reflexivity |]. right. exists se. auto.
  - intros d bu Hid Hd Hb E. rewrite Hid, Hd, Hb, E, String.eqb_refl. reflexivity.
  - intros d bu se Hid Hd Hb Hs Hnb Hns.
    apply String.eqb_neq in Hnb, Hns. now rewrite Hid, Hd, Hb, Hs, Hnb, Hns.
  - intros Hid Hd. now rewrite Hid, Hd.
Qed.

Lemma length_in_nonempty (lo hi : nat) (s : string) :
  (0 < lo)%nat -> length_in lo hi s = true -> String.eqb s "" = false.
Proof.
  unfold length_in. rewrite andb_true_iff, !Nat.leb_le. intros Hlo [Hl _].
  destruct s; [cbn in Hl; lia | reflexivity].
Qed.

(** The validators that [Inquiry.create] runs on the document of the
    create route, for a body that has passed the validation middleware:
    what is left to decide is the length of the trimmed message and the
    patterns of the caller's phone number and e-mail address. *)
Lemma create_validators (newId : string) (user seller : User.t)
    (b : Routes.CreateBody) (now : Z) :
  Routes.createInquiryValidation b = [] ->
  Inquiry.validate (drafted_inquiry newId user seller b now) = []
  <-> length_in 10 500 (trim (Routes.message b)) = true
      /\ Inquiry.matches_pattern phonePattern (option_map trim (User.phone user)) = true
      /\ Inquiry.matches_pattern emailPattern
           (Some (trim (toLowerCase (User.email user)))) = true.
Proof.
  intros Hv. destruct (create_validated b Hv) as (_ & Hq & _ & Hx).
  unfold Routes.isInt_min in Hq.
  apply andb_true_iff in Hq as [Hq _]. apply andb_true_iff in Hq as [_ Hq].
  rewrite validate_nil. unfold drafted_inquiry, InquiryCreate.setContact.
  cbn [Contact.phone Contact.email option_map]. split.
  - intros H.
    pose proof (H p_message ltac:(cbn; tauto)) as H1.
    pose proof (H p_buyerContact_phone ltac:(cbn; tauto)) as H2.
    pose proof (H p_buyerContact_email ltac:(cbn; tauto)) as H3.
    inquiry_fields in H1. inquiry_fields in H2. inquiry_fields in H3.
    apply andb_true_iff in H1 as [_ H1]. auto.
  - intros (H1 & H2 & H3) p _.
    destruct p; inquiry_fields; try reflexivity; try assumption.
    + now rewrite (length_in_nonempty 10 500 _ ltac:(lia) H1), H1.
    + destruct (Routes.expectedPrice b) as [x|]; [| reflexivity].
      specialize (Hx x eq_refl). unfold Routes.isFloat_range in Hx.
      apply andb_true_iff in Hx as [Hx Hhi]. apply andb_true_iff in Hx as [_ Hlo].
      now rewrite Hlo, Hhi.
Qed.

(** X10. When the body has passed the validation middleware and the
    product is active, in stock for the quantity and sold by another user,
    the create route answers 201 exactly when the validators of the schema
    accept the new document, and otherwise 500, storing nothing.  The
    validators accept it exactly when the message, once trimmed, still has
    10 to 500 characters and the caller's phone number and e-mail address,
    trimmed and the address in lower case, are empty or of the patterns of
    the schema.  When they accept it the route stores the pending inquiry
    of the body under the new id, with a quantity that stands for the
    integer that was asked for.  The validation counts the characters before the trimming
    and the schema after it, so for a message that is too short without
    its surrounding white space the route answers 500. *)
Theorem create_after_checks (db : Db) (user : User.t) (b : Routes.CreateBody)
    (newId : string) (now : Z) (p : Product.t) (seller : User.t) :
  Routes.createInquiryValidation b = [] ->
  Routes.findActiveProduct db (Routes.productId b) = Some p ->
  ltb (Product.stock p) (Routes.quantity b) = false ->
  users db !! Product.seller p = Some seller ->
  User._id seller <> User.id user ->
  (Inquiry.validate (drafted_inquiry newId user seller b now) = []
   <-> length_in 10 500 (trim (Routes.message b)) = true
       /\ Inquiry.matches_pattern phonePattern (option_map trim (User.phone user)) = true
       /\ Inquiry.matches_pattern emailPattern
            (Some (trim (toLowerCase (User.email user)))) = true)
  /\ (Inquiry.validate (drafted_inquiry newId user seller b now) = [] ->
      fst (Routes.route_post_inquiry db user b newId now)
      = put_inquiry (created_inquiry newId user seller b now) db)
  /\ (Inquiry.validate (drafted_inquiry newId user seller b now) <> [] ->
      Routes.route_post_inquiry db user b newId now
      = (db, mkResponse 500 (ErrorJson "创建询价失败")))
  /\ (code (snd (Routes.route_post_inquiry db user b newId now)) = 201
      <-> Inquiry.validate (drafted_inquiry newId user seller b now) = [])
  /\ (is_binary64 (Routes.quantity b) = true ->
      intval (Inquiry.quantity (created_inquiry newId user seller b now))
      = intval (Routes.quantity b)).
Proof.
  intros Hv Hp Hlt Hs Hne. apply String.eqb_neq in Hne.
  split; [exact (create_validators newId user seller b now Hv) |].
  rewrite (route_post_inquiry_checked db user b newId now p seller Hv Hp Hlt Hs Hne).
  assert (Hq : is_binary64 (Routes.quantity b) = true ->
               intval (Inquiry.quantity (created_inquiry newId user seller b now))
               = intval (Routes.quantity b)).
  { intros Hb. destruct (create_validated b Hv) as (_ & Hi & _).
    unfold Routes.isInt_min in Hi.
    apply andb_true_iff in Hi as [Hi _]. apply andb_true_iff in Hi as [Hi _].
    unfold created_inquiry. cbn [Inquiry.quantity].
    rewrite (normalize_quantity_floor _ Hb (is_integral_finite _ Hi)).
    now apply floorZ_integral. }
  destruct (Inquiry.validate (drafted_inquiry newId user seller b now)).
  - split; [reflexivity |]. split; [intros H; now contradict H |].
    split; [split; reflexivity | exact Hq].
  - split; [discriminate |]. split; [reflexivity |].
    split; [split; discriminate | exact Hq].
Qed.

Lemma create_after_checks_witness :
  Routes.createInquiryValidation order_padded = []
  /\ length_in 10 500 (trim (Routes.message order_padded)) = false
  /\ Routes.route_post_inquiry db0 buyer1 order_padded inquiry_id 1000
     = (db0, mkResponse 500 (ErrorJson "创建询价失败"))
  /\ Routes.route_post_inquiry db0 caller_12345 order1 inquiry_id 1000
     = (db0, mkResponse 500 (ErrorJson "创建询价失败")).
Proof.
  assert (Hv : Routes.createInquiryValidation order_padded = [])
    by (vm_compute; reflexivity).
  assert (Hl : length_in 10 500 (trim (Routes.message order_padded)) = false)
    by (vm_compute; reflexivity).
  split; [exact Hv |]. split; [exact Hl |]. split.
  - refine (proj1 (proj2 (proj2 (create_after_checks db0 buyer1 order_padded inquiry_id
                                   1000 product1 seller1 Hv _ _ _ _))) _).
    + vm_compute; reflexivity.
    + vm_compute; reflexivity.
    + vm_compute; reflexivity.
    + vm_compute; discriminate.
    + vm_compute; discriminate.
  - vm_compute; reflexivity.
Defined.

(** X11. A respond call that is answered with 200 has found, under the
    id read in either case of its digits, a pending inquiry whose seller is
    the caller; it stores that inquiry with the status "responded" and the
    response of the body, its texts trimmed and its price as the save hook
    leaves it; the parties, the product, the buyer's message and
    [createdAt] are what they were, and so is every other inquiry, user and
    product. *)
Theorem respond_writes_one_inquiry (db db' : Db) (user : User.t) (id : string)
    (b : Routes.RespondBody) (now : Z) (r : HttpResponse) :
  Routes.route_patch_respond db user id b now = (db', r) ->
  code r = 200 ->
  exists d,
    inquiries db !! ObjectId.cast id = Some d
    /\ Inquiry.seller d = User.id user
    /\ Inquiry.status d = "pending"
    /\ db' = put_inquiry (responded_inquiry d b now) db
    /\ inquiries db' !! Inquiry._id d = Some (responded_inquiry d b now)
    /\ (forall id', id' <> Inquiry._id d -> inquiries db' !! id' = inquiries db !! id')
    /\ users db' = users db
    /\ products db' = products db.
Proof.
  intros E Hc.
  destruct (route_patch_respond_cases db user id b now)
    as [[_ Hin] | (d & _ & _ & Hd & Hs & Hst & _ & Hr)].
  - rewrite E in Hin. cbn [snd] in Hin. rewrite Hc in Hin. cbn [In] in Hin.
    exfalso. intuition discriminate.
  - rewrite Hr in E. inversion E; subst db' r. exists d.
    repeat split; try assumption.
    + unfold put_inquiry. cbn [inquiries responded_inquiry Inquiry._id].
      apply lookup_insert_eq.
    + intros id' Hid'. unfold put_inquiry. cbn [inquiries responded_inquiry Inquiry._id].
      now apply lookup_insert_ne.
Qed.

Lemma respond_writes_one_inquiry_witness :
  Routes.route_patch_respond db1 seller1 "EEEEEEEEEEEEEEEEEEEEEEEE" quote1 2000
  = (db2, mkResponse 200 (InquiryJson inquiry1_quoted))
  /\ exists d,
       inquiries db1 !! ObjectId.cast "EEEEEEEEEEEEEEEEEEEEEEEE" = Some d
       /\ Inquiry.seller d = User.id seller1
       /\ Inquiry.status d = "pending"
       /\ db2 = put_inquiry (responded_inquiry d quote1 2000) db1
       /\ inquiries db2 !! Inquiry._id d = Some (responded_inquiry d quote1 2000)
       /\ (forall id', id' <> Inquiry._id d ->
                       inquiries db2 !! id' = inquiries db1 !! id')
       /\ users db2 = users db1
       /\ products db2 = products db1.
Proof.
  assert (E : Routes.route_patch_respond db1 seller1 "EEEEEEEEEEEEEEEEEEEEEEEE" quote1 2000
              = (db2, mkResponse 200 (InquiryJson inquiry1_quoted)))
    by (vm_compute; reflexivity).
  split; [exact E |].
  exact (respond_writes_one_inquiry db1 db2 seller1 "EEEEEEEEEEEEEEEEEEEEEEEE" quote1 2000
           (mkResponse 200 (InquiryJson inquiry1_quoted)) E eq_refl).
Defined.




(** ** The virtual fields of a product *)

(** X14. For a product whose stock is not negative, as the schema has
    it, [isAvailable] says that the product is active and that
    [stockStatus] is not the out-of-stock one.  The create route stores an
    inquiry only for such a product: a call that is answered with 201 was
    made for a product that [isAvailable]. *)
Theorem available_means_in_stock (p : Product.t) :
  leb (of_Z 0) (Product.stock p) = true ->
  ProductVirtual.isAvailable p
  = Product.isActive p && negb (String.eqb (ProductVirtual.stockStatus p) "缺货")
  /\ forall db user b newId now,
       code (snd (Routes.route_post_inquiry db user b newId now)) = 201 ->
       products db !! ObjectId.cast (Routes.productId b) = Some p ->
       ProductVirtual.isAvailable p = true.
Proof.
  intros Hmin. split.
  - unfold ProductVirtual.isAvailable, ProductVirtual.stockStatus.
    destruct (Product.stock p) as [s | [|] | | [|] m e]; try discriminate Hmin.
    + cbn. now rewrite andb_false_r.
    + reflexivity.
    + change (SFeqb (S754_finite false m e) (of_Z 0)) with false.
      change (ltb (of_Z 0) (S754_finite false m e)) with true.
      destruct (leb (S754_finite false m e) (of_Z 10)); [reflexivity |].
      destruct (leb (S754_finite false m e) (of_Z 50)); reflexivity.
  - intros db user b newId now Hc Hp.
    destruct (route_post_inquiry_cases db user b newId now)
      as [[_ Hin] | (p' & seller & Hv & Hfind & Hlt & _)].
    { rewrite Hc in Hin. cbn [In] in Hin. exfalso. intuition discriminate. }
    unfold Routes.findActiveProduct in Hfind. rewrite Hp in Hfind.
    destruct (Product.isActive p) eqn:Hact; [| discriminate].
    inversion Hfind; subst p'. clear Hfind.
    destruct (create_validated b Hv) as (_ & Hq & _).
    unfold Routes.isInt_min in Hq.
    apply andb_true_iff in Hq as [Hq _]. apply andb_true_iff in Hq as [_ Hq].
    unfold ProductVirtual.isAvailable. rewrite Hact. cbn [andb].
    destruct (Product.stock p) as [s | [|] | | [|] m e]; try discriminate Hmin;
      try reflexivity.
    destruct (Routes.quantity b) as [s' | [|] | | [|] m' e'];
      try discriminate Hq; discriminate Hlt.
Qed.

Lemma available_means_in_stock_witness :
  leb (of_Z 0) (Product.stock product1) = true
  /\ ProductVirtual.isAvailable product1 = true
  /\ ProductVirtual.stockStatus product1 = "紧张".
Proof.
  assert (H : leb (of_Z 0) (Product.stock product1) = true) by (vm_compute; reflexivity).
  split; [exact H |]. split; [| vm_compute; reflexivity].
  rewrite (proj1 (available_means_in_stock product1 H)). vm_compute. reflexivity.
Defined.

(** ** The mounted routes *)





Lemma chain_for_auth (name : string) :
  In name ["register"; "login"; "logout"] ->
  exists chain,
    Server.chain_for POST ["auth"; name]
    = Some (Server.mw_authLimiter :: Server.mw_validateCsrf :: chain, [name])
    /\ existsb (String.eqb (req_path [name])) Csrf.skipPaths = false
    /\ String.prefix "/auth/" (req_path [name]) = false.
Proof.
  cbn [In]. intros [<- | [<- | [<- | []]]]; eexists; repeat split; reflexivity.
Qed.

(** X16. The routes of [routes/auth.js] are mounted under [/auth], and
    [validateCsrf] compares the path below the mount point: the skip list,
    which names [/auth/register] and [/auth/login], and the [/auth/] prefix
    never match.  A POST to the register, login or logout route whose
    token is missing or does not verify is answered with 403, or with 429
    by the limiter in front; the handler does not run and the store is
    what it was. *)
Theorem auth_routes_ask_for_token (digest : string -> string)
    (other_handler : string -> Server.World -> Server.Request
                     -> Server.World * HttpResponse)
    (other_validation : string -> Server.Request -> option HttpResponse)
    (w : Server.World) (req : Server.Request) (name : string) :
  Server.method req = POST ->
  Server.url req = ["auth"; name] ->
  In name ["register"; "login"; "logout"] ->
  Csrf.req_validateCsrf digest (Server.session req)
    (Csrf.first_some (Server.x_csrf_token req)
       (Csrf.first_some (Server.x_xsrf_token req) (Server.body_csrf req))) = false ->
  exists w' r,
    Server.serve digest other_handler other_validation w req = Some (w', r)
    /\ (code r = 403 \/ r = RateLimited RateLimit.authLimiter)
    /\ Server.db w' = Server.db w.
Proof.
  intros Hm Hu Hn Hv.
  destruct (chain_for_auth name Hn) as (chain & Hc & Hskip & Hpre).
  unfold Server.serve. rewrite Hm, Hu, Hc. cbn [Server.run_chain].
  destruct (RateLimit.limiter RateLimit.authLimiter (Server.now req) (Server.ip req)
              (Server.authHits w)) as [store [r|]] eqn:Hl.
  - eexists; eexists. split; [reflexivity |]. split; [| reflexivity].
    right. exact (limiter_code _ _ _ _ _ _ Hl).
  - rewrite Hm.
    destruct (validateCsrf_requires_token digest
                (Csrf.mkCsrfRequest POST [name] (Server.x_csrf_token req)
                   (Server.x_xsrf_token req) (Server.body_csrf req)
                   (Server.session req)) eq_refl Hskip Hpre Hv) as (r & Hr & Hcode).
    rewrite Hr.
    eexists; eexists. split; [reflexivity |]. split; [left; exact Hcode | reflexivity].
Qed.

Lemma auth_routes_ask_for_token_witness :
  Server.method login_without_token = POST
  /\ Server.url login_without_token = ["auth"; "login"]
  /\ exists w' r,
       Server.serve (fun x => x) sample_handler sample_validation world0
         login_without_token = Some (w', r)
       /\ (code r = 403 \/ r = RateLimited RateLimit.authLimiter)
       /\ Server.db w' = Server.db world0.
Proof.
  split; [reflexivity |]. split; [reflexivity |].
  apply (auth_routes_ask_for_token (fun x => x) sample_handler sample_validation
           world0 login_without_token "login").
  - reflexivity.
  - reflexivity.
  - cbn; auto.
  - reflexivity.
Defined.

Lemma matches_literal (s : string) (rel : list string) :
  Server.matches [Server.lit s] rel = true -> rel = [s].
Proof.
  destruct rel as [|u [|v rel]]; cbn [Server.matches]; try discriminate.
  - rewrite andb_true_r. intros H. apply String.eqb_eq in H. now subst.
  - rewrite andb_false_r. discriminate.
Qed.

(** X17. The exemptions of [validateCsrf] are without effect in this
    application.  For every route in front of which [validateCsrf] stands,
    by the mount of its router or in its own chain, and for every path
    that the route matches, the path that [validateCsrf] sees is neither on
    the skip list nor under [/auth/]: the only requests that pass without a
    token are those with a safe method. *)
Theorem validateCsrf_exemptions_never_apply (mt : Server.Mount)
    (route : Server.Route) (rel : list string) :
  In mt Server.mounts ->
  In route (Server.m_router mt) ->
  Server.matches (Server.r_pattern route) rel = true ->
  In Server.mw_validateCsrf (Server.m_chain mt ++ Server.r_chain route)%list ->
  forall m x y z s,
    CsrfPages.skips (Csrf.mkCsrfRequest m rel x y z s) = is_safe_method m.
Proof.
  intros Hm Hr Hmatch Hin m x y z s.
  assert (Hpath : existsb (String.eqb (req_path rel)) Csrf.skipPaths = false
                  /\ String.prefix "/auth/" (req_path rel) = false).
  { cbn [In Server.mounts] in Hm.
    repeat match goal with
           | H : _ \/ _ |- _ => destruct H as [H | H]
           | H : False |- _ => destruct H
           end; subst mt;
      cbn [In Server.m_router Server.authRouter Server.productsRouter
           Server.usersRouter Server.inquiriesRouter] in Hr;
      repeat match goal with
             | H : _ \/ _ |- _ => destruct H as [H | H]
             | H : False |- _ => destruct H
             end; subst route;
      first [ apply matches_literal in Hmatch; subst rel; split; reflexivity
            | exfalso; cbn in Hin; intuition discriminate ]. }
  destruct Hpath as [Hskip Hpre].
  unfold CsrfPages.skips. cbn [Csrf.method Csrf.path].
  rewrite Hskip, Hpre. cbn [andb]. now rewrite !orb_false_r.
Qed.

Lemma validateCsrf_exemptions_never_apply_witness :
  In (Server.mkMount ["auth"] [Server.mw_authLimiter; Server.mw_validateCsrf]
        Server.authRouter) Server.mounts
  /\ CsrfPages.skips (Csrf.mkCsrfRequest POST ["login"] None None None session1)
     = false.
Proof.
  assert (Hm : In (Server.mkMount ["auth"]
                     [Server.mw_authLimiter; Server.mw_validateCsrf]
                     Server.authRouter) Server.mounts) by (cbn; auto).
  split; [exact Hm |].
  apply (validateCsrf_exemptions_never_apply
           (Server.mkMount ["auth"] [Server.mw_authLimiter; Server.mw_validateCsrf]
              Server.authRouter)
           (Server.mkRoute POST [Server.lit "login"]
              [Server.mw_authLimiter; Server.mw_validateCsrf;
               Server.mw_validate_other "login";
               Server.mw_handler (Server.h_other "login")])
           ["login"] Hm).
  - cbn; auto.
  - reflexivity.
  - cbn; auto.
Defined.

(** ** Anti-forgery tokens from issue to check *)

Lemma csrfMiddleware_secret (digest : string -> string) (fresh salt : string)
    (s : Csrf.Session) :
  exists secret,
    Csrf.csrfMiddleware digest fresh salt s
    = (Csrf.mkSession (Csrf.sessionID s) (Some secret),
       Some (Csrf.tokens_create digest secret salt))
    /\ (forall old, Csrf.csrfSecret s = Some old -> secret = old)
    /\ (Csrf.csrfSecret s = None -> secret = fresh).
Proof.
  unfold Csrf.csrfMiddleware, Csrf.ensureSecret. destruct s as [id [old|]]; cbn.
  - exists old. repeat split; [now intros ? [= ->] | discriminate].
  - exists fresh. repeat split. discriminate.
Qed.

(** X18. The token that [GET /api/csrf-token] hands out is accepted
    later: [csrfMiddleware] gives a session its secret once and keeps it
    on every further request, [provideCsrfToken] and [getCsrfToken] pass on
    the token that [csrfMiddleware] made, and [validateCsrf] lets through
    any request of the session whose first token, in the order
    [X-CSRF-Token], [X-XSRF-Token], [_csrf], is that one. *)
Theorem issued_token_is_accepted (digest : string -> string)
    (s : Csrf.Session) (fresh1 salt1 salt2 fresh3 salt3 : string)
    (m : HttpMethod) (path : list string) (x y z : option Csrf.Token) :
  Csrf.first_some x (Csrf.first_some y z)
  = snd (CsrfPages.fetch_token digest fresh1 salt1 salt2 s) ->
  CsrfPages.guarded_request digest fresh3 salt3
    (fst (CsrfPages.fetch_token digest fresh1 salt1 salt2 s)) m path x y z
  = (fst (CsrfPages.fetch_token digest fresh1 salt1 salt2 s), None)
  /\ is_Some (snd (CsrfPages.fetch_token digest fresh1 salt1 salt2 s))
  /\ CsrfPages.provideCsrfToken digest salt2
       (fst (Csrf.csrfMiddleware digest fresh1 salt1 s))
       (snd (Csrf.csrfMiddleware digest fresh1 salt1 s))
     = snd (Csrf.csrfMiddleware digest fresh1 salt1 s).
Proof.
  unfold CsrfPages.fetch_token, CsrfPages.guarded_request.
  destruct (csrfMiddleware_secret digest fresh1 salt1 s) as (secret & -> & _ & _).
  cbn [fst snd CsrfPages.getCsrfToken CsrfPages.provideCsrfToken].
  intros Htok.
  destruct (csrfMiddleware_secret digest fresh3 salt3
              (Csrf.mkSession (Csrf.sessionID s) (Some secret)))
    as (secret' & -> & Hold & _).
  rewrite (Hold secret eq_refl). cbn [Csrf.sessionID].
  split; [| split; [eexists; reflexivity | reflexivity]].
  f_equal. unfold Csrf.validateCsrf.
  cbn [Csrf.method Csrf.path Csrf.x_csrf_token Csrf.x_xsrf_token Csrf.body_csrf
       Csrf.session].
  rewrite Htok.
  unfold Csrf.req_validateCsrf. cbn [Csrf.csrfSecret].
  rewrite token_verifies_own_secret. cbn [negb].
  repeat match goal with |- context [if ?c then _ else _] => destruct c end;
    reflexivity.
Qed.

Lemma issued_token_is_accepted_witness :
  Csrf.first_some None
    (Csrf.first_some None (Some (Csrf.mkToken "salt-1" "salt-1-secret-1")))
  = snd (CsrfPages.fetch_token (fun x => x) "secret-1" "salt-1" "salt-2"
           (Csrf.mkSession "session-1" None))
  /\ CsrfPages.guarded_request (fun x => x) "secret-3" "salt-3"
       (fst (CsrfPages.fetch_token (fun x => x) "secret-1" "salt-1" "salt-2"
               (Csrf.mkSession "session-1" None)))
       PATCH ["profile"] None None (Some (Csrf.mkToken "salt-1" "salt-1-secret-1"))
     = (session1, None).
Proof.
  split; [reflexivity |].
  exact (proj1 (issued_token_is_accepted (fun x => x) (Csrf.mkSession "session-1" None)
                  "secret-1" "salt-1" "salt-2" "secret-3" "salt-3" PATCH ["profile"]
                  None None (Some (Csrf.mkToken "salt-1" "salt-1-secret-1")) eq_refl)).
Defined.

Lemma validateCsrf_skips (digest : string -> string) (req : Csrf.CsrfRequest) :
  CsrfPages.skips req = true -> Csrf.validateCsrf digest req = None.
Proof.
  unfold CsrfPages.skips, Csrf.validateCsrf.
  destruct (is_safe_method (Csrf.method req)); [reflexivity |].
  destruct (existsb _ Csrf.skipPaths); [reflexivity |].
  cbn [orb]. now intros ->.
Qed.

Lemma validateCsrf_checks (digest : string -> string) (req : Csrf.CsrfRequest) :
  CsrfPages.skips req = false ->
  Csrf.validateCsrf digest req
  = match Csrf.first_some (Csrf.x_csrf_token req)
            (Csrf.first_some (Csrf.x_xsrf_token req) (Csrf.body_csrf req)) with
    | None =>
        Some (mkResponse 403
                (CsrfErrorJson "安全验证失败：缺少 CSRF Token"
                   (Csrf.has_secret (Csrf.session req))))
    | Some t =>
        if Csrf.req_validateCsrf digest (Csrf.session req) (Some t) then None
        else Some (mkResponse 403
                     (CsrfErrorJson "安全验证失败：无效的 CSRF Token"
                        (Csrf.has_secret (Csrf.session req))))
    end.
Proof.
  unfold CsrfPages.skips, Csrf.validateCsrf.
  destruct (is_safe_method (Csrf.method req)); [discriminate |].
  destruct (existsb _ Csrf.skipPaths); [discriminate |].
  cbn [orb]. intros ->.
  destruct (Csrf.first_some _ _) as [t|]; [| reflexivity].
  now destruct (Csrf.req_validateCsrf digest (Csrf.session req) (Some t)).
Qed.

(** X19. [validateCsrfSimple] against [validateCsrf]: both answer a
    refusal with 403.  For a request without an [X-XSRF-Token] header,
    what the simple check lets through [validateCsrf] lets through as
    well, and on a path that [validateCsrf] does not skip the two decide
    alike.  With that header they part: [validateCsrf] judges the header
    before the [_csrf] field, so a request whose header does not verify is
    refused although its field does, while the simple check, which does
    not read the header, lets it through. *)
Theorem validateCsrfSimple_against_validateCsrf (digest : string -> string)
    (req : Csrf.CsrfRequest) :
  (forall r, CsrfPages.validateCsrfSimple digest req = Some r -> code r = 403)
  /\ (forall r, Csrf.validateCsrf digest req = Some r -> code r = 403)
  /\ (Csrf.x_xsrf_token req = None ->
      CsrfPages.validateCsrfSimple digest req = None ->
      Csrf.validateCsrf digest req = None)
  /\ (Csrf.x_xsrf_token req = None ->
      CsrfPages.skips req = false ->
      (CsrfPages.validateCsrfSimple digest req = None
       <-> Csrf.validateCsrf digest req = None))
  /\ (forall bad good,
        CsrfPages.skips req = false ->
        Csrf.x_csrf_token req = None ->
        Csrf.x_xsrf_token req = Some bad ->
        Csrf.body_csrf req = Some good ->
        Csrf.req_validateCsrf digest (Csrf.session req) (Some bad) = false ->
        Csrf.req_validateCsrf digest (Csrf.session req) (Some good) = true ->
        CsrfPages.validateCsrfSimple digest req = None
        /\ exists r, Csrf.validateCsrf digest req = Some r /\ code r = 403).
Proof.
  assert (Hsimple : is_safe_method (Csrf.method req) = false ->
            CsrfPages.validateCsrfSimple digest req
            = match Csrf.first_some (Csrf.x_csrf_token req) (Csrf.body_csrf req) with
              | None => Some (mkResponse 403 (ErrorJson "缺少 CSRF Token"))
              | Some t =>
                  if Csrf.req_validateCsrf digest (Csrf.session req) (Some t) then None
                  else Some (mkResponse 403 (ErrorJson "无效的 CSRF Token"))
              end).
  { intros Hm. unfold CsrfPages.validateCsrfSimple. rewrite Hm.
    destruct (Csrf.first_some _ _) as [t|]; [| reflexivity].
    now destruct (Csrf.req_validateCsrf digest (Csrf.session req) (Some t)). }
  assert (Hunsafe : CsrfPages.skips req = false ->
                    is_safe_method (Csrf.method req) = false).
  { unfold CsrfPages.skips. destruct (is_safe_method (Csrf.method req));
      [discriminate | reflexivity]. }
  split; [| split; [| split; [| split]]].
  - intros r. unfold CsrfPages.validateCsrfSimple.
    repeat match goal with |- context [match ?c with _ => _ end] => destruct c end;
      intros E; inversion E; reflexivity.
  - intros r. unfold Csrf.validateCsrf.
    repeat match goal with |- context [match ?c with _ => _ end] => destruct c end;
      intros E; inversion E; reflexivity.
  - intros Hx Hs. destruct (CsrfPages.skips req) eqn:Hk;
      [now apply validateCsrf_skips |].
    rewrite (validateCsrf_checks digest req Hk), Hx.
    rewrite (Hsimple (Hunsafe eq_refl)) in Hs.
    destruct (Csrf.x_csrf_token req) as [t|]; cbn [Csrf.first_some] in *;
      [| destruct (Csrf.body_csrf req) as [t|]];
      try destruct (Csrf.req_validateCsrf digest (Csrf.session req) (Some t));
      first [reflexivity | discriminate Hs].
  - intros Hx Hk.
    rewrite (validateCsrf_checks digest req Hk), Hx, (Hsimple (Hunsafe Hk)).
    destruct (Csrf.x_csrf_token req) as [t|]; cbn [Csrf.first_some];
      [| destruct (Csrf.body_csrf req) as [t|]];
      try destruct (Csrf.req_validateCsrf digest (Csrf.session req) (Some t));
      split; intros H; first [reflexivity | discriminate H].
  - intros bad good Hk Hx Hy Hz Hbad Hgood.
    rewrite (validateCsrf_checks digest req Hk), Hx, Hy, (Hsimple (Hunsafe Hk)), Hx, Hz.
    cbn [Csrf.first_some]. rewrite Hbad, Hgood. split; [reflexivity |].
    eexists. split; reflexivity.
Qed.

(** ** The Authorization header *)

Lemma no_space_app (a b : string) :
  AuthHeader.no_space (a ++ b)
  = AuthHeader.no_space a && AuthHeader.no_space b.
Proof.
  unfold AuthHeader.no_space.
  induction a as [|c a IH]; [reflexivity |].
  rewrite append_String. cbn [all_chars]. now rewrite IH, andb_assoc.
Qed.

(** The first piece of a split holds no separator, and the other pieces
    are the split of what follows the first separator. *)
Lemma split_head (s : string) :
  exists piece pieces,
    AuthHeader.split " " s = piece :: pieces
    /\ AuthHeader.no_space piece = true
    /\ ((pieces = [] /\ s = piece)
        \/ exists s', s = (piece ++ " " ++ s')%string
                      /\ pieces = AuthHeader.split " " s').
Proof.
  induction s as [|c r (piece & pieces & E & Hp & Hs)].
  - exists EmptyString, []. repeat split. left. auto.
  - cbn [AuthHeader.split]. destruct (Ascii.eqb c " ") eqn:Ec.
    + apply Ascii.eqb_eq in Ec. subst c.
      exists EmptyString, (AuthHeader.split " " r). repeat split.
      right. exists r. auto.
    + rewrite E. exists (String c piece), pieces. split; [reflexivity |]. split.
      * unfold AuthHeader.no_space in *. cbn [all_chars]. now rewrite Ec, Hp.
      * destruct Hs as [[-> ->] | (s' & -> & ->)]; [left; auto |].
        right. exists s'. auto.
Qed.

Lemma split_no_space (piece : string) :
  AuthHeader.no_space piece = true -> AuthHeader.split " " piece = [piece].
Proof.
  unfold AuthHeader.no_space.
  induction piece as [|c r IH]; [reflexivity |].
  cbn [all_chars AuthHeader.split]. intros H. apply andb_true_iff in H as [Hc Hr].
  apply negb_true_iff in Hc. now rewrite Hc, (IH Hr).
Qed.

Lemma split_app (piece rest : string) :
  AuthHeader.no_space piece = true ->
  AuthHeader.split " " (piece ++ " " ++ rest)
  = piece :: AuthHeader.split " " rest.
Proof.
  unfold AuthHeader.no_space.
  induction piece as [|c r IH]; [reflexivity |].
  cbn [all_chars]. intros H. apply andb_true_iff in H as [Hc Hr].
  apply negb_true_iff in Hc.
  rewrite append_String. cbn [AuthHeader.split]. now rewrite Hc, (IH Hr).
Qed.

(** X20. The token that [auth] takes from an [Authorization] header.  A
    header yields the token exactly when it starts with [Bearer] and the
    token is what stands, not empty, between its first space and the next
    space or its end.  So [Bearer] followed by a space and a token without
    spaces yields that token; anything may stand between [Bearer] and the
    first space; and a header with two spaces after [Bearer], like one
    without a space, yields none and is answered with 401. *)
Theorem bearerToken_reads_second_piece (h token : string) :
  (AuthHeader.bearerToken (Some h) = Some token
   <-> String.prefix "Bearer" h = true
       /\ token <> ""
       /\ AuthHeader.no_space token = true
       /\ exists scheme,
            AuthHeader.no_space scheme = true
            /\ (h = (scheme ++ " " ++ token)%string
                \/ exists rest, h = (scheme ++ " " ++ token ++ " " ++ rest)%string))
  /\ (token <> "" -> AuthHeader.no_space token = true ->
      AuthHeader.requireToken (Some ("Bearer " ++ token)%string) = inl token)
  /\ (forall rest,
        AuthHeader.requireToken (Some ("Bearer  " ++ rest)%string)
        = inr (mkResponse 401 (ErrorJson "请提供访问令牌")))
  /\ (AuthHeader.no_space h = true ->
      AuthHeader.requireToken (Some h)
      = inr (mkResponse 401 (ErrorJson "请提供访问令牌"))).
Proof.
  assert (Hback : forall h' t scheme,
            String.prefix "Bearer" h' = true ->
            t <> "" -> AuthHeader.no_space t = true ->
            AuthHeader.no_space scheme = true ->
            (h' = (scheme ++ " " ++ t)%string
             \/ exists rest, h' = (scheme ++ " " ++ t ++ " " ++ rest)%string) ->
            AuthHeader.bearerToken (Some h') = Some t).
  { intros h' t scheme Hpre Hne Ht Hsch Hh. unfold AuthHeader.bearerToken.
    rewrite Hpre.
    assert (Hnonempty : String.eqb h' "" = false).
    { destruct h'; [discriminate Hpre | reflexivity]. }
    rewrite Hnonempty. cbn [negb andb].
    assert (Hsplit : AuthHeader.split " " h' !! 1%nat = Some t).
    { destruct Hh as [-> | [rest ->]].
      - now rewrite (split_app _ _ Hsch), (split_no_space _ Ht).
      - now rewrite (split_app _ _ Hsch), (split_app _ _ Ht). }
    rewrite Hsplit. apply String.eqb_neq in Hne. now rewrite Hne. }
  split; [split |].
  - unfold AuthHeader.bearerToken.
    destruct (String.eqb h "") eqn:Hn; cbn [negb andb]; [discriminate |].
    destruct (String.prefix "Bearer" h) eqn:Hpre; [| discriminate].
    destruct (split_head h) as (scheme & pieces & E & Hsch & Hs). rewrite E.
    destruct Hs as [[-> _] | (s' & Hh & ->)]; [discriminate |].
    destruct (split_head s') as (piece & pieces & E' & Hp & Hs'). rewrite E'.
    change ((scheme :: piece :: pieces) !! 1%nat) with (Some piece).
    cbv beta iota.
    destruct (String.eqb piece "") eqn:Hpe; [discriminate |].
    intros Ht. inversion Ht; subst piece. apply String.eqb_neq in Hpe.
    split; [reflexivity |]. split; [exact Hpe |]. split; [exact Hp |].
    exists scheme. split; [exact Hsch |].
    destruct Hs' as [[_ ->] | (s'' & -> & _)]; [left; exact Hh |].
    right. exists s''. exact Hh.
  - intros (Hpre & Hne & Ht & scheme & Hsch & Hh).
    exact (Hback h token scheme Hpre Hne Ht Hsch Hh).
  - split; [| split].
    + intros Hne Ht. unfold AuthHeader.requireToken.
      now rewrite (Hback ("Bearer " ++ token)%string token "Bearer" eq_refl Hne Ht
                     eq_refl (or_introl eq_refl)).
    + intros rest. unfold AuthHeader.requireToken, AuthHeader.bearerToken.
      change ("Bearer  " ++ rest)%string with ("Bearer" ++ " " ++ "" ++ " " ++ rest)%string.
      rewrite (split_app "Bearer" _ eq_refl), (split_app "" _ eq_refl).
      reflexivity.
    + intros Hh. unfold AuthHeader.requireToken, AuthHeader.bearerToken.
      rewrite (split_no_space _ Hh). now destruct (negb _ && _).
Qed.

(** The scheme is read by its first six characters only. *)
Example bearer_scheme_is_a_prefix :
  AuthHeader.bearerToken (Some "Bearer abc.def.ghi") = Some "abc.def.ghi"
  /\ AuthHeader.bearerToken (Some "BearerOfNews abc.def.ghi") = Some "abc.def.ghi"
  /\ AuthHeader.bearerToken (Some "Bearer abc.def.ghi trailing") = Some "abc.def.ghi"
  /\ AuthHeader.bearerToken (Some "bearer abc.def.ghi") = None
  /\ AuthHeader.bearerToken (Some "Bearer") = None
  /\ AuthHeader.bearerToken None = None.
Proof. repeat split; vm_compute; reflexivity. Qed.

(** ** What the sanitization reaches *)

Lemma no_angle_trimStart (s : string) :
  Sanitize.no_angle s = true -> Sanitize.no_angle (trimStart s) = true.
Proof.
  unfold Sanitize.no_angle.
  induction s as [|c r IH]; [reflexivity |].
  cbn [trimStart all_chars]. intros H. apply andb_true_iff in H as [Hc Hr].
  destruct (is_ws c); [now apply IH |].
  cbn [all_chars]. now rewrite Hc, Hr.
Qed.

Lemma no_angle_trimEnd (s : string) :
  Sanitize.no_angle s = true -> Sanitize.no_angle (trimEnd s) = true.
Proof.
  unfold Sanitize.no_angle.
  induction s as [|c r IH]; [reflexivity |].
  cbn [trimEnd all_chars]. intros H. apply andb_true_iff in H as [Hc Hr].
  specialize (IH Hr).
  destruct (trimEnd r) as [|c' r'].
  - destruct (is_ws c); [reflexivity |]. cbn [all_chars]. now rewrite Hc.
  - cbn [all_chars] in *. now rewrite Hc, IH.
Qed.

Lemma no_angle_trim (s : string) :
  Sanitize.no_angle s = true -> Sanitize.no_angle (trim s) = true.
Proof. intros H. unfold trim. now apply no_angle_trimEnd, no_angle_trimStart. Qed.

Section InboundStrings.
Variable sanitizeHtml : (string -> string) -> string -> string.

(** With no tag allowed, what the HTML sanitizer returns is the filtered,
    entity-escaped text of its input. *)
Hypothesis sanitizeHtml_text :
  forall s, exists t,
    sanitizeHtml Sanitize.textFilter s = Sanitize.textFilter (Sanitize.escapeHtml t).

Lemma sanitizeValue_string (v : Json) (s : string) :
  Sanitize.sanitizeValue sanitizeHtml v = JStr s ->
  Sanitize.no_angle s = true /\ trim s = s.
Proof.
  destruct v as [| b | n | s0 | items | fields]; try discriminate.
  cbn [Sanitize.sanitizeValue]. intros E. inversion E; subst s. clear E.
  destruct (sanitizeHtml_text s0) as [t ->]. split; [| apply trim_idem].
  apply no_angle_trim, no_angle_textFilter.
Qed.

(** X21. What [sanitizeInput] does to a request and what it does not.
    The fields of the body and of the query keep their names and their
    order.  Afterwards every string that is the value of a field of the
    query, or of a field of the body other than [_csrf], is free of angle
    brackets and of white space at its ends.  The [_csrf] field of the body
    and every value that is not itself a string -- an array or an object,
    whatever strings it holds -- pass as they came. *)
Theorem sanitizeInput_postcondition (req : Sanitize.SanRequest) :
  option_map (List.map fst) (Sanitize.body (Sanitize.sanitizeInput sanitizeHtml req))
  = option_map (List.map fst) (Sanitize.body req)
  /\ option_map (List.map fst) (Sanitize.query (Sanitize.sanitizeInput sanitizeHtml req))
     = option_map (List.map fst) (Sanitize.query req)
  /\ (forall fields k s,
        Sanitize.body (Sanitize.sanitizeInput sanitizeHtml req) = Some fields ->
        In (k, JStr s) fields -> k <> "_csrf" ->
        Sanitize.no_angle s = true /\ trim s = s)
  /\ (forall fields k s,
        Sanitize.query (Sanitize.sanitizeInput sanitizeHtml req) = Some fields ->
        In (k, JStr s) fields ->
        Sanitize.no_angle s = true /\ trim s = s)
  /\ (forall fields k v,
        Sanitize.body req = Some fields -> In (k, v) fields ->
        k = "_csrf" \/ (forall s, v <> JStr s) ->
        exists fields',
          Sanitize.body (Sanitize.sanitizeInput sanitizeHtml req) = Some fields'
          /\ In (k, v) fields').
Proof.
  destruct req as [body query]. unfold Sanitize.sanitizeInput.
  cbn [Sanitize.body Sanitize.query].
  split; [| split; [| split; [| split]]].
  - destruct body as [fields|]; [| reflexivity]. cbn [option_map]. f_equal.
    rewrite List.map_map. apply List.map_ext. intros [k v].
    unfold Sanitize.sanitizeBodyField. now destruct (negb _).
  - destruct query as [fields|]; [| reflexivity]. cbn [option_map]. f_equal.
    rewrite List.map_map. apply List.map_ext. now intros [k v].
  - intros fields k s Hb Hin Hk.
    destruct body as [fields0|]; [| discriminate].
    cbn [option_map] in Hb. inversion Hb; subst fields. clear Hb.
    apply in_map_iff in Hin as ([k0 v0] & E & _).
    unfold Sanitize.sanitizeBodyField in E. cbn [fst snd] in E.
    destruct (String.eqb k0 "_csrf") eqn:Ek; cbn [negb] in E.
    + inversion E; subst k0. apply String.eqb_eq in Ek. contradiction.
    + inversion E as [[E1 E2]]. exact (sanitizeValue_string v0 s E2).
  - intros fields k s Hq Hin.
    destruct query as [fields0|]; [| discriminate].
    cbn [option_map] in Hq. inversion Hq; subst fields. clear Hq.
    apply in_map_iff in Hin as ([k0 v0] & E & _).
    unfold Sanitize.sanitizeQueryField in E. cbn [fst snd] in E.
    inversion E as [[E1 E2]]. exact (sanitizeValue_string v0 s E2).
  - intros fields k v Hb Hin Hkv. rewrite Hb. cbn [option_map].
    eexists. split; [reflexivity |].
    apply in_map_iff. exists (k, v). split; [| exact Hin].
    unfold Sanitize.sanitizeBodyField. cbn [fst snd].
    destruct (String.eqb k "_csrf") eqn:Ek; cbn [negb]; [reflexivity |].
    destruct Hkv as [-> | Hv]; [discriminate |].
    destruct v as [| b | n | s | items | fs]; try reflexivity.
    exfalso. now apply (Hv s).
Qed.

End InboundStrings.

Lemma sanitizeInput_postcondition_witness :
  (forall s, exists t,
      sample_sanitizeHtml Sanitize.textFilter s
      = Sanitize.textFilter (Sanitize.escapeHtml t))
  /\ Sanitize.body
       (Sanitize.sanitizeInput sample_sanitizeHtml
          (Sanitize.mkSanRequest
             (Some [("message", JStr " Tom & Jerry "); ("_csrf", JStr "<t>");
                    ("tags", JArr [JStr "<i>"])])
             None))
     = Some [("message", JStr "Tom &amp; Jerry"); ("_csrf", JStr "<t>");
             ("tags", JArr [JStr "<i>"])]
  /\ option_map (List.map fst)
       (Sanitize.body
          (Sanitize.sanitizeInput sample_sanitizeHtml
             (Sanitize.mkSanRequest
                (Some [("message", JStr " Tom & Jerry "); ("_csrf", JStr "<t>");
                       ("tags", JArr [JStr "<i>"])])
                None)))
     = Some ["message"; "_csrf"; "tags"].
Proof.
  assert (H1 : forall s, exists t,
             sample_sanitizeHtml Sanitize.textFilter s
             = Sanitize.textFilter (Sanitize.escapeHtml t)).
  { intros s. exists (decodeEntities 0 s). reflexivity. }
  split; [exact H1 |]. split; [vm_compute; reflexivity |].
  exact (proj1 (sanitizeInput_postcondition sample_sanitizeHtml H1
                  (Sanitize.mkSanRequest
                     (Some [("message", JStr " Tom & Jerry "); ("_csrf", JStr "<t>");
                            ("tags", JArr [JStr "<i>"])])
                     None))).
Defined.

Section OutboundStrings.
Variable xss : bool -> string -> string.

(** With an empty white list the XSS filter leaves no angle bracket. *)
Hypothesis xss_no_angle : forall b s, Sanitize.no_angle (xss b s) = true.

Lemma sanitizeObject_fields (fields : list (string * Json)) :
  Sanitize.sanitizeObject xss (JObj fields)
  = JObj (List.map
            (fun kv : string * Json =>
               let (key, value) := kv in
               match value with
               | JStr s => (key, JStr (xss false s))
               | JNull | JArr _ | JObj _ => (key, Sanitize.sanitizeObject xss value)
               | _ => (key, value)
               end) (List.filter Sanitize.assignable fields)).
Proof.
  cbn [Sanitize.sanitizeObject]. f_equal.
  apply filter_assignable_map. intros [k []]; reflexivity.
Qed.

Lemma reassigned_fields (fields : list (string * Json)) :
  JsonShape.reassigned (JObj fields)
  = JObj (List.map (fun kv : string * Json =>
                      let (key, value) := kv in (key, JsonShape.reassigned value))
            (List.filter Sanitize.assignable fields)).
Proof.
  cbn [JsonShape.reassigned]. f_equal.
  apply filter_assignable_map. now intros [k v].
Qed.

Lemma sanitizeObject_skeleton (obj : Json) :
  JsonShape.skeleton (Sanitize.sanitizeObject xss obj)
  = JsonShape.skeleton (JsonShape.reassigned obj).
Proof.
  induction obj as [| b | n | s | items IH | fields IH] using Json_nested_ind;
    try reflexivity.
  - cbn [Sanitize.sanitizeObject JsonShape.reassigned JsonShape.skeleton]. f_equal.
    rewrite !List.map_map. apply List.map_ext_in. intros x Hx.
    rewrite Forall_forall in IH. now apply IH, list_elem_of_In.
  - rewrite sanitizeObject_fields, reassigned_fields.
    cbn [JsonShape.skeleton]. f_equal.
    rewrite !List.map_map. apply List.map_ext_in. intros [k v] Hx.
    apply filter_In in Hx as [Hx _].
    rewrite Forall_forall in IH. apply list_elem_of_In, IH in Hx. cbn [snd] in Hx.
    destruct v as [| b | n | s | items | fields']; try reflexivity.
    + now rewrite Hx.
    + now rewrite Hx.
Qed.

Lemma sanitizeObject_clean (obj : Json) :
  JsonShape.field_strings_clean (Sanitize.sanitizeObject xss obj) = true.
Proof.
  induction obj as [| b | n | s | items IH | fields IH] using Json_nested_ind;
    try reflexivity.
  - cbn [Sanitize.sanitizeObject JsonShape.field_strings_clean].
    apply forallb_forall. intros y Hy. apply in_map_iff in Hy as (x & <- & Hx).
    rewrite Forall_forall in IH. now apply IH, list_elem_of_In.
  - rewrite sanitizeObject_fields. cbn [JsonShape.field_strings_clean].
    apply forallb_forall. intros y Hy. apply in_map_iff in Hy as ([k v] & <- & Hx).
    apply filter_In in Hx as [Hx _].
    rewrite Forall_forall in IH. apply list_elem_of_In, IH in Hx. cbn [snd] in Hx.
    destruct v as [| b | n | s | items | fields']; try reflexivity.
    + apply xss_no_angle.
    + exact Hx.
    + exact Hx.
Qed.

Lemma sanitizeObject_untouched (obj : Json) :
  JsonShape.has_string_field obj = false ->
  Sanitize.sanitizeObject xss obj = JsonShape.reassigned obj.
Proof.
  induction obj as [| b | n | s | items IH | fields IH] using Json_nested_ind;
    try reflexivity.
  - cbn [Sanitize.sanitizeObject JsonShape.reassigned JsonShape.has_string_field].
    intros H. f_equal. apply List.map_ext_in. intros x Hx.
    rewrite Forall_forall in IH. apply IH; [now apply list_elem_of_In |].
    destruct (JsonShape.has_string_field x) eqn:E; [| reflexivity].
    rewrite <- H. symmetry. apply existsb_exists. exists x. auto.
  - rewrite sanitizeObject_fields, reassigned_fields.
    cbn [JsonShape.has_string_field]. intros H. f_equal.
    apply List.map_ext_in. intros [k v] Hx. apply filter_In in Hx as [Hx _].
    assert (Hv : match v with
                 | JStr _ => true
                 | _ => JsonShape.has_string_field v
                 end = false).
    { destruct (match v with JStr _ => true | _ => JsonShape.has_string_field v end)
        eqn:E; [| reflexivity].
      rewrite <- H. symmetry. apply existsb_exists. exists (k, v). auto. }
    rewrite Forall_forall in IH.
    pose proof (IH (k, v) (proj2 (list_elem_of_In _ _) Hx)) as IHv. cbn [snd] in IHv.
    destruct v as [| b | n | s | items | fields']; try reflexivity;
      try discriminate Hv; now rewrite IHv.
Qed.

Lemma reassigned_without_proto (obj : Json) :
  JsonShape.names_proto obj = false -> JsonShape.reassigned obj = obj.
Proof.
  induction obj as [| b | n | s | items IH | fields IH] using Json_nested_ind;
    try reflexivity.
  - cbn [JsonShape.reassigned JsonShape.names_proto]. intros H. f_equal.
    rewrite <- (List.map_id items) at 2. apply List.map_ext_in. intros x Hx.
    rewrite Forall_forall in IH. apply IH; [now apply list_elem_of_In |].
    destruct (JsonShape.names_proto x) eqn:E; [| reflexivity].
    rewrite <- H. symmetry. apply existsb_exists. exists x. auto.
  - cbn [JsonShape.reassigned JsonShape.names_proto]. intros H. f_equal.
    induction fields as [|[k v] fs IHfs]; [reflexivity |].
    cbn [existsb] in H. apply orb_false_iff in H as [Hkv Hfs].
    apply orb_false_iff in Hkv as [Hk Hv].
    inversion IH as [|? ? Hhead Htail]; subst.
    cbn [List.map List.filter]. unfold Sanitize.assignable at 1. cbn [fst].
    rewrite Hk. cbn [negb]. cbn [snd] in Hhead.
    now rewrite (Hhead Hv), (IHfs Htail Hfs).
Qed.

(** X22. What [sanitizeObject] does to a response and what it does not.
    It copies every object, entry by entry, into a fresh one, so a field
    named [__proto__] is lost at any depth; a value that has no such field
    keeps its shape: the same fields in the same order, arrays of the same
    length, and every value that is not a string.  Afterwards every string
    that is the value of a field of an object, at any depth, is free of
    angle brackets.  A string that is an item of an array is not such a
    field: a value in which no object has a string for a field, like an
    array of strings, is returned as the copy leaves it. *)
Theorem sanitizeObject_postcondition (obj : Json) :
  JsonShape.skeleton (Sanitize.sanitizeObject xss obj)
  = JsonShape.skeleton (JsonShape.reassigned obj)
  /\ (JsonShape.names_proto obj = false ->
      JsonShape.reassigned obj = obj
      /\ JsonShape.skeleton (Sanitize.sanitizeObject xss obj) = JsonShape.skeleton obj)
  /\ (forall v, Sanitize.sanitizeObject xss (JObj [("__proto__", v)]) = JObj [])
  /\ JsonShape.field_strings_clean (Sanitize.sanitizeObject xss obj) = true
  /\ (JsonShape.has_string_field obj = false ->
      Sanitize.sanitizeObject xss obj = JsonShape.reassigned obj)
  /\ (forall k l,
        k <> "__proto__" ->
        Sanitize.sanitizeObject xss (JObj [(k, JArr (List.map JStr l))])
        = JObj [(k, JArr (List.map JStr l))]).
Proof.
  split; [apply sanitizeObject_skeleton |].
  split.
  { intros H. pose proof (reassigned_without_proto obj H) as E.
    split; [exact E |]. rewrite sanitizeObject_skeleton. now rewrite E. }
  split.
  { intros v. rewrite sanitizeObject_fields. reflexivity. }
  split; [apply sanitizeObject_clean |].
  split; [apply sanitizeObject_untouched |].
  intros k l Hk. apply String.eqb_neq in Hk.
  assert (Hs : forall l', existsb JsonShape.has_string_field (List.map JStr l') = false).
  { induction l' as [|s l' IH]; [reflexivity | exact IH]. }
  assert (Hp : forall l', existsb JsonShape.names_proto (List.map JStr l') = false).
  { induction l' as [|s l' IH]; [reflexivity | exact IH]. }
  rewrite sanitizeObject_untouched.
  - apply reassigned_without_proto.
    cbn [JsonShape.names_proto existsb]. now rewrite Hk, Hp.
  - cbn [JsonShape.has_string_field existsb]. now rewrite Hs.
Qed.

End OutboundStrings.

Lemma sanitizeObject_postcondition_witness :
  (forall (b : bool) s, Sanitize.no_angle (sample_xss b s) = true)
  /\ Sanitize.sanitizeObject sample_xss
       (JObj [("name", JStr "<b>NSK</b>"); ("tags", JArr [JStr "<i>"]);
              ("__proto__", JObj [("admin", JBool true)]);
              ("seller", JObj [("company", JStr "<A&B>")])])
     = JObj [("name", JStr "bNSK/b"); ("tags", JArr [JStr "<i>"]);
             ("seller", JObj [("company", JStr "A&B")])]
  /\ JsonShape.field_strings_clean
       (Sanitize.sanitizeObject sample_xss
          (JObj [("name", JStr "<b>NSK</b>"); ("tags", JArr [JStr "<i>"]);
                 ("__proto__", JObj [("admin", JBool true)]);
                 ("seller", JObj [("company", JStr "<A&B>")])])) = true.
Proof.
  assert (H3 : forall (b : bool) s, Sanitize.no_angle (sample_xss b s) = true).
  { intros b s. apply no_angle_textFilter. }
  split; [exact H3 |]. split; [vm_compute; reflexivity |].
  exact (proj1 (proj2 (proj2 (proj2
           (sanitizeObject_postcondition sample_xss H3
              (JObj [("name", JStr "<b>NSK</b>"); ("tags", JArr [JStr "<i>"]);
                     ("__proto__", JObj [("admin", JBool true)]);
                     ("seller", JObj [("company", JStr "<A&B>")])])))))).
Defined.

(** ** The floor of the save hooks *)

(** The floor of a Number that is a floor already is that Number. *)
Lemma Math_floor_stable (x : Number) :
  is_binary64 x = true -> Math_floor (Math_floor x) = Math_floor x.
Proof.
  intros Hv. destruct x as [s | s | | s m e]; try reflexivity.
  cbn [Math_floor]. destruct (0 <=? e) eqn:He.
  - cbn [Math_floor]. now rewrite He.
  - apply Z.leb_gt in He.
    pose proof (binary64_mantissa _ _ _ Hv) as Hm.
    pose proof (signed_abs s m) as Ha.
    assert (Hk : Z.abs (Z.shiftl (signed s m) e) < 2 ^ 53).
    { rewrite <- (Z.opp_involutive e), Z.shiftl_opp_r, Z.shiftr_div_pow2 by lia.
      assert (Hp : 0 < 2 ^ (- e)) by (apply Z.pow_pos_nonneg; lia).
      pose proof (Z.mul_div_le (signed s m) (2 ^ (- e)) Hp) as H1.
      pose proof (Z.mul_succ_div_gt (signed s m) (2 ^ (- e)) Hp) as H2.
      destruct s; cbn [signed] in *; nia. }
    destruct (Z.shiftl (signed s m) e) as [|p|p] eqn:Ek.
    + reflexivity.
    + cbn [binary_normalize].
      destruct (binary_round_small false p) as (mz & n & Hn & E & Hmz); [lia |].
      rewrite E. cbn [Math_floor].
      destruct (0 <=? - n); [reflexivity |].
      cbn [signed]. rewrite Hmz, (shiftl_neg_exact (Zpos p) n Hn).
      cbn [binary_normalize]. exact E.
    + cbn [binary_normalize].
      destruct (binary_round_small true p) as (mz & n & Hn & E & Hmz);
        [cbn in Hk; lia |].
      rewrite E. cbn [Math_floor].
      destruct (0 <=? - n); [reflexivity |].
      cbn [signed].
      replace (Zneg mz) with (Zneg p * 2 ^ n)
        by (change (Zneg mz) with (- Zpos mz); change (Zneg p) with (- Zpos p);
            rewrite Hmz; ring).
      rewrite (shiftl_neg_exact (Zneg p) n Hn).
      cbn [binary_normalize]. exact E.
Qed.

Lemma normalize_quantity_stable (q : Number) :
  is_binary64 q = true ->
  normalize_quantity (normalize_quantity q) = normalize_quantity q.
Proof.
  intros Hv. unfold normalize_quantity.
  destruct (truthy q) eqn:Hq; [| now rewrite Hq].
  destruct (truthy (Math_floor q)); [now apply Math_floor_stable | reflexivity].
Qed.

(** X23. The floor that the save hook takes of the quantity is stable:
    saving an inquiry again leaves the quantity that the first save has
    left, so the respond route stores an inquiry of the create route with
    the quantity it found. *)
Theorem saved_quantity_is_stable (d : Inquiry.t) :
  is_binary64 (Inquiry.quantity d) = true ->
  Inquiry.quantity (Inquiry.preSave (Inquiry.preSave d))
  = Inquiry.quantity (Inquiry.preSave d)
  /\ forall newId user seller b now rb later,
       Routes.quantity b = Inquiry.quantity d ->
       Inquiry.quantity
         (responded_inquiry (created_inquiry newId user seller b now) rb later)
       = Inquiry.quantity (created_inquiry newId user seller b now).
Proof.
  intros Hv. split.
  - rewrite !preSave_fields. cbn [Inquiry.quantity].
    now apply normalize_quantity_stable.
  - intros newId user seller b now rb later Hq.
    unfold responded_inquiry, created_inquiry. cbn [Inquiry.quantity].
    rewrite Hq. now apply normalize_quantity_stable.
Qed.

Lemma saved_quantity_is_stable_witness :
  is_binary64 (Inquiry.quantity inquiry2) = true
  /\ Inquiry.quantity (Inquiry.preSave inquiry2) = of_Z 5
  /\ Inquiry.quantity (Inquiry.preSave (Inquiry.preSave inquiry2)) = of_Z 5.
Proof.
  assert (Hv : is_binary64 (Inquiry.quantity inquiry2) = true)
    by (vm_compute; reflexivity).
  split; [exact Hv |]. split; [vm_compute; reflexivity |].
  rewrite (proj1 (saved_quantity_is_stable inquiry2 Hv)). vm_compute. reflexivity.
Defined.

(** X24. The save hook of a product does to the price and the stock what
    the one of an inquiry does to its prices and its quantity: a finite
    stock is left as the Number of its exact floor, and that floor is
    stable under a further save; the price is replaced by
    [Math.round(price * 100) / 100], computed in Numbers, so that a price
    of 2.675 is left as 2.68 and one of 1.005 as 1; and nothing else of
    the product changes. *)
Theorem product_preSave_normalizes (p : Product.t) :
  (is_binary64 (Product.stock p) = true ->
   is_finite (Product.stock p) = true ->
   intval (Product.stock (ProductVirtual.preSave p)) = floorZ (Product.stock p))
  /\ (is_binary64 (Product.stock p) = true ->
      Product.stock (ProductVirtual.preSave (ProductVirtual.preSave p))
      = Product.stock (ProductVirtual.preSave p))
  /\ ProductVirtual.preSave p
     = Product.mk (Product._id p) (Product.name p) (normalize_price (Product.price p))
         (Product.seller p) (normalize_quantity (Product.stock p))
         (Product.isActive p) (Product.views p)
  /\ (Product.price p = of_decimal 2675 3 ->
      Product.price (ProductVirtual.preSave p) = of_decimal 268 2)
  /\ (Product.price p = of_decimal 1005 3 ->
      Product.price (ProductVirtual.preSave p) = of_Z 1).
Proof.
  assert (E : forall q, ProductVirtual.preSave q
              = Product.mk (Product._id q) (Product.name q)
                  (normalize_price (Product.price q)) (Product.seller q)
                  (normalize_quantity (Product.stock q)) (Product.isActive q)
                  (Product.views q)).
  { intros [i n pr se st ac vw].
    unfold ProductVirtual.preSave, normalize_price, normalize_quantity.
    cbn [Product._id Product.name Product.price Product.seller Product.stock
         Product.isActive Product.views].
    destruct (truthy pr);
      cbn [Product._id Product.name Product.price Product.seller Product.stock
           Product.isActive Product.views];
      destruct (truthy st); reflexivity. }
  rewrite !E. cbn [Product.stock Product.price].
  split; [apply normalize_quantity_floor |].
  split; [apply normalize_quantity_stable |].
  split; [reflexivity |].
  split; intros ->; vm_compute; reflexivity.
Qed.

(** ** Two ways to the status "responded" *)

(** X25. The table lets [updateStatus] take a pending inquiry to
    "responded" without a response.  When such a call returns for an
    inquiry that has no response, the inquiry is left responded and still
    without one, [respondToInquiry] refuses it from then on whatever the
    payload, and it is not an inquiry as the routes store them. *)
Theorem updateStatus_can_skip_the_response (d d' : Inquiry.t) (now : Z) (a : unit) :
  Inquiry.updateStatus "responded" now d = (d', Returned a) ->
  Inquiry.response d = None ->
  Inquiry.status d = "pending"
  /\ Inquiry.status d' = "responded"
  /\ Inquiry.response d' = None
  /\ (forall data t,
        Inquiry.respondToInquiry data t d' = (d', Thrown AlreadyResponded))
  /\ forall id, inquiry_sound id d' = false.
Proof.
  intros E Hr. destruct (updateStatus_returned _ _ _ _ _ E) as [Hal Hs].
  assert (Hresp : Inquiry.response d' = None).
  { revert E. unfold Inquiry.updateStatus, bind, this.
    destruct (Inquiry.validTransitions !! Inquiry.status d) as [allowed|];
      [| discriminate].
    destruct (includes allowed "responded"); cbn [negb]; [| discriminate].
    unfold assign. rewrite save_run.
    destruct (Inquiry.validate _); [| discriminate].
    intros E. inversion E; subst d'. rewrite preSave_fields.
    cbn [Inquiry.response Inquiry.set_updatedAt Inquiry.set_status].
    now rewrite Hr. }
  split; [inversion Hal; reflexivity |].
  split; [exact Hs |]. split; [exact Hresp |]. split.
  - intros data t. rewrite respondToInquiry_run, Hs. reflexivity.
  - intros id. unfold inquiry_sound. rewrite Hresp, Hs.
    now rewrite !andb_false_r.
Qed.

Lemma updateStatus_can_skip_the_response_witness :
  Inquiry.updateStatus "responded" 2000 inquiry1
  = (Inquiry.set_updatedAt 2000 (Inquiry.set_status "responded" inquiry1), Returned tt)
  /\ Inquiry.response inquiry1 = None
  /\ Inquiry.response (Inquiry.set_updatedAt 2000 (Inquiry.set_status "responded" inquiry1))
     = None
  /\ Inquiry.respondToInquiry quote1_data 3000
       (Inquiry.set_updatedAt 2000 (Inquiry.set_status "responded" inquiry1))
     = (Inquiry.set_updatedAt 2000 (Inquiry.set_status "responded" inquiry1),
        Thrown AlreadyResponded).
Proof.
  assert (E : Inquiry.updateStatus "responded" 2000 inquiry1
              = (Inquiry.set_updatedAt 2000 (Inquiry.set_status "responded" inquiry1),
                 Returned tt)) by (vm_compute; reflexivity).
  split; [exact E |]. split; [reflexivity |].
  destruct (updateStatus_can_skip_the_response _ _ _ _ E eq_refl)
    as (_ & _ & H3 & H4 & _).
  split; [exact H3 | exact (H4 quote1_data 3000)].
Defined.

(** The validators read the quantity, the message, the status, the
    contact, the response, the expected price and the urgency, and
    nothing else. *)
Lemma validate_ext (d d' : Inquiry.t) :
  Inquiry.quantity d = Inquiry.quantity d' ->
  Inquiry.message d = Inquiry.message d' ->
  Inquiry.status d = Inquiry.status d' ->
  Inquiry.buyerContact d = Inquiry.buyerContact d' ->
  Inquiry.response d = Inquiry.response d' ->
  Inquiry.expectedPrice d = Inquiry.expectedPrice d' ->
  Inquiry.urgency d = Inquiry.urgency d' ->
  Inquiry.validate d = Inquiry.validate d'.
Proof.
  intros Hq Hm Hs Hc Hr Hx Hu. unfold Inquiry.validate, Inquiry.schemaPaths.
  cbn [List.filter Inquiry.check]. now rewrite Hq, Hm, Hs, Hc, Hr, Hx, Hu.
Qed.

(** A call of [updateStatus] along an entry of the table returns for an
    inquiry that the validators accept; the validators then find in the
    inquiry what they find in it after the save hook. *)
Lemma updateStatus_allowed (d : Inquiry.t) (to : string) (now : Z) :
  Allowed (Inquiry.status d) to ->
  Inquiry.validate d = [] ->
  exists d', Inquiry.updateStatus to now d = (d', Returned tt)
             /\ Inquiry.status d' = to
             /\ Inquiry.validate d' = Inquiry.validate (Inquiry.preSave d).
Proof.
  intros Hal Hv.
  assert (Hin : In (Inquiry.status d) Inquiry.statusValues)
    by (inversion Hal; cbn; tauto).
  assert (Hto : In to Inquiry.statusValues)
    by (inversion Hal; cbn; tauto).
  destruct (validTransitions_defined _ Hin) as (allowed & Hl & Hsub).
  pose proof (proj2 (validTransitions_lookup _ _ Hl to) Hal) as Hinc.
  apply includes_spec in Hinc.
  rewrite (updateStatus_run d to now allowed Hl), Hinc.
  rewrite (validate_set_status to d Hto Hin), Hv.
  eexists. split; [reflexivity |]. split.
  - cbn [Inquiry.status Inquiry.set_updatedAt]. now rewrite status_preSave.
  - rewrite <- (validate_set_status to (Inquiry.preSave d) Hto)
      by (now rewrite status_preSave).
    apply validate_ext; rewrite !preSave_fields; reflexivity.
Qed.

Lemma updateStatus_each_two (d : Inquiry.t) (s1 s2 : string) (now : Z) :
  Inquiry.validate d = [] ->
  Inquiry.validate (Inquiry.preSave d) = [] ->
  Allowed (Inquiry.status d) s1 -> Allowed s1 s2 ->
  exists d', updateStatus_each [s1; s2] now d = (d', Returned tt)
             /\ Inquiry.status d' = s2.
Proof.
  intros Hv Hv' H1 H2.
  destruct (updateStatus_allowed d s1 now H1 Hv) as (d1 & E1 & Hs1 & Hv1).
  rewrite <- Hs1 in H2. rewrite Hv' in Hv1.
  destruct (updateStatus_allowed d1 s2 now H2 Hv1) as (d2 & E2 & Hs2 & _).
  exists d2. split; [| exact Hs2].
  cbn [updateStatus_each]. unfold bind, ret. rewrite E1, E2. reflexivity.
Qed.

(** X26. No status of the schema is out of reach: from a pending inquiry
    that the validators of the schema accept, as it is and as the save
    hook leaves it, every one of the six values is the status after a
    sequence of at most two [updateStatus] calls that all return. *)
Theorem every_status_is_reached (d : Inquiry.t) (s : string) (now : Z) :
  Inquiry.status d = "pending" ->
  Inquiry.validate d = [] ->
  Inquiry.validate (Inquiry.preSave d) = [] ->
  In s Inquiry.statusValues ->
  exists targets d',
    (length targets <= 2)%nat
    /\ updateStatus_each targets now d = (d', Returned tt)
    /\ Inquiry.status d' = s.
Proof.
  intros Hp Hv Hv' Hs. unfold Inquiry.statusValues in Hs. cbn [In] in Hs.
  destruct Hs as [<- | [<- | [<- | [<- | [<- | [<- | []]]]]]].
  - exists [], d. split; [cbn; lia |]. split; [reflexivity | exact Hp].
  - destruct (updateStatus_allowed d "responded" now) as (d' & E & H' & _);
      [rewrite Hp; constructor | exact Hv |].
    exists ["responded"], d'. split; [cbn; lia |]. split; [| exact H'].
    cbn [updateStatus_each]. unfold bind, ret. now rewrite E.
  - destruct (updateStatus_each_two d "responded" "accepted" now Hv Hv')
      as (d' & E & H'); [rewrite Hp; constructor | constructor |].
    exists ["responded"; "accepted"], d'. split; [cbn; lia |]. now split.
  - destruct (updateStatus_each_two d "responded" "rejected" now Hv Hv')
      as (d' & E & H'); [rewrite Hp; constructor | constructor |].
    exists ["responded"; "rejected"], d'. split; [cbn; lia |]. now split.
  - destruct (updateStatus_each_two d "responded" "completed" now Hv Hv')
      as (d' & E & H'); [rewrite Hp; constructor | constructor |].
    exists ["responded"; "completed"], d'. split; [cbn; lia |]. now split.
  - destruct (updateStatus_allowed d "cancelled" now) as (d' & E & H' & _);
      [rewrite Hp; constructor | exact Hv |].
    exists ["cancelled"], d'. split; [cbn; lia |]. split; [| exact H'].
    cbn [updateStatus_each]. unfold bind, ret. now rewrite E.
Qed.

Lemma every_status_is_reached_witness :
  Inquiry.status inquiry1 = "pending"
  /\ Inquiry.validate inquiry1 = []
  /\ Inquiry.validate (Inquiry.preSave inquiry1) = []
  /\ In "rejected" Inquiry.statusValues
  /\ exists targets d',
       (length targets <= 2)%nat
       /\ updateStatus_each targets 2000 inquiry1 = (d', Returned tt)
       /\ Inquiry.status d' = "rejected".
Proof.
  assert (Hp : Inquiry.status inquiry1 = "pending") by reflexivity.
  assert (Hv : Inquiry.validate inquiry1 = []) by (vm_compute; reflexivity).
  assert (Hv' : Inquiry.validate (Inquiry.preSave inquiry1) = [])
    by (vm_compute; reflexivity).
  assert (Hs : In "rejected" Inquiry.statusValues) by (cbn; tauto).
  split; [exact Hp |]. split; [exact Hv |]. split; [exact Hv' |]. split; [exact Hs |].
  exact (every_status_is_reached inquiry1 "rejected" 2000 Hp Hv Hv' Hs).
Defined.
